(* ===== verification/_CoqProject ===== *)
-Q . S2P
Prelude.v
JsString.v
JsValue.v
Random.v
Runtime.v
Hashtags.v
Synth.v
AiService.v
I18n.v
Dates.v
Types.v
Constants.v
Stores.v
Dispatcher.v
Trpc.v
CreateFlow.v
LegacyCreate.v
ProfileForm.v
CountryPicker.v
Settings.v
Preview.v
Button.v
Pages.v
Components.v
Analytics.v
ProfileEdit.v
Navigation.v
