(* ===== verification/Prelude.v ===== *)
(** * Verification of the content generation platform (rork-ever-ai clone)

    ** The program

    The repository is an Expo / React Native app written in TypeScript.
    Its logic is in four places.

    - The content generation mutation of the tRPC backend
      ([src/backend/trpc/routes/content/generate.ts]).  For a prompt, a
      platform name and a content type, it calls the 1min.ai provider over
      HTTP (text and image) and normalises the JSON answer.  Where that
      fails it falls back to synthetic content: platform templates with
      hashtags and emoji, a stock-photo URL, or a pool of sample media
      URLs.  One [try] holds the whole body, and its [catch] turns every
      exception into an error string.
    - The client generation service ([src/services/aiService.ts]), which
      the screens call.
    - The zustand stores ([src/store/*.ts]): the content history, the user
      with its connected platforms, the theme, and the language with the
      translation lookup [t].
    - The screens and components ([src/app], [src/components]).  Their
      event handlers drive the stores.

    ** Files, in dependency order, and what they model

    - [Prelude] (this file): the state-and-exception monad [st] and its
      notation in [eff_scope], string and list lemmas, the hint databases
      [strdb] and [genhints], and the tactics [invc], [str_simpl],
      [case_bool] and [str_contains_tac].
    - [JsString]: the JavaScript string built-ins the code calls
      ([toLowerCase], [toUpperCase], [charAt], [slice], UTF-16 [length],
      [split(/\s+/)], [replace(/[^a-z]/g,'')], [join], [encodeURIComponent]).
    - [JsValue]: values after [response.json()], truthiness, property
      access with its [TypeError], [typeof], and thrown values.
    - [Random]: the [RandomSource] class ([Math.random] as [k / 2^53]) and
      [Math.floor(Math.random() * n)].
    - [Runtime]: the [World] of one handler (random seed, the network as an
      oracle, the log of requests sent), [fetch], [Eff], the bound
      [sends_at_most] and its hint database [effdb].
    - [Hashtags] and [Synth]: [getRelevantHashtags] (generate.ts 245-269),
      [getRelevantEmojis], [formatPrompt] and [getPlatformSpecificContent]
      (185-286).
    - [Dispatcher]: the zod schema [parse_input] and the whole handler
      [generate_mutation] (generate.ts 1-182).  It is split as the code is:
      [generate_text], [generate_image] with [image_attempt], and
      [pick_sample].
    - [Trpc]: the router of backend/trpc/app-router.ts as a tree looked
      up along the call's dotted path, with [content.generate] leading to
      the dispatcher's procedure, and the mock client of lib/trpc.ts.
    - [AiService]: [generateContent] of aiService.ts.
    - [I18n]: [t] of i18n/index.ts and the language store.  The five
      translation tables are section variables, because the repository
      does not contain them.
    - [Dates]: the [Date] arithmetic and the handlers of DatePicker.tsx,
      and the picker with its parent as a step function
      ([picker_step]) over the controls its render offers.
    - [Types] and [Constants]: types/index.ts and the constant tables
      ([COLORS], [SOCIAL_PLATFORMS], [FONTS]).
    - [Stores]: Module [ContentStore] (contentStore.ts), Module [UserStore]
      (userStore.ts) and Module [ThemeStore] (themeStore.ts).  Each action
      is a function on the store's state record.  The typeclasses
      [ContentStoreOps]/[ContentStoreLaws] and [UserStoreOps]/[UserStoreLaws]
      are what the screens rely on; the modules' instances discharge them.
    - [CreateFlow]: the create tab (app/(tabs)/create.tsx).  It is a state
      machine: [step] runs the handlers, and each handler is split at its
      [await] or [setTimeout] so that a pending continuation is part of
      the state.  Every press of [Generate] has a closure of its own, so
      the generations in flight form a queue, any of which may settle
      first.  [available] says which events the render offers, and
      [run] folds [ui_step] over a sequence of events.
    - [LegacyCreate]: app/create.tsx, SocialPlatformSelector.tsx and
      ContentTypeSelector.tsx, with the same queue of generations.  The
      [ContentType] object the screen sends is converted by the
      template literal's [ToString] ([JsValue.template_string]).
    - [ProfileForm]: validation and saving in app/profile/edit.tsx; the
      save timer stores the user its closure captured.
    - [CountryPicker]: CountryCodePicker.tsx (handlers and render) and
      the login screen.
    - [Settings]: the settings tab.
    - [Preview]: ContentPreview.tsx.
    - [Button]: the shared Button.tsx.  It holds the press guard
      ([disabled || loading]), the gradient colours by variant, and the
      type [hex_color] of CSS colours.
    - [Pages]: the render of the login screen's two buttons, and the link
      buttons of the about and Ever AI pages and the
      addresses they open through the [Button] guard.
    - [Components]: Card.tsx, MatrixBackground.tsx, FontProvider.tsx and
      ProfileHeader.tsx, each a function from its props and the stores to
      what it shows.  [JsString] holds [String.prototype.replace] with a
      string pattern ([js_replace]), which the header uses.
    - [Analytics]: the analytics tab ((tabs)/analytics.tsx, its handler
      in Module [AnalyticsTab]) and AnalyticsChart.tsx.  The mock data is drawn with [Math.random] in
      the Eff monad, in the order of the object literal, and the chart's
      bar heights are rationals ([Q]).
    - [ProfileEdit]: the profile editor's hooks and handlers
      (app/profile/edit.tsx): the mount effect, the picture modal with
      its two awaits, and the save press.
    - [Navigation]: the app shell.  It covers app/_layout.tsx (the
      [prepare()] promise), app/index.tsx (the splash timer), the tab bar,
      and the home tab's guard and buttons.  The router is a stack of
      routes, and the state is composed with the stores, the login
      screen, the settings handlers and the profile editor.  The pending
      callbacks are part of the state: prepare, the splash timer, the
      login wait, the queued save timers and the picker's awaits.  Time
      is not modelled, so a callback may fire after any number of
      presses.

    ** What the theorems show

    - The handler.  It always completes with a value and never throws.  It
      sends at most one request.  Video and audio come from fixed pools
      without any request.  Each text and image outcome is characterised:
      provider answer, fallback text, error string, or stock-photo URL.
      The stock-photo URL carries the encoded platform query.
    - The fallbacks.  The hashtags are the platform's base tags followed by
      at most three keyword tags, without duplicates.  A platform whose
      key is [constructor] throws.  On ASCII names the platform key
      ignores case and non-letters.  There are exactly three emoji from the pool.  The
      fallback text echoes the prompt and contains a hashtag.
    - The stores.  Every state reachable by [UserStore.step] keeps the
      user's platform ids distinct.  [connectPlatform] and
      [markAsPublished] are specified exactly, and the theme colours agree
      with the theme.
    - The create flows.  On both create screens at most one generation is
      in flight, one exactly while [isGenerating] is set, and no control
      that starts one is offered meanwhile; this holds along every run.
      The effects of a resolved generation and of publishing are proved
      for every state, as are the defects listed below.
    - The app shell.  An invariant holds along every run.  The stack is a
      root screen or one screen over a tab.  A screen with user data is
      shown only while logged in, and the user store stays well-formed.
      It follows that the home tab's redirect never fires.  From any
      persisted store the app reaches the home tab or the login screen
      by exactly two callbacks (liveness).  The callbacks alone always
      run out: the pending count bounds every run, so the relation is
      well founded (termination).  The theme colours keep the [#RRGGBB]
      type, so every alpha-suffixed colour (cards, background, glass
      button, selector highlights) is a valid [#RRGGBBAA] (type).
    - Saving the profile editor unchanged is characterised field by
      field (roundtrip).  A new password is dropped, and a short one
      blocks the save.  The save timer, from every reachable state with
      the settings tab shown, restores the user after a logout and
      closes a screen opened meanwhile.
    - The analytics tab.  Selecting a platform sends nothing and always
      yields data of that platform.  Each figure lies in the range it is
      drawn from, and the history has seven days.  The chart's seven bars
      have heights in (0, 150], and the highest is exactly 150 (bounds).
    - The tRPC router answers each path as its route table says, and the
      mock client never reaches it (refinement).
    - The date picker.  Along every run of the picker and its parent the
      selected and edited dates stay valid dates of the range, so every
      confirmed date is one, and the month and year handlers' day
      adjustments never fire (invariant).
    - The profile header shows the count in place of the first [{count}]
      of its translation, or the translation unchanged.
    - The platform selector.  In connected-only mode it shows exactly the
      connected platforms of the table, in the table's order, and at most
      one of them is selected.
    - The other screens.  [t] falls back to English, then to the key.
      [getDaysInMonth] agrees with the Gregorian calendar.  The validation
      regexes are checked on examples.  Which controls each screen offers
      is proved.

    ** Bounds and fuel

    - The agreement of [getDaysInMonth] with the Gregorian calendar is
      checked by [vm_compute] for the years 1900 to 2100, the range of the
      picker's year list.  The date picker's invariant reads a table, also
      checked by [vm_compute], of every date [new Date(y, m, d)] for those
      years, every month and days 1 to 31; its hypotheses bound the range
      and the current year to those years.
    - [Math.random] is any generator that satisfies [RandomSource], and the
      theorems hold for all of them.
    - No definition uses fuel: every loop of the code is bounded (three
      emoji draws, seven history days, [for] over finite lists).
    - Bar heights are exact rationals, not IEEE doubles: the theorems say
      nothing of the doubles' rounding.
    - Termination of the app shell's callbacks is measured by [pending].
      That is a weighted count of the pending callbacks: prepare and each
      save timer count twice, a permission await twice and a library
      await once.

    ** Defects the model exhibits (each one is a theorem)

    - The text fallback never runs on a network, status or JSON failure.
    - The provider's answer can be returned as [undefined] or as the empty string.
    - The platform key [constructor] throws.
    - The [default] template does not capitalise the prompt (a lemma on
      one input).
    - "Twitter/X" falls into the default hashtag bucket (a lemma).
    - Publishing records the content a second time in the history.
    - The generation continuation keeps a stale content type.
    - The legacy screen sends "[object Object]" whatever the type.
    - Selecting a month can overflow into the next month.
    - The password field is never saved.
    - The primary colour of the settings screen disagrees with the theme.
    - The profile save timer outlives its screen.  A logout within its
      second is undone, and its [back()] closes a screen opened
      meanwhile.
    - Saving the profile unchanged erases a country code that is missing
      from the table.
    - The home tab's redirect to [/login] is dead code, and [setTheme] is
      never called.
    - The Ever AI page's button titled [www.everai.com] opens
      [https://www.example.com].
    - The day adjustments of the date picker's month and year handlers
      never fire, and a month item can be disabled although days of that
      month are in range.
    - [FontProvider] passes no font family whatever the font setting.
    - The client's tRPC is a mock: no call ever reaches the router.
    - The settings tab's notification switches and help button do
      nothing.

    ** What is not modelled, and why

    - Layout, styling and animation (pure UI).
    - zod, tRPC's server internals (create-context.ts is absent),
      zustand's [persist] and AsyncStorage: libraries the code only calls.
      The router's path resolution is modelled as tRPC documents it.
    - Console logging, which is output only.
    - [JSON.parse]: the parsed value is part of the network oracle's
      answer.
    - The text and images of the about and Ever AI pages, and the home
      tab's texts and images: static rendering without behaviour.  The
      home tab's guard and buttons are modelled.
    - The keyboard listeners and scrolling of both create screens: they
      only animate and scroll, and [keyboardVisible] is never read.
    - The missing files [src/constants/apiKeys], [src/i18n/<lang>] and the
      table of country codes: they are section variables.
    - The case mappings are modelled on ASCII letters only; theorems
      about them assume ASCII input where the engine maps more.
    - Strings are UTF-8 byte strings indexed by code point: a lone
      surrogate (which makes [encodeURIComponent] throw) cannot be
      represented, and [s[i]] of a character outside the BMP differs.
    - The time of day of a [Date], and the [RangeError] of [toISOString]
      on an invalid date: the picker and editor compare calendar dates.
    - Number-to-string and array-to-string conversion in template
      literals: the code converts only strings and a plain object.

    ** This file

    The generic definitions every component shares: the monad, runs of a
    step function with their invariant principle ([reachable]), lemmas on
    strings and lists, hint databases and tactics. *)

From Stdlib Require Export String Ascii ZArith Lia.
From stdpp Require Export base list strings decidable option sets.

(** ** A state-and-exception monad *)

(** A computation reads and updates a world [W] and either completes
    normally with a value of [A] or abruptly with an exception of [E]. *)
Inductive outcome (E A : Type) : Type :=
| Ok (a : A)
| Err (e : E).
Arguments Ok {E A} a.
Arguments Err {E A} e.

Definition st (W E A : Type) : Type := W -> outcome E A * W.

Definition st_ret {W E A} (a : A) : st W E A := fun w => (Ok a, w).

Definition st_bind {W E A B} (m : st W E A) (k : A -> st W E B) : st W E B :=
  fun w => match m w with
           | (Ok a, w') => k a w'
           | (Err e, w') => (Err e, w')
           end.

Definition st_throw {W E A} (e : E) : st W E A := fun w => (Err e, w).

(** [try { m } catch (e) { h e }] *)
Definition st_catch {W E A} (m : st W E A) (h : E -> st W E A) : st W E A :=
  fun w => match m w with
           | (Ok a, w') => (Ok a, w')
           | (Err e, w') => h e w'
           end.

Definition st_get {W E} : st W E W := fun w => (Ok w, w).
Definition st_put {W E} (w : W) : st W E unit := fun _ => (Ok tt, w).

(** Lift a pure fallible computation. *)
Definition st_lift {W E A} (r : E + A) : st W E A :=
  match r with inl e => st_throw e | inr a => st_ret a end.

Declare Scope eff_scope.
Delimit Scope eff_scope with eff.
Notation "x <- m ;; k" := (st_bind m (fun x => k))
  (at level 100, m at next level, right associativity) : eff_scope.
Notation "m ;;; k" := (st_bind m (fun _ => k))
  (at level 100, right associativity) : eff_scope.
Notation "'try!' m 'catch!' h" := (st_catch m h)
  (at level 100, m at next level, h at next level) : eff_scope.

Section MonadLaws.
Context {W E : Type}.

Lemma st_bind_ret_l {A B} (a : A) (k : A -> st W E B) w :
  st_bind (st_ret a) k w = k a w.
Proof. reflexivity. Qed.

Lemma st_bind_ok {A B} (m : st W E A) (k : A -> st W E B) w a w' :
  m w = (Ok a, w') -> st_bind m k w = k a w'.
Proof. unfold st_bind. by intros ->. Qed.

Lemma st_bind_assoc {A B C} (m : st W E A) (k : A -> st W E B)
      (j : B -> st W E C) w :
  st_bind (st_bind m k) j w = st_bind m (fun a => st_bind (k a) j) w.
Proof. unfold st_bind. destruct (m w) as [[a|e] w']; reflexivity. Qed.

Lemma st_bind_throw {A B} (e : E) (k : A -> st W E B) w :
  st_bind (st_throw e) k w = (Err e, w).
Proof. reflexivity. Qed.

Lemma st_catch_ret {A} (a : A) (h : E -> st W E A) w :
  st_catch (st_ret a) h w = (Ok a, w).
Proof. reflexivity. Qed.

Lemma st_catch_throw {A} (e : E) (h : E -> st W E A) w :
  st_catch (st_throw e) h w = h e w.
Proof. reflexivity. Qed.

(** A computation whose handler never throws never throws. *)
Lemma st_catch_total {A} (m : st W E A) (h : E -> st W E A) w :
  (forall e w', exists a w'', h e w' = (Ok a, w'')) ->
  exists a w', st_catch m h w = (Ok a, w').
Proof.
  intros Hh. unfold st_catch. destruct (m w) as [[a|e] w']; eauto.
Qed.
End MonadLaws.

(** ** Runs of a step function *)

Section Runs.
Context {S A : Type} (step : S -> A -> S).

(** The states reachable from [s0] by a sequence of actions. *)
Inductive reachable (s0 : S) : S -> Prop :=
| reach_init : reachable s0 s0
| reach_step s a : reachable s0 s -> reachable s0 (step s a).

Lemma reachable_run s0 (acts : list A) : reachable s0 (fold_left step acts s0).
Proof.
  induction acts as [|a acts IH] using rev_ind; [constructor|].
  rewrite fold_left_app. simpl. by constructor.
Qed.

(** An invariant of every step holds in every reachable state. *)
Lemma reachable_invariant (P : S -> Prop) s0 :
  P s0 -> (forall s a, P s -> P (step s a)) -> forall s, reachable s0 s -> P s.
Proof. intros H0 HS s Hr. induction Hr; auto. Qed.
End Runs.

(** ** Strings *)

(** stdpp declares [append] [simpl never]; this equation unfolds one step. *)
Lemma str_app_cons (c : ascii) (a b : string) :
  String c a +:+ b = String c (a +:+ b).
Proof. done. Qed.

Lemma str_app_assoc (a b c : string) : (a +:+ b) +:+ c = a +:+ (b +:+ c).
Proof. induction a as [|x a IH]; [done|]. rewrite !str_app_cons, IH. done. Qed.

Lemma str_app_nil_r (a : string) : a +:+ "" = a.
Proof. induction a as [|x a IH]; [done|]. rewrite !str_app_cons, IH. done. Qed.

Lemma str_app_nil_l (a : string) : "" +:+ a = a.
Proof. done. Qed.

Lemma str_length_app (a b : string) :
  String.length (a +:+ b) = String.length a + String.length b.
Proof. induction a as [|x a IH]; [done|]. rewrite str_app_cons. cbn [String.length]. by rewrite IH. Qed.

Lemma list_ascii_of_string_app (a b : string) :
  list_ascii_of_string (a +:+ b) = list_ascii_of_string a ++ list_ascii_of_string b.
Proof. induction a as [|x a IH]; [done|]. rewrite str_app_cons. cbn [list_ascii_of_string]. by rewrite IH. Qed.

Lemma str_app_eq_nil (a b : string) : a +:+ b = "" -> a = "" /\ b = "".
Proof. destruct a; simpl; [done|discriminate]. Qed.

Create Rewrite HintDb strdb.
#[export] Hint Rewrite str_app_assoc str_app_nil_r str_app_nil_l
  str_length_app list_ascii_of_string_app : strdb.

Create HintDb genhints discriminated.
#[export] Hint Resolve str_app_eq_nil : genhints.

(** [xs] occurs in [s] as a contiguous substring. *)
Definition str_contains (s xs : string) : Prop :=
  exists a b, s = a +:+ xs +:+ b.

Lemma str_contains_app_l s t xs : str_contains s xs -> str_contains (s +:+ t) xs.
Proof.
  intros (a & b & ->). exists a, (b +:+ t). by autorewrite with strdb.
Qed.

Lemma str_contains_app_r s t xs : str_contains t xs -> str_contains (s +:+ t) xs.
Proof.
  intros (a & b & ->). exists (s +:+ a), b. by autorewrite with strdb.
Qed.

Lemma str_contains_refl xs : str_contains xs xs.
Proof. exists "", "". by autorewrite with strdb. Qed.

#[export] Hint Resolve str_contains_app_l str_contains_app_r str_contains_refl : genhints.

(** Occurrences of a pattern, counted at every position. *)
Fixpoint str_count (pat s : string) : nat :=
  (if String.prefix pat s then 1 else 0) +
  match s with
  | EmptyString => 0
  | String _ s' => str_count pat s'
  end.

Lemma str_prefix_app (p s : string) : String.prefix p s = true -> exists b, s = p +:+ b.
Proof.
  revert s. induction p as [|c p IH]; intros s H; [by exists s|].
  destruct s as [|c' s]; [discriminate|]. simpl in H.
  destruct (ascii_dec c c') as [->|]; [|discriminate].
  destruct (IH s H) as [b ->]. by exists b.
Qed.

(** A positive count is an occurrence. *)
Lemma str_count_pos (pat s : string) : 0 < str_count pat s -> str_contains s pat.
Proof.
  induction s as [|c s IH]; intros H; cbn [str_count] in H.
  - destruct (String.prefix pat "") eqn:E; [|simpl in H; lia].
    destruct (str_prefix_app _ _ E) as [b Hb]. exists "", b. exact Hb.
  - destruct (String.prefix pat (String c s)) eqn:E.
    + destruct (str_prefix_app _ _ E) as [b Hb]. rewrite Hb. exists "", b. done.
    + destruct (IH ltac:(simpl in H; lia)) as (a & b & ->). exists (String c a), b. done.
Qed.

(** ** Tactics *)

(** Find [xs] as one of the pieces of a concatenation. *)
Ltac str_contains_tac :=
  solve [ apply str_contains_refl
        | apply str_contains_app_l; str_contains_tac
        | apply str_contains_app_r; str_contains_tac ].

Ltac invc H := inversion H; subst; clear H.

(** Normalise string concatenations. *)
Ltac str_simpl := autorewrite with strdb in *; simpl in *.

(** Case on a boolean test in the goal, keeping the equation. *)
Ltac case_bool :=
  match goal with
  | |- context [if ?b then _ else _] =>
      let E := fresh "E" in destruct b eqn:E
  end.

Lemma str_contains_trans (s t u : string) :
  str_contains s t -> str_contains t u -> str_contains s u.
Proof.
  intros (a & b & ->) (c & d & ->). exists (a +:+ c), (d +:+ b).
  by autorewrite with strdb.
Qed.

(** ** Lists *)

(** In a list whose keys are distinct, at most one element has a given key. *)
Lemma filter_key_at_most_one {A} (f : A -> string) (s : string) (l : list A) :
  NoDup (map f l) -> length (List.filter (fun x => String.eqb s (f x)) l) <= 1.
Proof.
  induction l as [|a l IH]; simpl; [lia|]. intros Hnd. apply NoDup_cons in Hnd as [Hn Hnd].
  destruct (String.eqb_spec s (f a)) as [->|_]; simpl; [|auto].
  destruct (List.filter _ l) as [|b r] eqn:E; simpl; [lia|]. exfalso.
  assert (Hb : In b (List.filter (fun x => String.eqb (f a) (f x)) l)) by (rewrite E; by left).
  apply filter_In in Hb as [Hin Heq]. apply String.eqb_eq in Heq. apply Hn.
  apply list_elem_of_In, in_map_iff. eauto.
Qed.
