(* ===== verification/JsString.v ===== *)
(** * JavaScript string primitives on UTF-8 encoded strings

    A JavaScript string is modelled by its UTF-8 encoding.  This file holds
    the built-in string operations that [generate.ts] calls:
    [toLowerCase], [toUpperCase], [charAt(0)], [slice(1)], [length],
    [split(/\s+/)], [replace(/[^a-z]/g, '')], [Array.prototype.join],
    [String(n)] for integers, and [encodeURIComponent], with the lemmas the
    components use and the round trips that pin the definitions down. *)

From S2P Require Import Prelude.
From Stdlib Require Import DecimalString DecimalN.

Local Open Scope string_scope.
Local Open Scope nat_scope.

(** ** Bytes and ASCII case mapping *)

Definition code (c : ascii) : nat := nat_of_ascii c.

Definition is_upper (c : ascii) : bool := (65 <=? code c) && (code c <=? 90).
Definition is_lower (c : ascii) : bool := (97 <=? code c) && (code c <=? 122).
Definition is_digit (c : ascii) : bool := (48 <=? code c) && (code c <=? 57).

Definition ascii_lower (c : ascii) : ascii :=
  if is_upper c then ascii_of_nat (code c + 32) else c.
Definition ascii_upper (c : ascii) : ascii :=
  if is_lower c then ascii_of_nat (code c - 32) else c.

Fixpoint str_map (f : ascii -> ascii) (s : string) : string :=
  match s with
  | EmptyString => EmptyString
  | String c r => String (f c) (str_map f r)
  end.

(** [String.prototype.toLowerCase] / [toUpperCase] (ASCII letters).  On
    a string of ASCII characters these are the engine's mappings; beyond
    ASCII the engine maps more (['ß'] to ["SS"], the Kelvin sign to
    ['k']), which this model does not. *)
Definition toLowerCase (s : string) : string := str_map ascii_lower s.
Definition toUpperCase (s : string) : string := str_map ascii_upper s.

(** Every character is ASCII (one byte below 128). *)
Definition ascii_only (s : string) : bool := forallb (fun c => code c <? 128) (list_ascii_of_string s).

(** ** Code points *)

(** Number of bytes of the UTF-8 sequence a byte starts. *)
Definition lead_len (c : ascii) : nat :=
  if code c <? 192 then 1
  else if code c <? 224 then 2
  else if code c <? 240 then 3
  else if code c <? 248 then 4
  else 1.

Definition is_cont (c : ascii) : bool := (128 <=? code c) && (code c <? 192).

(** The code points of a UTF-8 string, each as the string of its bytes
    (a byte that does not start a well-formed sequence stands alone). *)
Fixpoint utf8_chars (s : string) : list string :=
  match s with
  | EmptyString => []
  | String c r =>
    match lead_len c, r with
    | 2, String c1 r1 =>
        if is_cont c1 then String c (String c1 "") :: utf8_chars r1
        else String c "" :: utf8_chars r
    | 3, String c1 (String c2 r2) =>
        if is_cont c1 && is_cont c2
        then String c (String c1 (String c2 "")) :: utf8_chars r2
        else String c "" :: utf8_chars r
    | 4, String c1 (String c2 (String c3 r3)) =>
        if is_cont c1 && is_cont c2 && is_cont c3
        then String c (String c1 (String c2 (String c3 ""))) :: utf8_chars r3
        else String c "" :: utf8_chars r
    | _, _ => String c "" :: utf8_chars r
    end
  end.

Fixpoint str_concat (l : list string) : string :=
  match l with
  | [] => ""
  | x :: l' => x +:+ str_concat l'
  end.

(** [length]: UTF-16 code units.  Continuation bytes add nothing, the lead
    byte of a four-byte sequence (a surrogate pair) adds two. *)
Definition unit_weight (c : ascii) : nat :=
  if (128 <=? code c) && (code c <? 192) then 0
  else if (240 <=? code c) && (code c <? 248) then 2
  else 1.

Fixpoint utf16_length (s : string) : nat :=
  match s with
  | EmptyString => 0
  | String c r => unit_weight c + utf16_length r
  end.

(** [charAt(0)] and [slice(1)].  They split the string after its first
    code point.  For an astral first code point JavaScript splits the
    surrogate pair instead; every use in the program concatenates the two
    parts again, so both splits give the same result there. *)
Definition charAt0 (s : string) : string :=
  match utf8_chars s with [] => "" | c :: _ => c end.
Definition slice1 (s : string) : string :=
  match utf8_chars s with [] => "" | _ :: cs => str_concat cs end.

(** ** Whitespace and [split(/\s+/)] *)

(** The code points of [\s]: WhiteSpace and LineTerminator of ECMA-262,
    by their UTF-8 bytes. *)
Definition js_space_codes : list (list nat) :=
  [[9]; [10]; [11]; [12]; [13]; [32];
   [194; 160]; [225; 154; 128];
   [226; 128; 128]; [226; 128; 129]; [226; 128; 130]; [226; 128; 131];
   [226; 128; 132]; [226; 128; 133]; [226; 128; 134]; [226; 128; 135];
   [226; 128; 136]; [226; 128; 137]; [226; 128; 138];
   [226; 128; 168]; [226; 128; 169]; [226; 128; 175];
   [226; 129; 159]; [227; 128; 128]; [239; 187; 191]].

Definition bytes (s : string) : list nat := map code (list_ascii_of_string s).

Definition is_js_space (ch : string) : bool :=
  bool_decide (bytes ch ∈ js_space_codes).

(** The matcher of [String.prototype.split] with [/\s+/]: the segment
    before a maximal run of whitespace is emitted when the run starts. *)
Fixpoint split_ws_go (cs : list string) (cur : string) (in_ws : bool) : list string :=
  match cs with
  | [] => [cur]
  | c :: cs' =>
    if is_js_space c then
      if in_ws then split_ws_go cs' "" true
      else cur :: split_ws_go cs' "" true
    else split_ws_go cs' (cur +:+ c) false
  end.

Definition split_ws (s : string) : list string := split_ws_go (utf8_chars s) "" false.

(** ** [replace(/[^a-z]/g, '')] *)

Fixpoint replace_non_az (s : string) : string :=
  match s with
  | EmptyString => EmptyString
  | String c r => if is_lower c then String c (replace_non_az r) else replace_non_az r
  end.

(** ** [Array.prototype.join] *)

Fixpoint join (sep : string) (l : list string) : string :=
  match l with
  | [] => ""
  | [x] => x
  | x :: l' => x +:+ sep +:+ join sep l'
  end.

(** ** Integers to strings ([`${n}`] for an integral [Number]) *)

Definition N_to_string (n : N) : string := NilEmpty.string_of_uint (N.to_uint n).

Definition Z_to_string (z : Z) : string :=
  if (z <? 0)%Z then "-" +:+ N_to_string (Z.abs_N z) else N_to_string (Z.to_N z).

(** The inverse on the digits it prints. *)
Definition N_of_string (s : string) : option N :=
  N.of_uint <$> NilEmpty.uint_of_string s.

(** ** [encodeURIComponent] *)

(** The unescaped set of ECMA-262: letters, digits and [-_.!~*'()]. *)
Definition uri_mark : list nat := [45; 95; 46; 33; 126; 42; 39; 40; 41].

Definition uri_unreserved (c : ascii) : bool :=
  is_upper c || is_lower c || is_digit c || bool_decide (code c ∈ uri_mark).

Definition hex_digit (n : nat) : ascii :=
  ascii_of_nat (if n <? 10 then 48 + n else 55 + n).

Definition percent_encode (c : ascii) : string :=
  String "%" (String (hex_digit (code c / 16)) (String (hex_digit (code c mod 16)) "")).

(** Every byte of the UTF-8 encoding outside the unescaped set becomes
    [%XX] with upper-case hexadecimal digits. *)
Fixpoint encodeURIComponent (s : string) : string :=
  match s with
  | EmptyString => EmptyString
  | String c r =>
    (if uri_unreserved c then String c "" else percent_encode c) +:+ encodeURIComponent r
  end.

Definition hex_val (c : ascii) : option nat :=
  if is_digit c then Some (code c - 48)
  else if (65 <=? code c) && (code c <=? 70) then Some (code c - 55)
  else if (97 <=? code c) && (code c <=? 102) then Some (code c - 87)
  else None.

(** [decodeURIComponent], the reference inverse. *)
Fixpoint decodeURIComponent (s : string) : option string :=
  match s with
  | EmptyString => Some EmptyString
  | String c r =>
    if code c =? 37 then
      match r with
      | String h (String l r') =>
        match hex_val h, hex_val l with
        | Some a, Some b => String (ascii_of_nat (16 * a + b)) <$> decodeURIComponent r'
        | _, _ => None
        end
      | _ => None
      end
    else String c <$> decodeURIComponent r
  end.

(** ** [String.prototype.replace] with a string pattern *)

Fixpoint str_drop (n : nat) (s : string) : string :=
  match n, s with
  | 0, _ => s
  | S n', String _ s' => str_drop n' s'
  | S _, EmptyString => EmptyString
  end.

(** The text before the first occurrence of [pat] in [s] and the text
    after it, as [s.indexOf(pat)] finds it.  On UTF-8 the first matching
    byte position is the first matching character: the encoding is
    self-synchronising. *)
Fixpoint split_first (pat s : string) : option (string * string) :=
  if String.prefix pat s then Some (EmptyString, str_drop (String.length pat) s)
  else match s with
       | EmptyString => None
       | String c s' => (fun '(a, b) => (String c a, b)) <$> split_first pat s'
       end.

(** GetSubstitution (ECMA-262 22.1.3.19.1) without captures: [$$] is [$],
    [$&] the match, [$`] the text before it and [$'] the text after; any
    other [$] is kept. *)
Fixpoint get_substitution (matched before after : string) (r : string) : string :=
  match r with
  | String "$" (String "$" r') => String "$" (get_substitution matched before after r')
  | String "$" (String "&" r') => matched +:+ get_substitution matched before after r'
  | String "$" (String "`" r') => before +:+ get_substitution matched before after r'
  | String "$" (String "'" r') => after +:+ get_substitution matched before after r'
  | String c r' => String c (get_substitution matched before after r')
  | EmptyString => EmptyString
  end.

(** [s.replace(pat, r)]: the first occurrence only, [s] itself when there
    is none. *)
Definition js_replace (s pat r : string) : string :=
  match split_first pat s with
  | Some (before, after) => before +:+ get_substitution pat before after r +:+ after
  | None => s
  end.

(** ** Lemmas *)

Lemma code_lt_256 (c : ascii) : code c < 256.
Proof. apply nat_ascii_bounded. Qed.

Lemma ascii_of_code (c : ascii) : ascii_of_nat (code c) = c.
Proof. apply ascii_nat_embedding. Qed.

Lemma code_of_ascii (n : nat) : n < 256 -> code (ascii_of_nat n) = n.
Proof. apply nat_ascii_embedding. Qed.

#[export] Hint Rewrite ascii_of_code : strdb.

Lemma str_concat_app (l1 l2 : list string) :
  str_concat (l1 ++ l2) = str_concat l1 +:+ str_concat l2.
Proof.
  induction l1 as [|x l1 IH]; simpl; [done|]. by rewrite IH, str_app_assoc.
Qed.

(** Decoding into code points loses nothing. *)
Lemma utf8_chars_concat (s : string) : str_concat (utf8_chars s) = s.
Proof.
  induction s as [s IH] using (induction_ltof1 _ String.length).
  unfold ltof in IH.
  destruct s as [|c r]; [done|]. cbn [utf8_chars].
  repeat case_match; subst;
    cbn [str_concat]; rewrite IH by (simpl; lia); reflexivity.
Qed.

Lemma charAt0_slice1 (s : string) : charAt0 s +:+ slice1 s = s.
Proof.
  rewrite <- (utf8_chars_concat s) at 3. unfold charAt0, slice1.
  by destruct (utf8_chars s).
Qed.

Lemma ascii_upper_high (c : ascii) : 128 <= code c -> ascii_upper c = c.
Proof.
  intros H. unfold ascii_upper, is_lower.
  destruct (Nat.leb_spec 97 (code c)), (Nat.leb_spec (code c) 122); simpl; done || lia.
Qed.

Lemma is_cont_high (c : ascii) : is_cont c = true -> 128 <= code c.
Proof. unfold is_cont. intros H. apply andb_true_iff in H as [H _]. by apply Nat.leb_le. Qed.

Lemma lead_len_high (c : ascii) : lead_len c <> 1 -> 128 <= code c.
Proof.
  unfold lead_len. intros H.
  destruct (Nat.ltb_spec (code c) 192); [done|lia].
Qed.

(** The first code point of a non-empty string: its lead byte and the
    continuation bytes that follow it. *)
Lemma utf8_chars_cons (c : ascii) (r : string) :
  exists ch r', utf8_chars (String c r) = String c ch :: utf8_chars r' /\
    r = ch +:+ r' /\ Forall (fun b => is_cont b = true) (list_ascii_of_string ch).
Proof.
  cbn [utf8_chars]. repeat case_match; subst;
    repeat match goal with
           | H : (_ && _)%bool = true |- _ => apply andb_true_iff in H as [? ?]
           end;
    eexists _, _; (split; [reflexivity|]); split; try reflexivity; simpl; auto.
Qed.

Lemma toUpperCase_cont (ch : string) :
  Forall (fun b => is_cont b = true) (list_ascii_of_string ch) -> toUpperCase ch = ch.
Proof.
  unfold toUpperCase. induction ch as [|b ch IH]; [done|]. intros Hf.
  inversion Hf as [|? ? Hb Hf2]; subst. cbn [str_map].
  by rewrite (ascii_upper_high _ (is_cont_high _ Hb)), IH.
Qed.

(** Upper-casing the first character and appending the rest changes at
    most the first byte. *)
Lemma upper_first_bytes (s : string) :
  toUpperCase (charAt0 s) +:+ slice1 s =
  match s with EmptyString => EmptyString | String c r => String (ascii_upper c) r end.
Proof.
  unfold charAt0, slice1. destruct s as [|c r]; [done|].
  destruct (utf8_chars_cons c r) as (ch & r' & -> & -> & Hc).
  cbn [toUpperCase str_map]. fold (toUpperCase ch). rewrite toUpperCase_cont by done.
  rewrite utf8_chars_concat. done.
Qed.

Lemma toLowerCase_app (a b : string) :
  toLowerCase (a +:+ b) = toLowerCase a +:+ toLowerCase b.
Proof.
  unfold toLowerCase. induction a as [|c a IH]; [done|].
  rewrite str_app_cons. cbn [str_map]. by rewrite IH.
Qed.

Lemma replace_non_az_app (a b : string) :
  replace_non_az (a +:+ b) = replace_non_az a +:+ replace_non_az b.
Proof.
  induction a as [|c a IH]; [done|]. rewrite str_app_cons. cbn [replace_non_az].
  destruct (is_lower c); [rewrite str_app_cons|]; by rewrite IH.
Qed.

#[export] Hint Rewrite toLowerCase_app replace_non_az_app : strdb.

(** What [replace(/[^a-z]/g, '')] leaves is lower-case ASCII letters. *)
Lemma replace_non_az_lower (s : string) :
  Forall (fun c => is_lower c = true) (list_ascii_of_string (replace_non_az s)).
Proof.
  induction s as [|c s IH]; simpl; [constructor|].
  destruct (is_lower c) eqn:E; simpl; auto.
Qed.

(** ** Round trip of [encodeURIComponent] *)

Lemma uri_unreserved_not_percent (c : ascii) : uri_unreserved c = true -> code c <> 37.
Proof.
  unfold uri_unreserved, is_upper, is_lower, is_digit. intros H E. rewrite E in H.
  vm_compute in H. discriminate.
Qed.

Lemma hex_val_digit (d : nat) : d < 16 -> hex_val (hex_digit d) = Some d.
Proof. intros H. do 16 (destruct d as [|d]; [reflexivity|]). lia. Qed.

Lemma percent_decode_byte (c : ascii) :
  ascii_of_nat (16 * (code c / 16) + code c mod 16) = c.
Proof.
  rewrite <- (Nat.div_mod (code c) 16) by lia. apply ascii_of_code.
Qed.

Lemma decode_percent (h l : ascii) (r : string) :
  decodeURIComponent (String "%" (String h (String l r))) =
  match hex_val h, hex_val l with
  | Some a, Some b => String (ascii_of_nat (16 * a + b)) <$> decodeURIComponent r
  | _, _ => None
  end.
Proof. reflexivity. Qed.

(** [decodeURIComponent] inverts [encodeURIComponent]. *)
Lemma decode_encode (s : string) : decodeURIComponent (encodeURIComponent s) = Some s.
Proof.
  induction s as [|c s IH]; [done|]. simpl.
  destruct (uri_unreserved c) eqn:U.
  - rewrite str_app_cons, str_app_nil_l. simpl.
    destruct (Nat.eqb_spec (code c) 37) as [E|_];
      [by apply uri_unreserved_not_percent in U|].
    by rewrite IH.
  - unfold percent_encode. rewrite !str_app_cons, str_app_nil_l, decode_percent.
    pose proof (code_lt_256 c).
    rewrite !hex_val_digit by (apply Nat.Div0.div_lt_upper_bound || apply Nat.mod_upper_bound; lia).
    rewrite IH, percent_decode_byte. done.
Qed.

Lemma hex_digit_unreserved (d : nat) : d < 16 -> uri_unreserved (hex_digit d) = true.
Proof. intros H. do 16 (destruct d as [|d]; [reflexivity|]). lia. Qed.

(** Every byte of the encoding is unescaped or a [%]: no [&], [=], [?],
    [#], [/] or space can leave [encodeURIComponent]. *)
Lemma encode_bytes (s : string) :
  Forall (fun c => uri_unreserved c = true \/ c = "%"%char)
         (list_ascii_of_string (encodeURIComponent s)).
Proof.
  induction s as [|c s IH]; [constructor|]. cbn [encodeURIComponent].
  rewrite list_ascii_of_string_app. apply Forall_app. split; [|done].
  pose proof (code_lt_256 c).
  assert (code c / 16 < 16) by (apply Nat.Div0.div_lt_upper_bound; lia).
  assert (code c mod 16 < 16) by (apply Nat.mod_upper_bound; lia).
  destruct (uri_unreserved c) eqn:U; unfold percent_encode; cbn [list_ascii_of_string].
  - constructor; [by left|constructor].
  - constructor; [by right|].
    constructor; [left; by apply hex_digit_unreserved|].
    constructor; [left; by apply hex_digit_unreserved|constructor].
Qed.

(** ** Integers *)

Lemma N_of_to_string (n : N) : N_of_string (N_to_string n) = Some n.
Proof.
  unfold N_of_string, N_to_string. rewrite NilEmpty.usu. simpl.
  by rewrite DecimalN.Unsigned.of_to.
Qed.

Lemma N_to_string_inj (n m : N) : N_to_string n = N_to_string m -> n = m.
Proof.
  intros H. apply (f_equal N_of_string) in H. rewrite !N_of_to_string in H. congruence.
Qed.

(** The decimal digits of [String(n)]. *)
Lemma string_of_uint_digits (u : Decimal.uint) :
  forallb is_digit (list_ascii_of_string (NilEmpty.string_of_uint u)) = true.
Proof. induction u; simpl; rewrite ?IHu; reflexivity. Qed.

Lemma N_to_string_digits (n : N) : forallb is_digit (list_ascii_of_string (N_to_string n)) = true.
Proof. apply string_of_uint_digits. Qed.

(** ** [replace] *)

Lemma str_prefix_self (p b : string) : String.prefix p (p +:+ b) = true.
Proof. induction p as [|c p IH]; [by destruct b|]. simpl. destruct (ascii_dec c c); [exact IH|congruence]. Qed.

Lemma str_drop_app (a b : string) : str_drop (String.length a) (a +:+ b) = b.
Proof. induction a as [|c a IH]; [done|]. exact IH. Qed.

(** [split_first] splits at an occurrence of the pattern ... *)
Lemma split_first_sound (pat s a b : string) :
  split_first pat s = Some (a, b) -> s = a +:+ pat +:+ b.
Proof.
  revert a b. induction s as [|c s IH]; intros a b.
  - destruct pat; [|done]. intros [= <- <-]. reflexivity.
  - cbn [split_first]. destruct (String.prefix pat (String c s)) eqn:E.
    + intros [= <- <-]. destruct (str_prefix_app _ _ E) as [r ->]. by rewrite str_drop_app.
    + destruct (split_first pat s) as [[a0 b0]|] eqn:Es; simpl; [|done]. intros [= <- <-].
      by rewrite (IH a0 b0 eq_refl).
Qed.

(** ... and the first one: no occurrence starts earlier. *)
Lemma split_first_first (pat s a b a' b' : string) :
  split_first pat s = Some (a, b) -> s = a' +:+ pat +:+ b' -> String.length a <= String.length a'.
Proof.
  revert a b a'. induction s as [|c s IH]; intros a b a' Hs Heq.
  - destruct pat; [|discriminate]. injection Hs as <- <-. simpl. lia.
  - cbn [split_first] in Hs. destruct (String.prefix pat (String c s)) eqn:E;
      [injection Hs as <- <-; simpl; lia|].
    destruct a' as [|c' a'].
    + rewrite Heq, str_app_nil_l, str_prefix_self in E. discriminate.
    + injection Heq as <- Heq. destruct (split_first pat s) as [[a0 b0]|] eqn:Es; [|discriminate].
      injection Hs as <- <-. simpl. pose proof (IH a0 b0 a' eq_refl Heq). lia.
Qed.

(** There is no occurrence when [split_first] finds none. *)
Lemma split_first_none (pat s : string) :
  split_first pat s = None -> ~ str_contains s pat.
Proof.
  induction s as [|c s IH]; intros Hs (a & b & Heq).
  - destruct pat; [discriminate|]. destruct a; discriminate.
  - cbn [split_first] in Hs. destruct (String.prefix pat (String c s)) eqn:E; [discriminate|].
    destruct (split_first pat s) eqn:Es; [discriminate|]. destruct a as [|c' a].
    + rewrite Heq, str_app_nil_l, str_prefix_self in E. discriminate.
    + injection Heq as _ Heq. apply IH; [done|]. by exists a, b.
Qed.

(** A replacement without [$] is inserted as it is. *)
Lemma get_substitution_plain (m bf af r : string) :
  forallb (fun c => negb (Ascii.eqb c "$")) (list_ascii_of_string r) = true ->
  get_substitution m bf af r = r.
Proof.
  induction r as [|c r IH]; [done|]. cbn [list_ascii_of_string forallb]. rewrite andb_true_iff.
  intros [Hc Hr].
  destruct (Ascii.eqb_spec c "$") as [->|Hne]; [discriminate|].
  assert (E : get_substitution m bf af (String c r) = String c (get_substitution m bf af r))
    by (destruct c as [[] [] [] [] [] [] [] []]; try reflexivity; by exfalso).
  rewrite E, IH; done.
Qed.
