(* ===== verification/JsValue.v ===== *)
(** * JavaScript values, property access and exceptions

    The values the handler manipulates after [await response.json()]: JSON
    values plus [undefined].  Property access [v.k] / [v[k]] follows
    ECMA-262 for the keys the program reads (own properties of objects,
    [length] and indices of arrays and strings; reading a property of
    [undefined] or [null] throws a [TypeError]).  Truthiness, [typeof] and
    the comparison [v > 0] are the ones the conditions of [generate.ts]
    use.  Thrown values are [Error] objects (name and message) or other
    values; the text of engine-generated messages is supplied by the
    [JsEngine] interface. *)

From S2P Require Import Prelude JsString.
From Stdlib Require Import QArith.

Local Open Scope string_scope.
Local Open Scope nat_scope.
Local Set Warnings "-register-all".

(** ** Values *)

Inductive JSVal : Type :=
| JUndefined
| JNull
| JBool (b : bool)
| JNum (q : Q)
| JStr (s : string)
| JArr (items : list JSVal)
| JObj (fields : list (string * JSVal)).

(** [Boolean(v)]: the truthiness used by [&&] and [||]. *)
Definition truthy (v : JSVal) : bool :=
  match v with
  | JUndefined | JNull => false
  | JBool b => b
  | JNum q => negb (Qeq_bool q 0)
  | JStr s => negb (String.eqb s "")
  | JArr _ | JObj _ => true
  end.

Definition js_typeof (v : JSVal) : string :=
  match v with
  | JUndefined => "undefined"
  | JNull | JArr _ | JObj _ => "object"
  | JBool _ => "boolean"
  | JNum _ => "number"
  | JStr _ => "string"
  end.

(** ** Thrown values *)

Inductive Thrown : Type :=
| ThrownError (name message : string)   (** an instance of [Error] *)
| ThrownValue (v : JSVal).              (** anything else *)

(** The texts of the errors the engine raises itself differ between
    engines; the development is parametric in them. *)
Class JsEngine : Type := {
  msg_read_nullish : bool -> string -> string;  (** null?, property key *)
  msg_not_iterable : string -> string;          (** source text of the operand *)
  msg_fetch_failed : string
}.

(** Node.js (V8 and undici). *)
#[export] Instance node_engine : JsEngine := {|
  msg_read_nullish is_null k :=
    "Cannot read properties of " +:+ (if is_null then "null" else "undefined") +:+
    " (reading '" +:+ k +:+ "')";
  msg_not_iterable what := what +:+ " is not iterable";
  msg_fetch_failed := "fetch failed"
|}.

Section Access.
Context `{JsEngine}.

Definition type_error (msg : string) : Thrown := ThrownError "TypeError" msg.

(** A canonical array index: decimal digits without a leading zero. *)
Definition canonical_index (k : string) : option nat :=
  match k with
  | String "0" EmptyString => Some 0
  | String "0" _ => None
  | _ => N.to_nat <$> N_of_string k
  end.

Fixpoint assoc (k : string) (fs : list (string * JSVal)) : option JSVal :=
  match fs with
  | [] => None
  | (k', v) :: fs' => if String.eqb k k' then Some v else assoc k fs'
  end.

(** [v[k]]. *)
Definition js_get (v : JSVal) (k : string) : Thrown + JSVal :=
  match v with
  | JUndefined => inl (type_error (msg_read_nullish false k))
  | JNull => inl (type_error (msg_read_nullish true k))
  | JBool _ | JNum _ => inr JUndefined
  | JStr s =>
    if String.eqb k "length" then inr (JNum (inject_Z (Z.of_nat (utf16_length s))))
    else match canonical_index k with
         | Some i => match utf8_chars s !! i with
                     | Some ch => inr (JStr ch)
                     | None => inr JUndefined
                     end
         | None => inr JUndefined
         end
  | JArr l =>
    if String.eqb k "length" then inr (JNum (inject_Z (Z.of_nat (List.length l))))
    else match canonical_index k with
         | Some i => inr (default JUndefined (l !! i))
         | None => inr JUndefined
         end
  | JObj fs => inr (default JUndefined (assoc k fs))
  end.

(** A chain of property reads [v.k1.k2...]. *)
Fixpoint js_path (v : JSVal) (ks : list string) : Thrown + JSVal :=
  match ks with
  | [] => inr v
  | k :: ks' => match js_get v k with
                | inl e => inl e
                | inr v' => js_path v' ks'
                end
  end.
End Access.

(** ** Conversion in a template literal *)

(** [`${v}`]: [ToString(v)], for the values whose conversion does not go
    through [Number::toString] or [Array.prototype.join] ([None] for
    those).  An object is first converted by [OrdinaryToPrimitive] with
    hint [string]: its [toString], then its [valueOf].  A value of this
    model has no function in it, so an own [toString] or [valueOf] is not
    callable and is passed over; without an own [toString] the inherited
    [Object.prototype.toString] answers ["[object Object]"]; with one, the
    inherited [valueOf] returns the object itself, not a primitive, and
    the conversion throws a [TypeError]. *)
Definition template_string (v : JSVal) : option (Thrown + string) :=
  match v with
  | JUndefined => Some (inr "undefined")
  | JNull => Some (inr "null")
  | JBool b => Some (inr (if b then "true" else "false"))
  | JStr s => Some (inr s)
  | JNum _ | JArr _ => None
  | JObj fs =>
    Some (match assoc "toString" fs with
          | None => inr "[object Object]"
          | Some _ => inl (type_error "Cannot convert object to primitive value")
          end)
  end.

(** ** The comparison [v > 0] *)

(** The sign of [StringToNumber] on the trimmed string, for decimal
    literals ([+-]digits[.digits][e[+-]digits], [Infinity]) and the
    [0x]/[0o]/[0b] forms; [None] is [NaN].  (A decimal literal so small
    that it underflows to [0] is not modelled.) *)
Fixpoint drop_spaces (cs : list string) : list string :=
  match cs with
  | c :: cs' => if is_js_space c then drop_spaces cs' else cs
  | [] => []
  end.

(** [String.prototype.trim], as the bytes of the result. *)
Definition trim (s : string) : list ascii :=
  list_ascii_of_string (str_concat (rev (drop_spaces (rev (drop_spaces (utf8_chars s)))))).

(** The longest prefix whose bytes fail [p], and the rest. *)
Fixpoint break_at (p : ascii -> bool) (l : list ascii) : list ascii * list ascii :=
  match l with
  | [] => ([], [])
  | c :: l' => if p c then ([], l) else let '(a, b) := break_at p l' in (c :: a, b)
  end.

Definition all_digits (p : ascii -> bool) (l : list ascii) : bool :=
  negb (bool_decide (l = [])) && forallb p l.

Definition nonzero_digit (c : ascii) : bool := is_digit c && negb (Nat.eqb (code c) 48).

Definition is_sign (c : ascii) : bool := bool_decide (c = "+"%char \/ c = "-"%char).

(** An exponent part [e[+-]digits] (after the [e]). *)
Definition exponent_ok (e : list ascii) : bool :=
  match e with
  | c :: d => if is_sign c then all_digits is_digit d else all_digits is_digit e
  | [] => false
  end.

(** Unsigned decimal literal: is it well formed, and is it non-zero? *)
Definition unsigned_decimal (l : list ascii) : option bool :=
  if bool_decide (l = list_ascii_of_string "Infinity") then Some true else
  let '(mant, ex) := break_at (fun c => bool_decide (c = "e"%char \/ c = "E"%char)) l in
  let '(ip, fp) := break_at (fun c => bool_decide (c = "."%char)) mant in
  let digits := app ip (drop 1 fp) in
  let ex_ok := match ex with [] => true | _ :: e => exponent_ok e end in
  if forallb is_digit digits && negb (bool_decide (digits = [])) && ex_ok
  then Some (existsb nonzero_digit digits)
  else None.

Definition is_hex (c : ascii) : bool :=
  is_digit c || bool_decide (code c ∈ seq 65 6) || bool_decide (code c ∈ seq 97 6).

Definition sign_of (neg nz : bool) : comparison :=
  if nz then (if neg then Lt else Gt) else Eq.

(** The digits allowed after [0x], [0o], [0b]. *)
Definition radix_digits (x : ascii) : option (ascii -> bool) :=
  if bool_decide (x = "x"%char \/ x = "X"%char) then Some is_hex
  else if bool_decide (x = "o"%char \/ x = "O"%char) then Some (fun c => is_digit c && (code c <? 56))
  else if bool_decide (x = "b"%char \/ x = "B"%char) then Some (fun c => bool_decide (c = "0"%char \/ c = "1"%char))
  else None.

Definition js_number_sign (s : string) : option comparison :=
  match trim s with
  | [] => Some Eq
  | c :: l =>
    if bool_decide (c = "0"%char) then
      match l with
      | x :: ds =>
        match radix_digits x with
        | Some p =>
          if all_digits p ds
          then Some (sign_of false (existsb (fun d => negb (bool_decide (d = "0"%char))) ds))
          else None
        | None => sign_of false <$> unsigned_decimal (c :: l)
        end
      | [] => Some Eq
      end
    else if bool_decide (c = "-"%char) then sign_of true <$> unsigned_decimal l
    else if bool_decide (c = "+"%char) then sign_of false <$> unsigned_decimal l
    else sign_of false <$> unsigned_decimal (c :: l)
  end.

(** [v > 0]: [ToPrimitive], then [ToNumber].  An array becomes the join of
    its elements with [","], so only arrays of at most one element can be
    numbers; [undefined] and [null] elements print as [""]. *)
Fixpoint js_gt0 (v : JSVal) : bool :=
  match v with
  | JUndefined => false
  | JNull => false
  | JBool b => b
  | JNum q => negb (Qle_bool q 0)
  | JStr s => bool_decide (js_number_sign s = Some Gt)
  | JArr [] => false
  | JArr [x] =>
    match x with
    | JUndefined | JNull | JBool _ | JObj _ => false
    | JNum q => negb (Qle_bool q 0)
    | JStr s => bool_decide (js_number_sign s = Some Gt)
    | JArr _ => js_gt0 x
    end
  | JArr _ => false
  | JObj _ => false
  end.

(** ** Interpolation [`${v}`] of strings that may be [undefined] *)

(** [`${a[i]}`] for an array of strings. *)
Definition at_str (l : list string) (i : nat) : string := default "undefined" (l !! i).

(** [`${a[i]}`] for an integer index [i]. *)
Definition at_strZ (l : list string) (i : Z) : string :=
  if (i <? 0)%Z then "undefined" else at_str l (Z.to_nat i).

(** ** Lemmas *)

Lemma at_strZ_in (l : list string) (i : Z) :
  (0 <= i < Z.of_nat (List.length l))%Z -> at_strZ l i ∈ l.
Proof.
  intros Hi. unfold at_strZ, at_str. destruct (Z.ltb_spec i 0); [lia|].
  destruct (l !! Z.to_nat i) eqn:E.
  - simpl. by eapply list_elem_of_lookup_2.
  - apply lookup_ge_None in E. lia.
Qed.

Section Lemmas.
Context `{JsEngine}.

Lemma js_get_obj (fs : list (string * JSVal)) k :
  js_get (JObj fs) k = inr (default JUndefined (assoc k fs)).
Proof. reflexivity. Qed.

Lemma js_get_nullish v k :
  truthy v = true -> exists v', js_get v k = inr v'.
Proof. destruct v; simpl; try discriminate; intros _; repeat case_match; eauto. Qed.

Lemma js_gt0_num (q : Q) : js_gt0 (JNum q) = negb (Qle_bool q 0).
Proof. reflexivity. Qed.
End Lemmas.
