(* ===== verification/Random.v ===== *)
(** * [Math.random] and random indices

    [Math.random()] returns a number in [[0, 1)]; engines produce it as a
    dyadic fraction [k / 2^53] (V8 uses 52 bits, SpiderMonkey 53).  The
    interface [RandomSource] states what a generator promises: each draw is
    such a [k].  The program only ever uses [Math.floor(Math.random() * n)],
    which is [k * n / 2^53] rounded down.  This file proves that such an
    index lies in [[0, n)] and that every index in that range is produced
    by some draw, and gives a scripted generator for concrete runs. *)

From S2P Require Import Prelude.

Local Open Scope Z_scope.

Definition RAND_BITS : Z := 53.
Definition RAND_RANGE : Z := 2 ^ RAND_BITS.

Class RandomSource (Seed : Type) : Type := {
  next_random : Seed -> Z * Seed;
  next_random_range : forall s, 0 <= fst (next_random s) < RAND_RANGE
}.

(** [Math.floor(Math.random() * n)] for the draw [k]. *)
Definition floor_random_times (k n : Z) : Z := (k * n) / RAND_RANGE.

(** A generator replaying a fixed list of draws (reduced into range),
    then [0] forever. *)
Definition scripted_next (s : list Z) : Z * list Z :=
  match s with
  | [] => (0, [])
  | x :: r => (x mod RAND_RANGE, r)
  end.

Lemma scripted_next_range (s : list Z) : 0 <= fst (scripted_next s) < RAND_RANGE.
Proof.
  destruct s as [|x r]; simpl; [unfold RAND_RANGE, RAND_BITS; lia|].
  apply Z.mod_pos_bound. unfold RAND_RANGE, RAND_BITS. lia.
Qed.

#[export] Instance scripted_source : RandomSource (list Z) := {|
  next_random := scripted_next;
  next_random_range := scripted_next_range
|}.

(** The draw that yields index [i] out of [n]. *)
Definition draw_for (i n : Z) : Z := (i * RAND_RANGE + n - 1) / n.

Lemma RAND_RANGE_pos : 0 < RAND_RANGE.
Proof. unfold RAND_RANGE, RAND_BITS. lia. Qed.

#[export] Hint Resolve RAND_RANGE_pos : genhints.

(** [Math.floor(Math.random() * n)] is a valid index of an array of
    length [n]. *)
Lemma floor_random_times_range (k n : Z) :
  0 <= k < RAND_RANGE -> 0 < n -> 0 <= floor_random_times k n < n.
Proof.
  intros Hk Hn. pose proof RAND_RANGE_pos. unfold floor_random_times. split.
  - apply Z.div_pos; nia.
  - apply Z.div_lt_upper_bound; nia.
Qed.

(** Every index is reachable: [draw_for i n] is a draw, and it gives [i]. *)
Lemma draw_for_range (i n : Z) :
  0 <= i < n -> n <= RAND_RANGE -> 0 <= draw_for i n < RAND_RANGE.
Proof.
  intros Hi Hn. pose proof RAND_RANGE_pos. unfold draw_for. split.
  - apply Z.div_pos; nia.
  - apply Z.div_lt_upper_bound; nia.
Qed.

Lemma floor_random_times_draw_for (i n : Z) :
  0 <= i < n -> n <= RAND_RANGE -> floor_random_times (draw_for i n) n = i.
Proof.
  intros Hi Hn. pose proof RAND_RANGE_pos. unfold floor_random_times, draw_for.
  pose proof (Z.mod_pos_bound (i * RAND_RANGE + n - 1) n ltac:(lia)) as Hm.
  pose proof (Z.div_mod (i * RAND_RANGE + n - 1) n ltac:(lia)) as Hd.
  remember ((i * RAND_RANGE + n - 1) / n) as k eqn:Ek.
  remember ((i * RAND_RANGE + n - 1) mod n) as m eqn:Em.
  symmetry. apply Z.div_unique with (r := k * n - i * RAND_RANGE); nia.
Qed.
