(* ===== verification/Runtime.v ===== *)
(** * The world of one request handler

    An invocation of the tRPC mutation runs in the [Eff] monad: the
    state-and-exception monad [st] of the prelude over a [World] and the
    thrown values of [JsValue].  The world holds the seed of [Math.random],
    the network as an oracle (the [n]-th request sent gets the answer
    [w_net n req]: a rejected promise or a response whose body parses, or
    fails to parse, as JSON) and the log of requests sent.  [await] is
    sequencing in [Eff]: one invocation never interleaves with itself.

    The predicate [sends_at_most k m] bounds the requests [m] sends; its
    rules are hints of [effdb], so bounds on whole handlers are found by
    [eauto with effdb]. *)

From S2P Require Import Prelude JsString JsValue Random.



(** [fetch(url, { method, headers, body: JSON.stringify(body) })] *)
Record FetchRequest : Type := mkFetchRequest {
  req_url : string;
  req_method : string;
  req_headers : list (string * string);
  req_body : JSVal
}.

(** A [Response]: status line, body text, and what [response.json()]
    gives (the message of its [SyntaxError], or the parsed value). *)
Record Response : Type := mkResponse {
  resp_status : Z;
  resp_statusText : string;
  resp_text : string;
  resp_json : string + JSVal
}.

Inductive FetchOutcome : Type :=
| FetchRejected (e : Thrown)
| FetchResolved (r : Response).

(** [response.ok] *)
Definition response_ok (r : Response) : bool :=
  (200 <=? resp_status r)%Z && (resp_status r <=? 299)%Z.

Section Runtime.
Context {Seed : Type} `{RandomSource Seed}.

Record World : Type := mkWorld {
  w_seed : Seed;
  w_net : nat -> FetchRequest -> FetchOutcome;
  w_sent : list FetchRequest
}.

Definition Eff (A : Type) : Type := st World Thrown A.

Definition fetch (req : FetchRequest) : Eff Response := fun w =>
  let w' := mkWorld (w_seed w) (w_net w) (w_sent w ++ [req]) in
  match w_net w (List.length (w_sent w)) req with
  | FetchRejected e => (Err e, w')
  | FetchResolved r => (Ok r, w')
  end.

Definition math_random : Eff Z := fun w =>
  let '(k, s') := next_random (w_seed w) in (Ok k, mkWorld s' (w_net w) (w_sent w)).

(** [Math.floor(Math.random() * n)] *)
Definition random_index (n : Z) : Eff Z :=
  (k <- math_random ;; st_ret (floor_random_times k n))%eff.

(** [await response.text()] *)
Definition response_text (r : Response) : Eff string := st_ret (resp_text r).

(** [await response.json()] *)
Definition response_json (r : Response) : Eff JSVal :=
  match resp_json r with
  | inl msg => st_throw (ThrownError "SyntaxError" msg)
  | inr v => st_ret v
  end.

(** ** Requests sent *)

Definition sends_at_most {A} (k : nat) (m : Eff A) : Prop :=
  forall w, exists extra, w_sent (snd (m w)) = w_sent w ++ extra /\ List.length extra <= k.

Lemma sends_ret {A} (a : A) : sends_at_most 0 (st_ret a).
Proof. intros w. exists []. simpl. rewrite app_nil_r. auto. Qed.

Lemma sends_throw {A} (e : Thrown) : sends_at_most 0 (st_throw (A:=A) e).
Proof. intros w. exists []. simpl. rewrite app_nil_r. auto. Qed.

Lemma sends_fetch req : sends_at_most 1 (fetch req).
Proof. intros w. exists [req]. unfold fetch. by destruct (w_net w _ req). Qed.

Lemma sends_math_random : sends_at_most 0 math_random.
Proof.
  intros w. exists []. unfold math_random. destruct (next_random (w_seed w)).
  simpl. rewrite app_nil_r. auto.
Qed.

Lemma sends_bind {A B} k1 k2 (m : Eff A) (f : A -> Eff B) :
  sends_at_most k1 m -> (forall a, sends_at_most k2 (f a)) ->
  sends_at_most (k1 + k2) (st_bind m f).
Proof.
  intros Hm Hf w. unfold st_bind. destruct (Hm w) as (e1 & E1 & L1).
  destruct (m w) as [[a|e] w'] eqn:Em; simpl in *.
  - destruct (Hf a w') as (e2 & E2 & L2). exists (e1 ++ e2).
    rewrite E2, E1, app_assoc, length_app. split; [done|lia].
  - exists e1. split; [done|lia].
Qed.

Lemma sends_catch {A} k1 k2 (m : Eff A) (h : Thrown -> Eff A) :
  sends_at_most k1 m -> (forall e, sends_at_most k2 (h e)) ->
  sends_at_most (k1 + k2) (st_catch m h).
Proof.
  intros Hm Hh w. unfold st_catch. destruct (Hm w) as (e1 & E1 & L1).
  destruct (m w) as [[a|e] w'] eqn:Em; simpl in *.
  - exists e1. split; [done|lia].
  - destruct (Hh e w') as (e2 & E2 & L2). exists (e1 ++ e2).
    rewrite E2, E1, app_assoc, length_app. split; [done|lia].
Qed.

Lemma sends_weaken {A} k k' (m : Eff A) :
  sends_at_most k m -> k <= k' -> sends_at_most k' m.
Proof. intros Hm Hk w. destruct (Hm w) as (e & E & L). exists e. split; [done|lia]. Qed.

(** Top-down forms of the rules: the bound of the whole goes to one
    part, the other part sends nothing. *)
Lemma sends_bind_l0 {A B} k (m : Eff A) (f : A -> Eff B) :
  sends_at_most 0 m -> (forall a, sends_at_most k (f a)) -> sends_at_most k (st_bind m f).
Proof. intros. apply (sends_bind 0 k); auto. Qed.

Lemma sends_bind_r0 {A B} k (m : Eff A) (f : A -> Eff B) :
  sends_at_most k m -> (forall a, sends_at_most 0 (f a)) -> sends_at_most k (st_bind m f).
Proof. intros. eapply sends_weaken; [apply (sends_bind k 0); eauto|lia]. Qed.

Lemma sends_catch_r0 {A} k (m : Eff A) (h : Thrown -> Eff A) :
  sends_at_most k m -> (forall e, sends_at_most 0 (h e)) -> sends_at_most k (st_catch m h).
Proof. intros. eapply sends_weaken; [apply (sends_catch k 0); eauto|lia]. Qed.

Lemma sends_zero {A} k (m : Eff A) : sends_at_most 0 m -> sends_at_most k m.
Proof. intros. eapply sends_weaken; [eauto|lia]. Qed.

Lemma sends_if {A} k (c : bool) (a b : Eff A) :
  sends_at_most k a -> sends_at_most k b -> sends_at_most k (if c then a else b).
Proof. by destruct c. Qed.

Lemma sends_lift {A} (r : Thrown + A) : sends_at_most 0 (st_lift r).
Proof. destruct r; [apply sends_throw|apply sends_ret]. Qed.

Lemma sends_random_index n : sends_at_most 0 (random_index n).
Proof. apply (sends_bind 0 0); [apply sends_math_random|intros; apply sends_ret]. Qed.

Lemma sends_response_json r : sends_at_most 0 (response_json r).
Proof. unfold response_json. destruct (resp_json r); [apply sends_throw|apply sends_ret]. Qed.

(** ** Random indices *)

(** [Math.floor(Math.random() * n)] completes with an index in
    [[0, n)], draws once and sends nothing. *)
Lemma random_index_spec (n : Z) (w : World) :
  (0 < n)%Z ->
  exists i s', random_index n w = (Ok i, mkWorld s' (w_net w) (w_sent w)) /\
               (0 <= i < n)%Z /\ next_random (w_seed w) = (fst (next_random (w_seed w)), s').
Proof.
  intros Hn. unfold random_index, st_bind, math_random.
  pose proof (next_random_range (w_seed w)) as Hr.
  destruct (next_random (w_seed w)) as [k s'] eqn:E. simpl in *.
  exists (floor_random_times k n), s'. split; [done|]. split; [|done].
  by apply floor_random_times_range.
Qed.
End Runtime.

Create HintDb effdb discriminated.
#[export] Hint Resolve sends_ret sends_throw sends_fetch sends_math_random
  sends_random_index sends_response_json sends_lift : effdb.
#[export] Hint Extern 1 (sends_at_most _ (if _ then _ else _)) => apply sends_if : effdb.
#[export] Hint Extern 1 (sends_at_most _ (match ?x with _ => _ end)) => destruct x : effdb.
#[export] Hint Extern 2 (sends_at_most _ (st_bind _ _)) => apply sends_bind_l0; [|intro] : effdb.
#[export] Hint Extern 3 (sends_at_most _ (st_bind _ _)) => apply sends_bind_r0; [|intro] : effdb.
#[export] Hint Extern 2 (sends_at_most _ (st_catch _ _)) => apply sends_catch_r0; [|intro] : effdb.
#[export] Hint Resolve sends_zero | 5 : effdb.
