(* ===== verification/Hashtags.v ===== *)
(** * Hashtag derivation ([getRelevantHashtags], generate.ts 245-269)

    The platform table is a JavaScript object literal, so a lookup with a
    key that names a member of [Object.prototype] ([constructor], ...)
    finds an inherited function instead of [undefined]; [PropValue] keeps
    the three outcomes apart.  [[...new Set(xs)]] is modelled by [JsSet]:
    insertion-ordered, duplicates dropped on insertion.  Its equivalence
    with stdpp's [remove_dups] (which keeps last occurrences) read
    backwards is the reference for "first occurrence wins". *)

From S2P Require Import Prelude JsString JsValue.

(** ** The JavaScript [Set] *)

Module JsSet.
(** [set.add(x)] on the items in insertion order. *)
Definition set_add (x : string) (items : list string) : list string :=
  if bool_decide (x ∈ items) then items else items ++ [x].

(** [[...new Set(l)]] *)
Definition of_list (l : list string) : list string :=
  fold_left (fun acc x => set_add x acc) l [].

(** Reference: keep the first occurrence of every element. *)
Definition dedup_first (l : list string) : list string :=
  reverse (remove_dups (reverse l)).

(** Reference: the element at index [i] is kept when it does not occur
    among the first [i] elements. *)
Definition first_occurrences (l : list string) : list string :=
  omap id (imap (fun i x => if bool_decide (x ∈ take i l) then None else Some x) l).

Lemma of_list_snoc (l : list string) (x : string) :
  of_list (l ++ [x]) = set_add x (of_list l).
Proof. unfold of_list. by rewrite fold_left_app. Qed.

Lemma dedup_first_snoc (l : list string) (x : string) :
  dedup_first (l ++ [x]) =
  if bool_decide (x ∈ l) then dedup_first l else dedup_first l ++ [x].
Proof.
  unfold dedup_first. rewrite reverse_snoc. simpl.
  case_bool_decide as Hx; case_decide as Hx'; try done.
  - exfalso. apply Hx'. by apply elem_of_reverse.
  - exfalso. apply Hx. by apply elem_of_reverse.
  - by rewrite reverse_cons.
Qed.

Lemma elem_of_dedup_first (l : list string) x : x ∈ dedup_first l <-> x ∈ l.
Proof. unfold dedup_first. by rewrite elem_of_reverse, elem_of_remove_dups, elem_of_reverse. Qed.

(** [[...new Set(l)]] keeps the first occurrence of every element, in
    order. *)
Lemma of_list_dedup_first (l : list string) : of_list l = dedup_first l.
Proof.
  induction l as [|x l IH] using rev_ind; [done|].
  rewrite of_list_snoc, dedup_first_snoc, IH. unfold set_add.
  by rewrite (bool_decide_ext _ _ (elem_of_dedup_first l x)).
Qed.

Lemma of_list_NoDup (l : list string) : NoDup (of_list l).
Proof.
  rewrite of_list_dedup_first. unfold dedup_first.
  rewrite reverse_Permutation. apply NoDup_remove_dups.
Qed.

Lemma elem_of_of_list (l : list string) x : x ∈ of_list l <-> x ∈ l.
Proof. rewrite of_list_dedup_first. apply elem_of_dedup_first. Qed.

(** Adding the elements of [k] to a set only appends, and appends a
    sub-list of [k]. *)
Lemma fold_set_add_extends (k acc : list string) :
  exists rest, fold_left (fun acc x => set_add x acc) k acc = acc ++ rest /\
               rest `sublist_of` k.
Proof.
  revert acc. induction k as [|x k IH]; intros acc; simpl.
  - exists []. by rewrite app_nil_r.
  - unfold set_add at 2. case_bool_decide.
    + destruct (IH acc) as (rest & -> & Hs). exists rest. split; [done|].
      by apply sublist_cons.
    + destruct (IH (acc ++ [x])) as (rest & -> & Hs). exists (x :: rest).
      rewrite <- app_assoc. split; [done|]. by apply sublist_skip.
Qed.

Lemma fold_set_add_nodup (b acc : list string) :
  NoDup (acc ++ b) -> fold_left (fun acc x => set_add x acc) b acc = acc ++ b.
Proof.
  revert acc. induction b as [|x b IH]; intros acc Hnd; simpl; [by rewrite app_nil_r|].
  unfold set_add at 2. rewrite bool_decide_false.
  - rewrite IH; [by rewrite <- app_assoc|]. by rewrite <- app_assoc.
  - intros Hx. apply list.NoDup_app in Hnd as (_ & Hdis & _).
    apply (Hdis x); [done|]. constructor.
Qed.

(** With duplicate-free [b] in front, [[...new Set([...b, ...k])]] is [b]
    followed by a sub-list of [k]. *)
Lemma of_list_app_nodup (b k : list string) :
  NoDup b -> exists rest, of_list (b ++ k) = b ++ rest /\ rest `sublist_of` k.
Proof.
  intros Hb. unfold of_list. rewrite fold_left_app.
  rewrite (fold_set_add_nodup b []) by exact Hb.
  apply fold_set_add_extends.
Qed.
Lemma first_occurrences_snoc (l : list string) (x : string) :
  first_occurrences (l ++ [x]) =
  first_occurrences l ++ (if bool_decide (x ∈ l) then [] else [x]).
Proof.
  unfold first_occurrences. rewrite imap_app, omap_app. f_equal.
  - f_equal. apply imap_ext. intros i y Hi.
    rewrite take_app_le; [done|]. apply lookup_lt_Some in Hi. lia.
  - simpl. rewrite Nat.add_0_r, take_app_length. by case_bool_decide.
Qed.

(** [[...new Set(l)]], the insertion-ordered set the engine builds
    one [add] at a time, equals the declarative reference: the elements of
    [l] that do not occur earlier in [l], in their order. *)
Theorem of_list_first_occurrences (l : list string) : of_list l = first_occurrences l.
Proof.
  induction l as [|x l IH] using rev_ind; [done|].
  rewrite of_list_snoc, first_occurrences_snoc, <- IH. unfold set_add.
  rewrite (bool_decide_ext _ _ (elem_of_of_list l x)). case_bool_decide; [by rewrite app_nil_r|done].
Qed.
End JsSet.

(** ** Property lookup on an object literal *)

(** The value of [obj[k]]: an own array, an inherited member of
    [Object.prototype] (a function, or the prototype itself for
    [__proto__]: truthy and not iterable), or [undefined]. *)
Inductive PropValue : Type :=
| PVArray (l : list string)
| PVInherited (k : string)
| PVUndefined.

Definition object_prototype_keys : list string :=
  ["constructor"; "__proto__"; "hasOwnProperty"; "isPrototypeOf";
   "propertyIsEnumerable"; "toLocaleString"; "toString"; "valueOf";
   "__defineGetter__"; "__defineSetter__"; "__lookupGetter__"; "__lookupSetter__"].

Fixpoint own_lookup (k : string) (tbl : list (string * list string)) : option (list string) :=
  match tbl with
  | [] => None
  | (k', v) :: tbl' => if String.eqb k k' then Some v else own_lookup k tbl'
  end.

Definition record_get (tbl : list (string * list string)) (k : string) : PropValue :=
  match own_lookup k tbl with
  | Some v => PVArray v
  | None => if bool_decide (k ∈ object_prototype_keys) then PVInherited k else PVUndefined
  end.

(** [obj[k] || dflt]: arrays and inherited members are truthy. *)
Definition prop_or (v : PropValue) (dflt : list string) : PropValue :=
  match v with PVUndefined => PVArray dflt | _ => v end.

Section Hashtags.
Context `{JsEngine}.

(** The spread [...baseTags]. *)
Definition spread_baseTags (v : PropValue) : Thrown + list string :=
  match v with
  | PVArray l => inr l
  | _ => inl (type_error (msg_not_iterable "baseTags"))
  end.

Definition platformTags : list (string * list string) :=
  [("instagram", ["#Instagram"; "#Content"; "#Marketing"]);
   ("facebook", ["#Facebook"; "#Sharing"; "#Community"]);
   ("twitter", ["#Twitter"; "#Trending"; "#News"]);
   ("linkedin", ["#LinkedIn"; "#Professional"; "#Business"]);
   ("tiktok", ["#TikTok"; "#Trending"; "#Viral"]);
   ("youtube", ["#YouTube"; "#Video"; "#Content"])].

Definition default_tags : list string := ["#Content"; "#SocialMedia"].

(** [platform.toLowerCase().replace(/[^a-z]/g, '')] *)
Definition platform_key (platform : string) : string :=
  replace_non_az (toLowerCase platform).

(** [prompt.toLowerCase().split(/\s+/)
       .filter(word => word.length > 3).slice(0, 3)] *)
Definition keywords_of (prompt : string) : list string :=
  take 3 (List.filter (fun word => 3 <? utf16_length word) (split_ws (toLowerCase prompt))).

Definition getRelevantHashtags (platform prompt : string) : Thrown + list string :=
  let keywords := keywords_of prompt in
  let baseTags := prop_or (record_get platformTags (platform_key platform)) default_tags in
  let keywordTags := map (fun word => "#" +:+ word) keywords in
  match spread_baseTags baseTags with
  | inl e => inl e
  | inr base => inr (JsSet.of_list (base ++ keywordTags))
  end.
End Hashtags.

(** ** Lemmas and properties *)

(** The platform's base tags: the table row, or the default bucket. *)
Definition base_tags_for (k : string) : list string :=
  default default_tags (own_lookup k platformTags).

Ltac decide_closed := apply (bool_decide_unpack _); vm_compute; reflexivity.

Lemma base_tags_for_NoDup (k : string) : NoDup (base_tags_for k).
Proof.
  unfold base_tags_for, platformTags. simpl.
  repeat (case_match; [decide_closed|]). decide_closed.
Qed.

Lemma ascii_lower_upper (c : ascii) : ascii_lower (ascii_upper c) = ascii_lower c.
Proof. destruct c as [[] [] [] [] [] [] [] []]; reflexivity. Qed.

Lemma toLowerCase_toUpperCase (s : string) : toLowerCase (toUpperCase s) = toLowerCase s.
Proof.
  unfold toLowerCase, toUpperCase.
  induction s as [|c s IH]; [done|]. simpl. by rewrite ascii_lower_upper, IH.
Qed.

Lemma ascii_lower_idem (c : ascii) : ascii_lower (ascii_lower c) = ascii_lower c.
Proof. destruct c as [[] [] [] [] [] [] [] []]; reflexivity. Qed.

(** No ASCII letter: what [replace(/[^a-z]/g, '')] deletes after
    lower-casing. *)
Definition no_ascii_letter (s : string) : bool :=
  forallb (fun c => negb (is_lower (ascii_lower c))) (list_ascii_of_string s).

Lemma platform_key_app (a b : string) :
  platform_key (a +:+ b) = platform_key a +:+ platform_key b.
Proof. unfold platform_key. by rewrite toLowerCase_app, replace_non_az_app. Qed.

Lemma platform_key_no_letter (s : string) : no_ascii_letter s = true -> platform_key s = "".
Proof.
  unfold platform_key, no_ascii_letter, toLowerCase.
  induction s as [|c s IH]; [done|]. simpl. intros [Hc Hs]%andb_true_iff.
  apply negb_true_iff in Hc. rewrite Hc. by apply IH.
Qed.

Lemma platform_key_lower (s : string) : Forall (fun c => is_lower c = true) (list_ascii_of_string (platform_key s)).
Proof. apply replace_non_az_lower. Qed.

(** The only member of [Object.prototype] spelled in lower-case ASCII
    letters is [constructor]. *)
Lemma prototype_key_lower (k : string) :
  k ∈ object_prototype_keys -> Forall (fun c => is_lower c = true) (list_ascii_of_string k) ->
  k = "constructor".
Proof.
  unfold object_prototype_keys. intros Hk Hl.
  apply (bool_decide_pack _) in Hl.
  repeat (apply elem_of_cons in Hk as [->|Hk]; [done || (vm_compute in Hl; discriminate)|]).
  by apply elem_of_nil in Hk.
Qed.

Lemma record_get_platform_key (platform : string) :
  platform_key platform <> "constructor" ->
  prop_or (record_get platformTags (platform_key platform)) default_tags =
  PVArray (base_tags_for (platform_key platform)).
Proof.
  intros Hne. unfold record_get, base_tags_for.
  destruct (own_lookup _ platformTags); [done|]. simpl.
  case_bool_decide as Hk; [|done].
  exfalso. apply Hne. apply prototype_key_lower; [done|apply platform_key_lower].
Qed.

Lemma keywords_of_length (prompt : string) : length (keywords_of prompt) <= 3.
Proof. unfold keywords_of. rewrite length_take. lia. Qed.

Section HashtagProperties.
Context `{JsEngine}.

(** C4. [getRelevantHashtags] returns the platform's base tags (the
    table row, or [#Content #SocialMedia]) followed by at most three of
    the [#keyword] tags in prompt order, without duplicates, whenever
    the platform key is not [constructor]. *)
Theorem getRelevantHashtags_spec (platform prompt : string) :
  platform_key platform <> "constructor" ->
  exists rest,
    getRelevantHashtags platform prompt = inr (base_tags_for (platform_key platform) ++ rest) /\
    rest `sublist_of` map (fun w => "#" +:+ w) (keywords_of prompt) /\
    length rest <= 3 /\
    NoDup (base_tags_for (platform_key platform) ++ rest).
Proof.
  intros Hne. unfold getRelevantHashtags. rewrite record_get_platform_key by done. simpl.
  destruct (JsSet.of_list_app_nodup (base_tags_for (platform_key platform))
              (map (fun w => "#" +:+ w) (keywords_of prompt)) (base_tags_for_NoDup _))
    as (rest & Hr & Hs).
  exists rest. rewrite <- Hr. split; [done|]. split; [done|]. split.
  - apply sublist_length in Hs. rewrite length_map in Hs. pose proof (keywords_of_length prompt). lia.
  - apply JsSet.of_list_NoDup.
Qed.

(** C5. A platform whose key is [constructor] (e.g. ["Constructor"])
    finds [Object.prototype.constructor] in the table; spreading it
    throws a [TypeError] instead of falling back to the default tags. *)
Theorem getRelevantHashtags_constructor (platform prompt : string) :
  platform_key platform = "constructor" ->
  getRelevantHashtags platform prompt = inl (type_error (msg_not_iterable "baseTags")).
Proof. intros Hk. unfold getRelevantHashtags. by rewrite Hk. Qed.
End HashtagProperties.

Lemma getRelevantHashtags_spec_witness :
  platform_key "LinkedIn" <> "constructor" /\
  exists rest,
    getRelevantHashtags "LinkedIn" "new coffee shop" = inr (base_tags_for (platform_key "LinkedIn") ++ rest) /\
    rest `sublist_of` map (fun w => "#" +:+ w) (keywords_of "new coffee shop") /\
    length rest <= 3 /\
    NoDup (base_tags_for (platform_key "LinkedIn") ++ rest).
Proof.
  assert (Hk : platform_key "LinkedIn" <> "constructor") by (vm_compute; discriminate).
  split; [exact Hk|]. exact (getRelevantHashtags_spec "LinkedIn" "new coffee shop" Hk).
Defined.

Lemma getRelevantHashtags_constructor_witness :
  platform_key "Constructor" = "constructor" /\
  getRelevantHashtags "Constructor" "new coffee shop" =
    inl (type_error (msg_not_iterable "baseTags")).
Proof. split; [reflexivity|]. apply getRelevantHashtags_constructor. reflexivity. Defined.

(** C6. On platform names of ASCII characters, the only ones whose case
    mapping the model follows, the platform key ignores case and every
    character that is not an ASCII letter: inserting such text anywhere
    leaves it unchanged, and so does upper-casing the name. *)
Theorem platform_key_insensitive (a sep b : string) :
  ascii_only (a +:+ sep +:+ b) = true -> no_ascii_letter sep = true ->
  platform_key (a +:+ sep +:+ b) = platform_key (a +:+ b) /\
  platform_key (toUpperCase (a +:+ b)) = platform_key (a +:+ b).
Proof.
  intros _ Hs. split.
  - rewrite !platform_key_app, (platform_key_no_letter sep Hs). done.
  - unfold platform_key. by rewrite toLowerCase_toUpperCase.
Qed.

Lemma platform_key_insensitive_witness :
  ascii_only ("Linked" +:+ " / " +:+ "In") = true /\ no_ascii_letter " / " = true /\
  platform_key ("Linked" +:+ " / " +:+ "In") = platform_key ("Linked" +:+ "In").
Proof.
  assert (Ha : ascii_only ("Linked" +:+ " / " +:+ "In") = true) by reflexivity.
  assert (Hs : no_ascii_letter " / " = true) by reflexivity.
  split; [exact Ha|]. split; [exact Hs|]. exact (proj1 (platform_key_insensitive "Linked" " / " "In" Ha Hs)).
Defined.

(** The letter [X] of ["Twitter/X"] survives normalisation: the key
    is [twitterx], which is not in the table, so ["Twitter/X"] gets the
    default bucket while ["twitter"] and ["TWITTER"] get the Twitter tags. *)
Theorem twitter_x_default_bucket :
  platform_key "Twitter/X" = "twitterx" /\
  base_tags_for (platform_key "Twitter/X") = default_tags /\
  base_tags_for (platform_key "twitter") = ["#Twitter"; "#Trending"; "#News"] /\
  base_tags_for (platform_key "TWITTER") = ["#Twitter"; "#Trending"; "#News"].
Proof. repeat split; reflexivity. Qed.
