(* ===== verification/Synth.v ===== *)
(** * The text fallback ([getPlatformSpecificContent], generate.ts 185-286)

    [getRelevantEmojis] draws three indices into a fixed pool of 29
    glyphs.  The pool, and the sparkles of the Instagram template, are kept
    byte for byte as the source file has them: the file was saved after a
    Windows-1254 mis-decoding, so each glyph is the UTF-8 encoding of its
    mojibake (["ğŸ”¥"] where 🔥 was meant).  [formatPrompt] upper-cases the
    first character.  [platform_text] is the [switch] of templates, and
    [getPlatformSpecificContent] derives the hashtags (which may throw),
    then the emoji, then fills the template. *)

From S2P Require Import Prelude JsString JsValue Random Runtime Hashtags.

Definition nl : string := String (ascii_of_nat 10) "".

Definition emojiSets : list string :=
  ["âœ¨"; "ğŸ”¥"; "ğŸ‘€"; "ğŸ’¯"; "ğŸš€"; "ğŸ’ª"; "ğŸ¯"; "ğŸ’¡"; "ğŸŒŸ"; "ğŸ‘";
   "â¤ï¸"; "ğŸ˜Š"; "ğŸ‰"; "ğŸ‘‹"; "ğŸ’¬"; "ğŸ“Š"; "ğŸ’¼"; "ğŸ“ˆ"; "ğŸ”—"; "ğŸ‘”";
   "ğŸµ"; "ğŸ’ƒ"; "ğŸ•º"; "âœŒï¸"; "ğŸ˜‚"; "ğŸ“¹"; "ğŸ¬"; "ğŸ¥"; "ğŸ””"].

(** The glyph written literally at both ends of the Instagram header. *)
Definition sparkles : string := "âœ¨".

(** [prompt.charAt(0).toUpperCase() + prompt.slice(1)] *)
Definition formatPrompt (prompt : string) : string :=
  toUpperCase (charAt0 prompt) +:+ slice1 prompt.

(** The [switch (platform.toLowerCase())] of templates; [e i] is
    [`${emojis[i]}`]. *)
Definition platform_text (platform prompt : string) (hashtags emojis : list string) : string :=
  let e := at_str emojis in
  let p := toLowerCase platform in
  if String.eqb p "instagram" then
    sparkles +:+ " " +:+ e 0 +:+ " New Post " +:+ e 0 +:+ " " +:+ sparkles +:+ nl +:+ nl +:+
    formatPrompt prompt +:+ nl +:+ nl +:+
    e 1 +:+ " Double tap if you agree!" +:+ nl +:+
    e 2 +:+ " Tag friends who need to see this" +:+ nl +:+ nl +:+
    join " " hashtags
  else if String.eqb p "facebook" then
    e 0 +:+ " Just published: " +:+ formatPrompt prompt +:+ nl +:+ nl +:+
    e 1 +:+ " What do you think? Let me know in the comments!" +:+ nl +:+ nl +:+
    join " " (take 3 hashtags)
  else if String.eqb p "twitter" || String.eqb p "twitter/x" then
    e 0 +:+ " " +:+ formatPrompt prompt +:+ nl +:+ nl +:+
    join " " (take 2 hashtags) +:+ " " +:+ e 1
  else if String.eqb p "linkedin" then
    "I'm excited to share my thoughts on " +:+ formatPrompt prompt +:+ nl +:+ nl +:+
    e 0 +:+ " Key takeaways:" +:+ nl +:+
    "- Professional insight 1" +:+ nl +:+
    "- Strategic approach 2" +:+ nl +:+
    "- Future outlook" +:+ nl +:+ nl +:+
    "What's your experience? I'd love to hear your perspective in the comments." +:+ nl +:+ nl +:+
    "#ProfessionalDevelopment " +:+ at_str hashtags 0
  else if String.eqb p "tiktok" then
    e 0 +:+ " When you discover " +:+ formatPrompt prompt +:+ " " +:+ e 1 +:+ nl +:+ nl +:+
    "Follow for more content like this! " +:+ e 2 +:+ nl +:+ nl +:+
    join " " hashtags
  else
    e 0 +:+ " Check out this amazing content about " +:+ prompt +:+ "!" +:+ nl +:+ nl +:+
    e 1 +:+ " Let me know your thoughts in the comments." +:+ nl +:+ nl +:+
    join " " hashtags.

Section Synth.
Context {Seed : Type} `{RandomSource Seed} `{JsEngine}.

(** [for (let i = 0; i < 3; i++) { const randomIndex = ...;
      selectedEmojis.push(emojiSets[randomIndex]); }] *)
Fixpoint emoji_loop (iterations : nat) (selected : list string) : Eff (list string) :=
  match iterations with
  | O => st_ret selected
  | S n =>
    (randomIndex <- random_index (Z.of_nat (List.length emojiSets)) ;;
     emoji_loop n (selected ++ [at_strZ emojiSets randomIndex]))%eff
  end.

Definition getRelevantEmojis : Eff (list string) := emoji_loop 3 [].

Definition getPlatformSpecificContent (platform prompt : string) : Eff string :=
  (hashtags <- st_lift (getRelevantHashtags platform prompt) ;;
   emojis <- getRelevantEmojis ;;
   st_ret (platform_text platform prompt hashtags emojis))%eff.
End Synth.

(** ** Lemmas and properties *)

Lemma emojiSets_length : List.length emojiSets = 29.
Proof. reflexivity. Qed.

(** [formatPrompt] upper-cases the first byte when it is an ASCII
    lower-case letter and leaves everything else as it is. *)
Lemma formatPrompt_bytes (prompt : string) :
  formatPrompt prompt =
  match prompt with EmptyString => EmptyString | String c r => String (ascii_upper c) r end.
Proof. apply upper_first_bytes. Qed.

(** The templates that echo [formatPrompt(prompt)]; the [default] one
    echoes the prompt as it is. *)
Definition known_template (platform : string) : bool :=
  let p := toLowerCase platform in
  String.eqb p "instagram" || String.eqb p "facebook" ||
  (String.eqb p "twitter" || String.eqb p "twitter/x") ||
  String.eqb p "linkedin" || String.eqb p "tiktok".

Definition echoed_prompt (platform prompt : string) : string :=
  if known_template platform then formatPrompt prompt else prompt.

Lemma base_tags_head (k : string) : exists x t, base_tags_for k = ("#" +:+ x) :: t.
Proof.
  unfold base_tags_for, platformTags. simpl.
  repeat (case_match; [eexists _, _; reflexivity|]). eexists _, _; reflexivity.
Qed.

Lemma join_head_contains (sep h : string) (l : list string) :
  str_contains (join sep (h :: l)) h.
Proof. destruct l; simpl; str_contains_tac. Qed.

(** Every piece of a template that shows hashtags shows a [#]. *)
Lemma hashtag_pieces_contain_hash (x : string) (l : list string) :
  str_contains (join " " (("#" +:+ x) :: l)) "#" /\
  str_contains (join " " (take 3 (("#" +:+ x) :: l))) "#" /\
  str_contains (join " " (take 2 (("#" +:+ x) :: l))) "#" /\
  str_contains (at_str (("#" +:+ x) :: l) 0) "#".
Proof.
  assert (Hh : str_contains ("#" +:+ x) "#") by str_contains_tac.
  repeat split; try exact Hh; (eapply str_contains_trans; [apply join_head_contains|exact Hh]).
Qed.

Section SynthProperties.
Context {Seed : Type} `{RandomSource Seed} `{JsEngine}.

Lemma emoji_loop_spec (n : nat) (selected : list string) (w : World) :
  exists es w', emoji_loop n selected w = (Ok (selected ++ es), w') /\
    List.length es = n /\ Forall (fun e => e ∈ emojiSets) es /\
    w_sent w' = w_sent w /\ w_net w' = w_net w.
Proof.
  revert selected w. induction n as [|n IH]; intros selected w.
  - exists [], w. rewrite app_nil_r. auto.
  - cbn [emoji_loop]. unfold st_bind.
    destruct (random_index_spec (Z.of_nat (List.length emojiSets)) w) as (i & s' & -> & Hi & _);
      [rewrite emojiSets_length; lia|].
    destruct (IH (selected ++ [at_strZ emojiSets i]) (mkWorld s' (w_net w) (w_sent w)))
      as (es & w' & -> & Hl & Hf & Hs & Hn).
    exists (at_strZ emojiSets i :: es), w'. rewrite <- app_assoc. simpl.
    simpl in Hs, Hn. repeat split; try congruence. constructor; [by apply at_strZ_in|done].
Qed.

(** C7. [getRelevantEmojis] always completes with exactly three glyphs
    of the pool (drawn with replacement) and sends no request. *)
Theorem getRelevantEmojis_spec (w : World) :
  exists es w', getRelevantEmojis w = (Ok es, w') /\
    List.length es = 3 /\ Forall (fun e => e ∈ emojiSets) es /\
    w_sent w' = w_sent w /\ w_net w' = w_net w.
Proof. apply (emoji_loop_spec 3 []). Qed.

(** C8. The text fallback completes, for every platform whose key is
    not [constructor], with a text that echoes the prompt (capitalised
    by [formatPrompt] in the six platform templates, as typed in the
    [default] one) and shows at least one hashtag. *)
Theorem getPlatformSpecificContent_spec (platform prompt : string) (w : World) :
  platform_key platform <> "constructor" ->
  exists text w', getPlatformSpecificContent platform prompt w = (Ok text, w') /\
    str_contains text (echoed_prompt platform prompt) /\ str_contains text "#" /\
    w_sent w' = w_sent w.
Proof.
  intros Hne. unfold getPlatformSpecificContent, st_bind.
  destruct (getRelevantHashtags_spec platform prompt Hne) as (rest & -> & _).
  cbn [st_lift st_ret].
  destruct (getRelevantEmojis_spec w) as (es & w' & -> & _ & _ & Hs & _).
  eexists _, w'. split; [reflexivity|]. split; [|split; [|done]].
  - unfold echoed_prompt, known_template, platform_text.
    repeat (case_bool; simpl); str_contains_tac.
  - destruct (base_tags_head (platform_key platform)) as (x & t & ->).
    destruct (hashtag_pieces_contain_hash x (t ++ rest)) as (H1 & H2 & H3 & H4).
    unfold platform_text. repeat case_bool;
      first [ (eapply str_contains_trans; [|exact H1]); str_contains_tac
            | (eapply str_contains_trans; [|exact H2]); str_contains_tac
            | (eapply str_contains_trans; [|exact H3]); str_contains_tac
            | (eapply str_contains_trans; [|exact H4]); str_contains_tac ].
Qed.

(** Destruct the three glyphs of [getRelevantEmojis]. *)
Ltac emojis_of w :=
  let es := fresh "es" in let w' := fresh "w'" in let Hl := fresh in let Hf := fresh in
  destruct (getRelevantEmojis_spec w) as (es & w' & -> & Hl & Hf & _ & _);
  destruct es as [|e0 [|e1 [|e2 [|]]]]; try discriminate;
  apply Forall_cons_1 in Hf as [He0 Hf]; apply Forall_cons_1 in Hf as [He1 _].

Ltac pool_cases H tac :=
  repeat (apply elem_of_cons in H as [->|H]; [tac|]); by apply elem_of_nil in H.

(** The example of the specification: with the provider's answer
    unusable, ["new coffee shop"] for ["LinkedIn"] gives a text with
    [#ProfessionalDevelopment #LinkedIn] that contains
    ["New coffee shop"] exactly once, whatever emoji are drawn. *)
Theorem linkedin_coffee_example (w : World) :
  exists text w', getPlatformSpecificContent "LinkedIn" "new coffee shop" w = (Ok text, w') /\
    str_contains text "#ProfessionalDevelopment #LinkedIn" /\
    str_count "New coffee shop" text = 1.
Proof.
  unfold getPlatformSpecificContent, st_bind.
  replace (getRelevantHashtags "LinkedIn" "new coffee shop")
    with (@inr Thrown _ ["#LinkedIn"; "#Professional"; "#Business"; "#coffee"; "#shop"])
    by reflexivity.
  cbn [st_lift st_ret]. emojis_of w.
  eexists _, _. split; [reflexivity|].
  pool_cases He0 ltac:(split; [apply str_count_pos; vm_compute; lia|vm_compute; reflexivity]).
Qed.

(** The [default] template (every platform but the five named
    ones, YouTube included) echoes the prompt without [formatPrompt]:
    for ["YouTube"] the text contains ["new coffee shop"] and never
    ["New coffee shop"]. *)
Theorem default_template_not_capitalised (w : World) :
  exists text w', getPlatformSpecificContent "YouTube" "new coffee shop" w = (Ok text, w') /\
    str_contains text "new coffee shop" /\ str_count "New coffee shop" text = 0.
Proof.
  unfold getPlatformSpecificContent, st_bind.
  replace (getRelevantHashtags "YouTube" "new coffee shop")
    with (@inr Thrown _ ["#YouTube"; "#Video"; "#Content"; "#coffee"; "#shop"])
    by reflexivity.
  cbn [st_lift st_ret]. emojis_of w.
  eexists _, _. split; [reflexivity|].
  split; [unfold platform_text; simpl; str_contains_tac|].
  pool_cases He0 ltac:(pool_cases He1 ltac:(vm_compute; reflexivity)).
Qed.
End SynthProperties.

Lemma getPlatformSpecificContent_spec_witness :
  platform_key "LinkedIn" <> "constructor" /\
  exists text w', getPlatformSpecificContent (Seed:=list Z) "LinkedIn" "new coffee shop"
                    (mkWorld [1%Z; 2%Z; 3%Z] (fun _ _ => FetchRejected (ThrownValue JNull)) []) = (Ok text, w') /\
    str_contains text (echoed_prompt "LinkedIn" "new coffee shop") /\ str_contains text "#" /\
    w_sent w' = [].
Proof.
  assert (Hk : platform_key "LinkedIn" <> "constructor") by (vm_compute; discriminate).
  split; [exact Hk|].
  exact (getPlatformSpecificContent_spec "LinkedIn" "new coffee shop"
           (mkWorld [1%Z; 2%Z; 3%Z] (fun _ _ => FetchRejected (ThrownValue JNull)) []) Hk).
Defined.

Section SynthRequests.
Context {Seed : Type} `{RandomSource Seed} `{JsEngine}.

Lemma sends_emoji_loop n selected : sends_at_most 0 (emoji_loop n selected).
Proof. revert selected. induction n; intros; simpl; eauto with effdb. Qed.

Lemma sends_getPlatformSpecificContent platform prompt :
  sends_at_most 0 (getPlatformSpecificContent platform prompt).
Proof. unfold getPlatformSpecificContent, getRelevantEmojis. eauto using sends_emoji_loop with effdb. Qed.
End SynthRequests.

#[export] Hint Resolve sends_emoji_loop sends_getPlatformSpecificContent : effdb.
