(* ===== verification/AiService.v ===== *)
(** * The client generation service ([src/services/aiService.ts])

    [generateContent] is what the create screens call: one [POST] to the
    Rork LLM toolkit, whose JSON answer's [completion] is returned when it
    is truthy and the text ["Failed to generate content"] otherwise.  Every
    exception (network, non-2xx status, body not JSON, [null] answer) is
    replaced by one [Error] with a fixed message.  Unlike the tRPC
    handler, this service has no fallback content. *)

From S2P Require Import Prelude JsString JsValue Random Runtime.

Record GenerateContentParams : Type := mkGenerateContentParams {
  gp_prompt : string;
  gp_platform : string;
  gp_contentType : string
}.

Definition llm_url : string := "https://toolkit.rork.com/text/llm/".

Definition llm_system (params : GenerateContentParams) : string :=
  "You are a professional social media content creator. Create engaging " +:+ gp_contentType params +:+
  " content for " +:+ gp_platform params +:+
  ". Make it authentic, engaging, and platform-appropriate. Include relevant hashtags when appropriate.".

(** Lines 8-25. *)
Definition llm_request (params : GenerateContentParams) : FetchRequest :=
  mkFetchRequest llm_url "POST" [("Content-Type", "application/json")]
    (JObj [("messages", JArr [
       JObj [("role", JStr "system"); ("content", JStr (llm_system params))];
       JObj [("role", JStr "user"); ("content", JStr (gp_prompt params))]])]).

Definition failed_text : string := "Failed to generate content".

Definition failed_error : Thrown :=
  ThrownError "Error" "Failed to generate content. Please check your internet connection and try again.".

Section Service.
Context {Seed : Type} `{RandomSource Seed} `{JsEngine}.

Local Open Scope eff_scope.

(** Lines 6-37. *)
Definition generateContent (params : GenerateContentParams) : @Eff Seed JSVal :=
  try!
    (response <- fetch (llm_request params) ;;
     if negb (response_ok response) then
       st_throw (ThrownError "Error" ("HTTP error! status: " +:+ Z_to_string (resp_status response)))
     else
       data <- response_json response ;;
       completion <- st_lift (js_get data "completion") ;;
       st_ret (if truthy completion then completion else JStr failed_text))
  catch! (fun _ => st_throw failed_error).
End Service.

Section ServiceProperties.
Context {Seed : Type} `{RandomSource Seed} `{JsEngine}.

(** C21. [generateContent] sends exactly its one request, and either
    returns a truthy value (the completion, or the text ["Failed to
    generate content"]) or throws the one fixed error, whatever the
    network does. *)
Theorem generateContent_outcome (params : GenerateContentParams) (w : @World Seed) :
  let w1 := mkWorld (w_seed w) (w_net w) (w_sent w ++ [llm_request params]) in
  (exists v, generateContent params w = (Ok v, w1) /\ truthy v = true) \/
  generateContent params w = (Err failed_error, w1).
Proof.
  intros w1. unfold generateContent, st_catch, st_bind, fetch. fold w1.
  destruct (w_net w _ _) as [e|r]; [by right|].
  destruct (negb (response_ok r)); [by right|].
  unfold response_json. destruct (resp_json r) as [msg|data]; [by right|].
  cbn [st_ret]. destruct (js_get data "completion") as [e|c]; [by right|].
  cbn [st_lift st_ret]. left. destruct (truthy c) eqn:Hc; eexists; split; eauto.
Qed.
End ServiceProperties.
