(* ===== verification/I18n.v ===== *)
(** * Translations ([src/i18n/index.ts], [src/store/languageStore.ts], [src/constants/languages.ts])

    A [TranslationObject] is a tree whose leaves are strings.  The five
    tables [en], [es], [fr], [de], [pt] live in files the repository does
    not contain; they are the variables of the section [Translate], so
    every theorem holds for all tables.  [t key] splits the key at dots and
    walks the chosen language's table; a missing key switches to the
    English table from the root, and an undefined English key gives the key
    itself.  A walk that meets a string before the keys are used up returns
    that string.  Property lookup on the table objects is modelled on own
    keys: keys that name members of [Object.prototype] are not modelled. *)

From S2P Require Import Prelude.

(** [Language] *)
Inductive Language : Type := lang_en | lang_es | lang_fr | lang_de | lang_pt.

#[export] Instance Language_eq_dec : EqDecision Language.
Proof. solve_decision. Defined.

Inductive TNode : Type :=
| TStr (s : string)
| TObj (fields : list (string * TNode)).

Definition TranslationObject : Type := list (string * TNode).

Fixpoint lookup_key (k : string) (fs : TranslationObject) : option TNode :=
  match fs with
  | [] => None
  | (k', v) :: fs' => if String.eqb k k' then Some v else lookup_key k fs'
  end.

(** [key.split('.')] *)
Fixpoint split_dot_go (s : string) (cur : string) : list string :=
  match s with
  | EmptyString => [cur]
  | String c s' =>
    if Ascii.eqb c "."%char then cur :: split_dot_go s' EmptyString
    else split_dot_go s' (cur +:+ String c EmptyString)
  end.

Definition split_dot (s : string) : list string := split_dot_go s EmptyString.

(** The [LANGUAGES] table. *)
Record LanguageOption : Type := mkLanguageOption {
  lo_code : Language;
  lo_name : string;
  lo_flag : string
}.

Definition LANGUAGES : list LanguageOption :=
  [mkLanguageOption lang_en "English" "🇺🇸";
   mkLanguageOption lang_es "Español" "🇪🇸";
   mkLanguageOption lang_fr "Français" "🇫🇷";
   mkLanguageOption lang_de "Deutsch" "🇩🇪";
   mkLanguageOption lang_pt "Português" "🇧🇷"].

(** The language store's state and its action. *)
Record LanguageState : Type := mkLanguageState { language : Language }.

Definition language_initial : LanguageState := mkLanguageState lang_en.

Definition setLanguage (l : Language) (s : LanguageState) : LanguageState := mkLanguageState l.

(** What a walk down the table meets. *)
Inductive WalkResult : Type :=
| WFound (s : string)     (** a string, at the end or before *)
| WObject                 (** the keys end at an object *)
| WMissing.               (** a key is undefined *)

(** The reference walk, one key at a time. *)
Fixpoint walk (n : TNode) (ks : list string) : WalkResult :=
  match n with
  | TStr s => WFound s
  | TObj fs =>
    match ks with
    | [] => WObject
    | k :: ks' => match lookup_key k fs with
                  | Some n' => walk n' ks'
                  | None => WMissing
                  end
    end
  end.

Section Translate.
Variables (en es fr de pt : TranslationObject).

(** [translations], i18n/index.ts 15-21. *)
Definition translations (l : Language) : TranslationObject :=
  match l with
  | lang_en => en | lang_es => es | lang_fr => fr | lang_de => de | lang_pt => pt
  end.

(** The loop over [fallbackKey] (lines 35-50): [None] is [undefined]. *)
Fixpoint fallback_loop (key : string) (tr : option TNode) (ks : list string) : string :=
  match tr with
  | Some (TStr s) => s
  | None => key
  | Some (TObj fs) =>
    match ks with
    | [] => key
    | k :: ks' => match lookup_key k fs with
                  | None => key
                  | Some n => fallback_loop key (Some n) ks'
                  end
    end
  end.

(** The loop over [keys] (lines 25-54). *)
Fixpoint t_loop (key : string) (keys : list string) (tr : option TNode) (ks : list string) : string :=
  match tr with
  | Some (TStr s) => s
  | None => key
  | Some (TObj fs) =>
    match ks with
    | [] => key
    | k :: ks' => match lookup_key k fs with
                  | None => fallback_loop key (Some (TObj en)) keys
                  | Some n => t_loop key keys (Some n) ks'
                  end
    end
  end.

(** [t(key)], lines 19-57. *)
Definition t (s : LanguageState) (key : string) : string :=
  let keys := split_dot key in
  t_loop key keys (Some (TObj (translations (language s)))) keys.

(** *** Lemmas *)

Lemma fallback_loop_walk key n ks :
  fallback_loop key (Some n) ks = match walk n ks with WFound s => s | _ => key end.
Proof.
  revert n. induction ks as [|k ks IH]; intros [s|fs]; simpl; try done.
  destruct (lookup_key k fs); [apply IH|done].
Qed.

Lemma t_loop_walk key keys n ks :
  t_loop key keys (Some n) ks =
  match walk n ks with
  | WFound s => s
  | WObject => key
  | WMissing => fallback_loop key (Some (TObj en)) keys
  end.
Proof.
  revert n. induction ks as [|k ks IH]; intros [s|fs]; simpl; try done.
  destruct (lookup_key k fs); [apply IH|done].
Qed.
End Translate.

(** ** Properties *)

(** C30. [t] walks the key path in the current language's table; if the
    walk meets a string, that string is the result; if the path ends at an
    object the key itself is; if a key is undefined, the same walk in the
    English table decides, with the key as last resort. *)
Theorem t_spec (en es fr de pt : TranslationObject) (s : LanguageState) (key : string) :
  t en es fr de pt s key =
  match walk (TObj (translations en es fr de pt (language s))) (split_dot key) with
  | WFound str => str
  | WObject => key
  | WMissing => match walk (TObj en) (split_dot key) with WFound str => str | _ => key end
  end.
Proof. unfold t. by rewrite t_loop_walk, fallback_loop_walk. Qed.

(** With an English table [{common: {error: "Error"}}] and an empty
    Spanish one: Spanish falls back to ["Error"]; the key
    ["common.error.details"], which names nothing, also gives ["Error"]
    (the walk stops at the first string); ["common"] gives the key. *)
Theorem t_examples :
  let en := [("common", TObj [("error", TStr "Error")])] in
  t en [] [] [] [] (setLanguage lang_es language_initial) "common.error" = "Error" /\
  t en [] [] [] [] language_initial "common.error.details" = "Error" /\
  t en [] [] [] [] language_initial "common" = "common".
Proof. vm_compute. auto. Qed.
