(* ===== verification/Dates.v ===== *)
(** * The date picker ([src/components/DatePicker.tsx])

    A JavaScript [Date] is modelled by its calendar date in local time
    (year, month 0-11, day of month); the time of day is not modelled.
    [new Date(y, m, d)] and the setters [setDate], [setMonth],
    [setFullYear] go through [make_date], which implements ECMA-262's
    MakeDay on the proleptic Gregorian calendar: out-of-range months carry
    into the year and out-of-range days carry into the following (or
    preceding) months.  The conversion between dates and day numbers is
    the usual era-based civil calendar algorithm.

    The picker keeps a [tempDate]; choosing a day, month or year sets that
    field and then, for month and year, reduces the day when it exceeds
    the new month's length.  Because the setter has already carried the
    overflowing day into the next month, the reduction tests the wrong
    date and does not fire.

    The picker and its parent form a step function [picker_step] over the
    controls the render offers.  Its invariant, [picker_good], keeps the
    selected and edited dates valid and within the range; the proof reads
    a table of every date of the years 1900 to 2100 checked by
    [vm_compute]. *)

From S2P Require Import Prelude JsString.

Record JsDate : Type := mkDate {
  year : Z;
  month : Z;   (** 0-11 *)
  day : Z      (** 1-31 *)
}.

#[export] Instance JsDate_eq_dec : EqDecision JsDate.
Proof. solve_decision. Defined.

(** Days since 1970-01-01 of a civil date (month 1-12). *)
Definition days_from_civil (y m d : Z) : Z :=
  let y := if (m <=? 2)%Z then (y - 1)%Z else y in
  let era := (y / 400)%Z in
  let yoe := (y - era * 400)%Z in
  let doy := ((153 * (if (2 <? m)%Z then m - 3 else m + 9) + 2) / 5 + d - 1)%Z in
  let doe := (yoe * 365 + yoe / 4 - yoe / 100 + doy)%Z in
  (era * 146097 + doe - 719468)%Z.

(** The civil date (month 0-11) of a day number. *)
Definition civil_from_days (z : Z) : JsDate :=
  let z := (z + 719468)%Z in
  let era := (z / 146097)%Z in
  let doe := (z - era * 146097)%Z in
  let yoe := ((doe - doe / 1460 + doe / 36524 - doe / 146096) / 365)%Z in
  let y := (yoe + era * 400)%Z in
  let doy := (doe - (365 * yoe + yoe / 4 - yoe / 100))%Z in
  let mp := ((5 * doy + 2) / 153)%Z in
  let d := (doy - (153 * mp + 2) / 5 + 1)%Z in
  let m := if (mp <? 10)%Z then (mp + 3)%Z else (mp - 9)%Z in
  mkDate (if (m <=? 2)%Z then (y + 1)%Z else y) (m - 1)%Z d.

(** [new Date(y, m, d)]: MakeDay with month and day carried. *)
Definition make_date (y m d : Z) : JsDate :=
  let ym := (y + m / 12)%Z in
  let mn := (m mod 12)%Z in
  civil_from_days (days_from_civil ym (mn + 1) 1 + d - 1)%Z.

Definition setDate (dt : JsDate) (d : Z) : JsDate := make_date (year dt) (month dt) d.
Definition setMonth (dt : JsDate) (m : Z) : JsDate := make_date (year dt) m (day dt).
Definition setFullYear (dt : JsDate) (y : Z) : JsDate := make_date y (month dt) (day dt).

(** Lines 40-42: [new Date(year, month + 1, 0).getDate()]. *)
Definition getDaysInMonth (y m : Z) : Z := day (make_date y (m + 1) 0).

(** Lines 63-67. *)
Definition handleSelectDay (tempDate : JsDate) (d : Z) : JsDate := setDate tempDate d.

(** Lines 69-80. *)
Definition handleSelectMonth (tempDate : JsDate) (m : Z) : JsDate :=
  let newDate := setMonth tempDate m in
  let daysInMonth := getDaysInMonth (year newDate) m in
  if (daysInMonth <? day newDate)%Z then setDate newDate daysInMonth else newDate.

(** Lines 82-93. *)
Definition handleSelectYear (tempDate : JsDate) (y : Z) : JsDate :=
  let newDate := setFullYear tempDate y in
  let daysInMonth := getDaysInMonth y (month newDate) in
  if (daysInMonth <? day newDate)%Z then setDate newDate daysInMonth else newDate.

(** [date >= minimumDate && date <= maximumDate], on calendar dates. *)
Definition date_le (a b : JsDate) : bool :=
  (year a <? year b)%Z ||
  ((year a =? year b)%Z && ((month a <? month b)%Z || ((month a =? month b)%Z && (day a <=? day b)%Z))).

Definition isDateInRange (minimumDate maximumDate dt : JsDate) : bool :=
  date_le minimumDate dt && date_le dt maximumDate.

(** Lines 33-47: the years offered (current year first, down to 1900),
    the months, and the days of [tempDate]'s month. *)
Definition years (currentYear : Z) : list Z :=
  map (fun i => currentYear - Z.of_nat i)%Z (seq 0 (Z.to_nat (currentYear - 1899))).

Definition days (tempDate : JsDate) : list Z :=
  map (fun i => Z.of_nat i + 1)%Z (seq 0 (Z.to_nat (getDaysInMonth (year tempDate) (month tempDate)))).

(** [s.padStart(2, '0')] *)
Definition padStart2 (s : string) : string :=
  if (String.length s <? 2)%nat then String "0"%char s else s.

(** Lines 95-103: [dd/mm/yyyy], or the empty string without a date. *)
Definition formatDate (date : option JsDate) : string :=
  match date with
  | None => EmptyString
  | Some dt =>
    padStart2 (Z_to_string (day dt)) +:+ "/" +:+ padStart2 (Z_to_string (month dt + 1)) +:+ "/" +:+
    Z_to_string (year dt)
  end.

Definition monthNames : list string :=
  ["Jan"; "Feb"; "Mar"; "Apr"; "May"; "Jun"; "Jul"; "Aug"; "Sep"; "Oct"; "Nov"; "Dec"].

(** The picker's state: the modal and the date being edited. *)
Record PickerState : Type := mkPicker {
  modalVisible : bool;
  tempDate : JsDate
}.

(** Lines 49-52: [selectedDate || new Date()]. *)
Definition handleOpenModal (selectedDate : option JsDate) (now : JsDate) (s : PickerState) : PickerState :=
  mkPicker true (default now selectedDate).

(** Lines 54-56. *)
Definition handleCloseModal (s : PickerState) : PickerState := mkPicker false (tempDate s).

(** Lines 58-61: the date handed to [onSelectDate], and the new state. *)
Definition handleConfirm (s : PickerState) : JsDate * PickerState := (tempDate s, handleCloseModal s).

(** The three columns of the modal, lines 140-240: each item with
    whether it is the selected one and whether it can be pressed. *)
Definition day_items (minimumDate maximumDate tempDate : JsDate) : list (Z * bool * bool) :=
  map (fun d => (d, (day tempDate =? d)%Z, isDateInRange minimumDate maximumDate (setDate tempDate d)))
      (days tempDate).

Definition month_items (minimumDate maximumDate tempDate : JsDate) : list (Z * bool * bool) :=
  map (fun m => (m, (month tempDate =? m)%Z, isDateInRange minimumDate maximumDate (setMonth tempDate m)))
      (map Z.of_nat (seq 0 12)).

Definition year_items (currentYear : Z) (minimumDate maximumDate tempDate : JsDate) : list (Z * bool * bool) :=
  map (fun y => (y, (year tempDate =? y)%Z, isDateInRange minimumDate maximumDate (setFullYear tempDate y)))
      (years currentYear).

(** A press on an item: [isInRange && handler(item)]. *)
Definition press_day (minimumDate maximumDate : JsDate) (s : PickerState) (d : Z) : PickerState :=
  if isDateInRange minimumDate maximumDate (setDate (tempDate s) d)
  then mkPicker (modalVisible s) (handleSelectDay (tempDate s) d) else s.

Definition press_month (minimumDate maximumDate : JsDate) (s : PickerState) (m : Z) : PickerState :=
  if isDateInRange minimumDate maximumDate (setMonth (tempDate s) m)
  then mkPicker (modalVisible s) (handleSelectMonth (tempDate s) m) else s.

Definition press_year (minimumDate maximumDate : JsDate) (s : PickerState) (y : Z) : PickerState :=
  if isDateInRange minimumDate maximumDate (setFullYear (tempDate s) y)
  then mkPicker (modalVisible s) (handleSelectYear (tempDate s) y) else s.

(** The Gregorian month lengths, the reference for [getDaysInMonth]. *)
Definition leap (y : Z) : bool :=
  ((y mod 4 =? 0)%Z && negb (y mod 100 =? 0)%Z) || (y mod 400 =? 0)%Z.

Definition month_length (y m : Z) : Z :=
  if (m =? 1)%Z then (if leap y then 29 else 28)%Z
  else if existsb (Z.eqb m) [3; 5; 8; 10]%Z then 30%Z else 31%Z.

(** A valid calendar date. *)
Definition valid_date (dt : JsDate) : bool :=
  (0 <=? month dt)%Z && (month dt <? 12)%Z && (1 <=? day dt)%Z && (day dt <=? month_length (year dt) (month dt))%Z.

(** ** The picker with its parent

    The parent keeps the selected date and passes [setDateOfBirth] as
    [onSelectDate] (profile/edit.tsx), so a confirmed date becomes the
    selected one.  [now] is [new Date()] as a calendar date, and
    [currentYear] its year. *)

Inductive picker_event : Type :=
| POpen | PClose | PConfirm
| PDay (d : Z) | PMonth (m : Z) | PYear (y : Z).

(** What the render offers: the trigger while the modal is closed; the
    two footer buttons and the items of the three columns while it is
    open (lines 110-270). *)
Definition picker_available (currentYear : Z) (s : option JsDate * PickerState) (e : picker_event) : bool :=
  let ps := snd s in
  match e with
  | POpen => negb (modalVisible ps)
  | PClose | PConfirm => modalVisible ps
  | PDay d => modalVisible ps && bool_decide (d ∈ days (tempDate ps))
  | PMonth m => modalVisible ps && bool_decide (m ∈ map Z.of_nat (seq 0 12))
  | PYear y => modalVisible ps && bool_decide (y ∈ years currentYear)
  end.

Definition picker_dispatch (now minimumDate maximumDate : JsDate) (s : option JsDate * PickerState)
    (e : picker_event) : option JsDate * PickerState :=
  let '(sel, ps) := s in
  match e with
  | POpen => (sel, handleOpenModal sel now ps)
  | PClose => (sel, handleCloseModal ps)
  | PConfirm => let '(d, ps') := handleConfirm ps in (Some d, ps')
  | PDay d => (sel, press_day minimumDate maximumDate ps d)
  | PMonth m => (sel, press_month minimumDate maximumDate ps m)
  | PYear y => (sel, press_year minimumDate maximumDate ps y)
  end.

Definition picker_step (currentYear : Z) (now minimumDate maximumDate : JsDate)
    (s : option JsDate * PickerState) (e : picker_event) : option JsDate * PickerState :=
  if picker_available currentYear s e then picker_dispatch now minimumDate maximumDate s e else s.

(** A date the picker may hold: a valid calendar date within the range. *)
Definition good_date (minimumDate maximumDate dt : JsDate) : bool :=
  valid_date dt && isDateInRange minimumDate maximumDate dt.

Definition picker_good (minimumDate maximumDate : JsDate) (s : option JsDate * PickerState) : bool :=
  match fst s with Some d => good_date minimumDate maximumDate d | None => true end &&
  (negb (modalVisible (snd s)) || good_date minimumDate maximumDate (tempDate (snd s))).

(** ** Properties *)

(** ** Calendar tables *)

Lemma getDaysInMonth_table :
  forallb (fun y => forallb (fun m => (getDaysInMonth y m =? month_length y m)%Z)
    (map Z.of_nat (seq 0 12)))
    (map (fun i => 1900 + Z.of_nat i)%Z (seq 0 201)) = true.
Proof. vm_compute. reflexivity. Qed.

(** What the picker relies on at every year, month and day it offers: the
    date [new Date(y, m, d)] is valid, and neither day-adjustment test of
    [handleSelectMonth] and [handleSelectYear] fires on it. *)
Lemma picker_facts_table :
  forallb (fun y => forallb (fun m => forallb (fun d =>
      let nd := make_date y m d in
      valid_date nd && (year nd =? y)%Z && (day nd <=? month_length y m)%Z &&
      (day nd <=? month_length y (month nd))%Z)
      (map (fun i => Z.of_nat i + 1)%Z (seq 0 31)))
    (map Z.of_nat (seq 0 12)))
    (map (fun i => 1900 + Z.of_nat i)%Z (seq 0 201)) = true.
Proof. vm_compute. reflexivity. Qed.

Lemma month_length_le_31 (y m : Z) : (28 <= month_length y m <= 31)%Z.
Proof. unfold month_length. destruct (m =? 1)%Z, (leap y), (existsb (Z.eqb m) [3; 5; 8; 10]%Z); lia. Qed.

(** Reading one entry of a three-level table over years, months and days. *)
Lemma table_at (P : Z -> Z -> Z -> bool) (y m d : Z) :
  forallb (fun y => forallb (fun m => forallb (fun d => P y m d)
      (map (fun i => Z.of_nat i + 1)%Z (seq 0 31)))
    (map Z.of_nat (seq 0 12)))
    (map (fun i => 1900 + Z.of_nat i)%Z (seq 0 201)) = true ->
  (1900 <= y <= 2100)%Z -> (0 <= m <= 11)%Z -> (1 <= d <= 31)%Z -> P y m d = true.
Proof.
  intros T Hy Hm Hd.
  assert (Iy : In y (map (fun i => 1900 + Z.of_nat i)%Z (seq 0 201)))
    by (apply in_map_iff; exists (Z.to_nat (y - 1900)); split; [lia|apply in_seq; lia]).
  assert (Im : In m (map Z.of_nat (seq 0 12)))
    by (apply in_map_iff; exists (Z.to_nat m); split; [lia|apply in_seq; lia]).
  assert (Id : In d (map (fun i => Z.of_nat i + 1)%Z (seq 0 31)))
    by (apply in_map_iff; exists (Z.to_nat (d - 1)); split; [lia|apply in_seq; lia]).
  rewrite forallb_forall in T. specialize (T y Iy). rewrite forallb_forall in T.
  specialize (T m Im). rewrite forallb_forall in T. exact (T d Id).
Qed.



(** C32. For every year the picker offers (1900 to 2100) and every month,
    [getDaysInMonth] is the Gregorian length of the month, and building
    every valid date of those years gives that date back. *)
Theorem getDaysInMonth_gregorian :
  forallb (fun y => forallb (fun m =>
      (getDaysInMonth y m =? month_length y m)%Z &&
      forallb (fun d => bool_decide (make_date y m d = mkDate y m d))
        (map (fun i => Z.of_nat i + 1)%Z (seq 0 (Z.to_nat (month_length y m)))))
    (map Z.of_nat (seq 0 12)))
    (map (fun i => 1900 + Z.of_nat i)%Z (seq 0 201)) = true.
Proof. vm_compute. reflexivity. Qed.

(** Choosing a shorter month does not clamp the day: from 31 January
    2023, choosing February gives 3 March 2023 (the setter carries the 31st
    over before the length check); from 29 February 2024, choosing 2023
    gives 1 March 2023.  Both results are valid dates of the wrong month. *)
Theorem select_month_overflow :
  handleSelectMonth (mkDate 2023 0 31) 1 = mkDate 2023 2 3 /\
  handleSelectYear (mkDate 2024 1 29) 2023 = mkDate 2023 2 1 /\
  valid_date (mkDate 2023 2 3) = true.
Proof. vm_compute. auto. Qed.


(** ** The picker keeps its range *)

Lemma getDaysInMonth_at (y m : Z) :
  (1900 <= y <= 2100)%Z -> (0 <= m <= 11)%Z -> getDaysInMonth y m = month_length y m.
Proof.
  intros Hy Hm. pose proof getDaysInMonth_table as T.
  assert (Iy : In y (map (fun i => 1900 + Z.of_nat i)%Z (seq 0 201)))
    by (apply in_map_iff; exists (Z.to_nat (y - 1900)); split; [lia|apply in_seq; lia]).
  assert (Im : In m (map Z.of_nat (seq 0 12)))
    by (apply in_map_iff; exists (Z.to_nat m); split; [lia|apply in_seq; lia]).
  rewrite forallb_forall in T. specialize (T y Iy). rewrite forallb_forall in T.
  apply Z.eqb_eq, (T m Im).
Qed.

Lemma valid_date_bounds (t : JsDate) :
  valid_date t = true -> (0 <= month t <= 11)%Z /\ (1 <= day t <= 31)%Z.
Proof.
  unfold valid_date. rewrite !andb_true_iff, !Z.leb_le, !Z.ltb_lt.
  pose proof (month_length_le_31 (year t) (month t)). lia.
Qed.

Lemma date_le_year (a b : JsDate) : date_le a b = true -> (year a <= year b)%Z.
Proof.
  unfold date_le. rewrite orb_true_iff, andb_true_iff, Z.ltb_lt, Z.eqb_eq. lia.
Qed.

Lemma in_range_year (mn mx t : JsDate) :
  (1900 <= year mn)%Z -> (year mx <= 2100)%Z -> isDateInRange mn mx t = true -> (1900 <= year t <= 2100)%Z.
Proof.
  unfold isDateInRange. rewrite andb_true_iff. intros H1 H2 [Ha Hb].
  apply date_le_year in Ha, Hb. lia.
Qed.

Lemma facts_of (y m d : Z) :
  (1900 <= y <= 2100)%Z -> (0 <= m <= 11)%Z -> (1 <= d <= 31)%Z ->
  valid_date (make_date y m d) = true /\ year (make_date y m d) = y /\
  (day (make_date y m d) <= month_length y m)%Z /\
  (day (make_date y m d) <= month_length y (month (make_date y m d)))%Z.
Proof.
  intros Hy Hm Hd.
  pose proof (table_at (fun y m d => let nd := make_date y m d in
      valid_date nd && (year nd =? y)%Z && (day nd <=? month_length y m)%Z &&
      (day nd <=? month_length y (month nd))%Z) y m d picker_facts_table Hy Hm Hd) as F.
  cbv beta zeta in F. apply andb_prop in F as [F H4]. apply andb_prop in F as [F H3].
  apply andb_prop in F as [H1 H2]. apply Z.eqb_eq in H2. apply Z.leb_le in H3, H4. tauto.
Qed.

(** The day adjustment of [handleSelectMonth] never fires on a valid
    date of the offered years: the result is [setMonth], a valid date. *)
Lemma handleSelectMonth_setMonth (t : JsDate) (m : Z) :
  valid_date t = true -> (1900 <= year t <= 2100)%Z -> (0 <= m <= 11)%Z ->
  handleSelectMonth t m = setMonth t m /\ valid_date (setMonth t m) = true.
Proof.
  intros Hv Hy Hm. destruct (valid_date_bounds t Hv) as [_ Hd].
  destruct (facts_of (year t) m (day t) Hy Hm Hd) as (Hv' & Hy' & Hle & _).
  unfold handleSelectMonth, setMonth. rewrite Hy', getDaysInMonth_at by done.
  rewrite (proj2 (Z.ltb_ge _ _) Hle). done.
Qed.

(** Likewise for [handleSelectYear]. *)
Lemma handleSelectYear_setFullYear (t : JsDate) (y : Z) :
  valid_date t = true -> (1900 <= y <= 2100)%Z ->
  handleSelectYear t y = setFullYear t y /\ valid_date (setFullYear t y) = true.
Proof.
  intros Hv Hy. destruct (valid_date_bounds t Hv) as [Hm Hd].
  destruct (facts_of y (month t) (day t) Hy Hm Hd) as (Hv' & _ & _ & Hle).
  destruct (valid_date_bounds _ Hv') as [Hm' _].
  unfold handleSelectYear, setFullYear. rewrite getDaysInMonth_at by done.
  rewrite (proj2 (Z.ltb_ge _ _) Hle). done.
Qed.

Lemma month_items_bounds (m : Z) : m ∈ map Z.of_nat (seq 0 12) -> (0 <= m <= 11)%Z.
Proof. intros Hm. apply list_elem_of_In, in_map_iff in Hm as (k & <- & Hk). apply in_seq in Hk. lia. Qed.

Lemma years_bounds (cy y : Z) : y ∈ years cy -> (1900 <= y <= cy)%Z.
Proof. unfold years. intros Hy. apply list_elem_of_In, in_map_iff in Hy as (k & <- & Hk). apply in_seq in Hk. lia. Qed.

Lemma days_range (t : JsDate) (d : Z) : d ∈ days t -> (1 <= d <= getDaysInMonth (year t) (month t))%Z.
Proof. unfold days. intros Hd. apply list_elem_of_In, in_map_iff in Hd as (k & <- & Hk). apply in_seq in Hk. lia. Qed.

Lemma days_bounds (t : JsDate) (d : Z) :
  valid_date t = true -> (1900 <= year t <= 2100)%Z -> d ∈ days t -> (1 <= d <= 31)%Z.
Proof.
  intros Hv Hy Hd. destruct (valid_date_bounds t Hv) as [Hm _].
  pose proof (days_range t d Hd) as Hr. rewrite getDaysInMonth_at in Hr by done.
  pose proof (month_length_le_31 (year t) (month t)). lia.
Qed.

Lemma setDate_valid (t : JsDate) (d : Z) :
  valid_date t = true -> (1900 <= year t <= 2100)%Z -> (1 <= d <= 31)%Z -> valid_date (setDate t d) = true.
Proof.
  intros Hv Hy Hd. destruct (valid_date_bounds t Hv) as [Hm _].
  by destruct (facts_of (year t) (month t) d Hy Hm Hd) as (? & _).
Qed.

Lemma good_date_year (mn mx t : JsDate) :
  (1900 <= year mn)%Z -> (year mx <= 2100)%Z -> good_date mn mx t = true ->
  valid_date t = true /\ (1900 <= year t <= 2100)%Z.
Proof.
  unfold good_date. rewrite andb_true_iff. intros H1 H2 [Hv Hr]. split; [done|]. by apply (in_range_year mn mx).
Qed.

Section PickerRange.
Variables (currentYear : Z) (now minimumDate maximumDate : JsDate).
Hypothesis Hmin : (1900 <= year minimumDate)%Z.
Hypothesis Hmax : (year maximumDate <= 2100)%Z.
Hypothesis Hcy : (currentYear <= 2100)%Z.
Hypothesis Hnow : good_date minimumDate maximumDate now = true.

(** A press that passes its range test stores a good date. *)
Lemma press_good (t' : JsDate) :
  isDateInRange minimumDate maximumDate t' = true -> valid_date t' = true ->
  good_date minimumDate maximumDate t' = true.
Proof. unfold good_date. by intros -> ->. Qed.

Lemma picker_step_good (s : option JsDate * PickerState) (e : picker_event) :
  picker_good minimumDate maximumDate s = true ->
  picker_good minimumDate maximumDate (picker_step currentYear now minimumDate maximumDate s e) = true.
Proof.
  unfold picker_step. destruct (picker_available currentYear s e) eqn:Ha; [|done].
  destruct s as [sel [mv td]]. unfold picker_good. cbn [fst snd modalVisible tempDate].
  rewrite !andb_true_iff, !orb_true_iff. intros [Hsel Htd].
  assert (Hgood : mv = true -> valid_date td = true /\ (1900 <= year td <= 2100)%Z /\
                              good_date minimumDate maximumDate td = true).
  { intros ->. destruct Htd as [Htd|Htd]; [discriminate|].
    destruct (good_date_year _ _ _ Hmin Hmax Htd). done. }
  destruct e; cbn [picker_available fst snd modalVisible tempDate] in Ha; cbn [picker_dispatch];
    try (apply andb_true_iff in Ha as [Hmv Hin]; apply bool_decide_eq_true in Hin;
         destruct (Hgood Hmv) as (Hv & Hy & _)).
  - (* POpen *) split; [done|right]. destruct sel; [done|exact Hnow].
  - (* PClose *) split; [done|by left].
  - (* PConfirm *) destruct (Hgood Ha) as (_ & _ & Hg). split; [done|by left].
  - (* PDay *) unfold press_day. cbn [tempDate modalVisible]. split; [done|].
    destruct (isDateInRange _ _ (setDate td d)) eqn:Hr; cbn [modalVisible tempDate]; [|exact Htd].
    right. apply press_good; [done|]. apply setDate_valid; [done..|]. by apply (days_bounds td).
  - (* PMonth *) unfold press_month. cbn [tempDate modalVisible]. split; [done|].
    destruct (isDateInRange _ _ (setMonth td m)) eqn:Hr; cbn [modalVisible tempDate]; [|exact Htd].
    destruct (handleSelectMonth_setMonth td m Hv Hy (month_items_bounds m Hin)) as [-> Hv'].
    right. by apply press_good.
  - (* PYear *) unfold press_year. cbn [tempDate modalVisible]. split; [done|].
    destruct (isDateInRange _ _ (setFullYear td y)) eqn:Hr; cbn [modalVisible tempDate]; [|exact Htd].
    pose proof (years_bounds currentYear y Hin).
    destruct (handleSelectYear_setFullYear td y Hv ltac:(lia)) as [-> Hv'].
    right. by apply press_good.
Qed.
End PickerRange.

(** In a good state with the modal open, neither day adjustment fires. *)
Lemma picker_good_no_adjust (minimumDate maximumDate : JsDate) (s : option JsDate * PickerState) (m y : Z) :
  (1900 <= year minimumDate)%Z -> (year maximumDate <= 2100)%Z ->
  picker_good minimumDate maximumDate s = true -> modalVisible (snd s) = true ->
  (0 <= m <= 11)%Z -> (1900 <= y <= 2100)%Z ->
  handleSelectMonth (tempDate (snd s)) m = setMonth (tempDate (snd s)) m /\
  handleSelectYear (tempDate (snd s)) y = setFullYear (tempDate (snd s)) y.
Proof.
  intros Hmin Hmax Hg Hmv Hm Hy. unfold picker_good in Hg. rewrite Hmv in Hg. simpl in Hg.
  apply andb_true_iff in Hg as [_ Hg]. destruct (good_date_year _ _ _ Hmin Hmax Hg) as [Hv Hyt].
  split; [by apply handleSelectMonth_setMonth|by apply handleSelectYear_setFullYear].
Qed.

(** C24. The date picker holds only dates of its range: from a state whose
    selected date (if any) and, while the modal is open, edited date are
    valid dates within [[minimumDate, maximumDate]], and with [now] such a
    date, along every run of the picker and its parent both remain so.  In
    particular every date the picker confirms to [onSelectDate] is a valid
    date of the range, whatever day, month and year items are pressed.
    Moreover, in every such state with the modal open, the day adjustments
    of [handleSelectMonth] and [handleSelectYear] never fire for any month
    or year of the picker: each handler stores exactly [setMonth] or
    [setFullYear] of the edited date, the date the press tested, whose
    day has already overflowed into the next month (the comments of
    DatePicker.tsx lines 73 and 86 expect the day to be clamped).  The
    bounds are those of the table the proof reads (years 1900 to 2100). *)
Theorem picker_confirms_in_range (currentYear : Z) (now minimumDate maximumDate : JsDate)
    (s0 s : option JsDate * PickerState) :
  (1900 <= year minimumDate)%Z -> (year maximumDate <= 2100)%Z -> (currentYear <= 2100)%Z ->
  good_date minimumDate maximumDate now = true -> picker_good minimumDate maximumDate s0 = true ->
  reachable (picker_step currentYear now minimumDate maximumDate) s0 s ->
  picker_good minimumDate maximumDate s = true /\
  (modalVisible (snd s) = true -> forall m y, (0 <= m <= 11)%Z -> (1900 <= y <= 2100)%Z ->
     handleSelectMonth (tempDate (snd s)) m = setMonth (tempDate (snd s)) m /\
     handleSelectYear (tempDate (snd s)) y = setFullYear (tempDate (snd s)) y).
Proof.
  intros H1 H2 H3 Hnow H0 Hr.
  assert (Hg : picker_good minimumDate maximumDate s = true).
  { revert s Hr. apply (reachable_invariant _ (fun s => picker_good minimumDate maximumDate s = true)); [done|].
    intros s' e. by apply picker_step_good. }
  split; [done|]. intros Hmv m y Hm Hy. by apply (picker_good_no_adjust minimumDate maximumDate).
Qed.

Lemma picker_confirms_in_range_witness :
  let now := mkDate 2025 5 15 in
  let s := fold_left (picker_step 2025 now (mkDate 1900 0 1) now) [POpen; PMonth 1; PDay 28; PYear 2024; PConfirm]
             (None, mkPicker false now) in
  fst s = Some (mkDate 2024 1 28) /\
  picker_good (mkDate 1900 0 1) now s = true.
Proof.
  split; [vm_compute; reflexivity|].
  apply (proj1 (picker_confirms_in_range 2025 (mkDate 2025 5 15) (mkDate 1900 0 1) (mkDate 2025 5 15)
           (None, mkPicker false (mkDate 2025 5 15)) _ ltac:(simpl; lia) ltac:(simpl; lia) ltac:(lia)
           ltac:(vm_compute; reflexivity) ltac:(vm_compute; reflexivity) (reachable_run _ _ _))).
Defined.

(** February cannot be chosen from the 31st when the range ends in
    February: the month item tests the carried-over date (3 March), not a
    February date, so it is disabled although 1 to 20 February are in
    range. *)
Lemma february_disabled_from_31st :
  In (1%Z, false, false) (month_items (mkDate 1900 0 1) (mkDate 2025 1 20) (mkDate 2025 0 31)).
Proof. vm_compute. tauto. Qed.
