(* ===== verification/Types.v ===== *)
(** * The application's data types ([src/types/index.ts])

    The string-literal unions [ThemeType] and [FontType] become inductive
    types with one constructor per literal; the interfaces become records
    whose fields carry the interface's name as a prefix (Rocq record fields
    are global names).  An optional field [x?: T] is an [option].  Equality
    of each type is decidable, so the stores' [id === ...] tests are
    [bool_decide]. *)

From S2P Require Import Prelude.

(** [ThemeType] *)
Inductive ThemeType : Type :=
| neonGreen | neonBlue | neonPink | neonRed | neonGold | neonSilver.

(** [FontType]: ['system' | 'comic'] *)
Inductive FontType : Type :=
| FontSystem | FontComic.

Record SocialPlatform : Type := mkSocialPlatform {
  sp_id : string;
  sp_name : string;
  sp_icon : string;
  sp_color : string;
  sp_connected : bool;
  sp_username : option string
}.

Record User : Type := mkUser {
  u_id : string;
  u_name : string;
  u_email : string;
  u_photoUrl : string;
  u_connectedPlatforms : list SocialPlatform;
  u_phoneNumber : option string;
  u_countryCode : option string;
  u_dateOfBirth : option string
}.

Record ContentType : Type := mkContentType {
  ct_id : string;
  ct_name : string;
  ct_icon : string;
  ct_description : string
}.

(** [status: 'draft' | 'published' | 'scheduled'] *)
Inductive ContentStatus : Type :=
| StatusDraft | StatusPublished | StatusScheduled.

Record ContentAnalytics : Type := mkContentAnalytics {
  ca_views : Z;
  ca_likes : Z;
  ca_comments : Z;
  ca_shares : Z
}.

Record ContentItem : Type := mkContentItem {
  ci_id : string;
  ci_title : string;
  ci_content : string;
  ci_type : string;
  ci_platform : string;
  ci_createdAt : Z;
  ci_publishedAt : option Z;
  ci_status : ContentStatus;
  ci_analytics : option ContentAnalytics
}.

Record HistoryPoint : Type := mkHistoryPoint {
  hp_date : string;
  hp_value : Z
}.

Record AnalyticsData : Type := mkAnalyticsData {
  ad_date : string;
  ad_views : Z;
  ad_likes : Z;
  ad_comments : Z;
  ad_shares : Z;
  ad_platform : string;
  ad_posts : Z;
  ad_engagement : Z;
  ad_followers : Z;
  ad_growth : Z;
  ad_history : list HistoryPoint
}.

Record CountryCode : Type := mkCountryCode {
  cc_code : string;
  cc_name : string;
  cc_flag : string;
  cc_dialCode : string
}.

Record GeneratedContent : Type := mkGeneratedContent {
  gc_id : string;
  gc_type : ContentType;
  gc_content : string;
  gc_platform : string;
  gc_createdAt : string;
  gc_published : bool
}.

(** ** Decidable equality *)

#[export] Instance ThemeType_eq_dec : EqDecision ThemeType.
Proof. solve_decision. Defined.

#[export] Instance FontType_eq_dec : EqDecision FontType.
Proof. solve_decision. Defined.

#[export] Instance SocialPlatform_eq_dec : EqDecision SocialPlatform.
Proof. solve_decision. Defined.

#[export] Instance ContentType_eq_dec : EqDecision ContentType.
Proof. solve_decision. Defined.

#[export] Instance GeneratedContent_eq_dec : EqDecision GeneratedContent.
Proof. solve_decision. Defined.

#[export] Instance CountryCode_eq_dec : EqDecision CountryCode.
Proof. solve_decision. Defined.

#[export] Instance User_eq_dec : EqDecision User.
Proof. solve_decision. Defined.

(** ** Record updates *)

(** [{ ...p, connected: true }] *)
Definition sp_set_connected (p : SocialPlatform) : SocialPlatform :=
  mkSocialPlatform (sp_id p) (sp_name p) (sp_icon p) (sp_color p) true (sp_username p).

(** [{ ...p, connected: true, username: u }] *)
Definition sp_with_account (p : SocialPlatform) (u : string) : SocialPlatform :=
  mkSocialPlatform (sp_id p) (sp_name p) (sp_icon p) (sp_color p) true (Some u).

(** [{ ...user, connectedPlatforms: ps }] *)
Definition u_set_platforms (u : User) (ps : list SocialPlatform) : User :=
  mkUser (u_id u) (u_name u) (u_email u) (u_photoUrl u) ps
         (u_phoneNumber u) (u_countryCode u) (u_dateOfBirth u).

(** [{ ...content, published: true }] *)
Definition gc_set_published (c : GeneratedContent) : GeneratedContent :=
  mkGeneratedContent (gc_id c) (gc_type c) (gc_content c) (gc_platform c) (gc_createdAt c) true.

Lemma sp_set_connected_id p : sp_id (sp_set_connected p) = sp_id p.
Proof. reflexivity. Qed.

Lemma gc_set_published_id c : gc_id (gc_set_published c) = gc_id c.
Proof. reflexivity. Qed.

Lemma gc_set_published_idem c : gc_set_published (gc_set_published c) = gc_set_published c.
Proof. reflexivity. Qed.
