(* ===== verification/Constants.v ===== *)
(** * Constant tables ([src/constants/colors.ts], [socialPlatforms.ts], [fonts.ts])

    [COLORS] is an object literal with eleven fixed colours and one
    [{primary, secondary}] pair per [ThemeType]; [COLORS[theme]] is the
    function [theme_colors].  [SHADOWS] holds style values only and is not
    modelled.  [SOCIAL_PLATFORMS] is the list of nine platforms the create
    screen offers, in order; [FONTS] the two font choices. *)

From S2P Require Import Prelude Types.

Record ThemeColors : Type := mkThemeColors {
  tc_primary : string;
  tc_secondary : string
}.

(** The fixed colours of [COLORS], lines 2-12. *)
Record Palette : Type := mkPalette {
  pal_primary : string;
  pal_secondary : string;
  pal_background : string;
  pal_surface : string;
  pal_text : string;
  pal_textSecondary : string;
  pal_border : string;
  pal_error : string;
  pal_success : string;
  pal_warning : string;
  pal_info : string
}.

Definition COLORS : Palette :=
  mkPalette "#4A9968" "#A8D0B0" "#121212" "rgba(30, 30, 30, 0.6)" "#FFFFFF" "#B0B0B0"
            "rgba(255, 255, 255, 0.1)" "#CF6679" "#4A9968" "#FFEB3B" "#03A9F4".

(** [COLORS[theme]], lines 15-38. *)
Definition theme_colors (t : ThemeType) : ThemeColors :=
  match t with
  | neonGreen => mkThemeColors "#4A9968" "#A8D0B0"
  | neonBlue => mkThemeColors "#00B0FF" "#80D8FF"
  | neonPink => mkThemeColors "#FF4081" "#FF80AB"
  | neonRed => mkThemeColors "#FF1744" "#FF8A80"
  | neonGold => mkThemeColors "#FFD700" "#FFF59D"
  | neonSilver => mkThemeColors "#B0BEC5" "#ECEFF1"
  end.

Definition all_themes : list ThemeType :=
  [neonGreen; neonBlue; neonPink; neonRed; neonGold; neonSilver].

Definition wiki (path : string) : string := "https://upload.wikimedia.org/wikipedia/" +:+ path.

(** [SOCIAL_PLATFORMS] *)
Definition SOCIAL_PLATFORMS : list SocialPlatform :=
  [mkSocialPlatform "instagram" "Instagram"
     (wiki "commons/thumb/a/a5/Instagram_icon.png/2048px-Instagram_icon.png") "#E4405F" false None;
   mkSocialPlatform "facebook" "Facebook"
     (wiki "commons/thumb/5/51/Facebook_f_logo_%282019%29.svg/2048px-Facebook_f_logo_%282019%29.svg.png")
     "#1877F2" false None;
   mkSocialPlatform "twitter" "X"
     (wiki "commons/thumb/c/ce/X_logo_2023.svg/2048px-X_logo_2023.svg.png") "#000000" false None;
   mkSocialPlatform "linkedin" "LinkedIn"
     (wiki "commons/thumb/c/ca/LinkedIn_logo_initials.png/2048px-LinkedIn_logo_initials.png") "#0A66C2" false None;
   mkSocialPlatform "tiktok" "TikTok"
     (wiki "en/thumb/a/a9/TikTok_logo.svg/2048px-TikTok_logo.svg.png") "#FF0050" false None;
   mkSocialPlatform "youtube" "YouTube"
     (wiki "commons/thumb/0/09/YouTube_full-color_icon_%282017%29.svg/2048px-YouTube_full-color_icon_%282017%29.svg.png")
     "#FF0000" false None;
   mkSocialPlatform "pinterest" "Pinterest"
     (wiki "commons/thumb/0/08/Pinterest-logo.png/2048px-Pinterest-logo.png") "#BD081C" false None;
   mkSocialPlatform "snapchat" "Snapchat"
     (wiki "en/thumb/c/c4/Snapchat_logo.svg/2048px-Snapchat_logo.svg.png") "#FFFC00" false None;
   mkSocialPlatform "reddit" "Reddit"
     (wiki "en/thumb/5/58/Reddit_logo_new.svg/2048px-Reddit_logo_new.svg.png") "#FF4500" false None].

Record FontOption : Type := mkFontOption {
  fo_id : FontType;
  fo_name : string;
  fo_fontFamily : option string;   (** [undefined] for the system font *)
  fo_systemFont : bool             (** [systemFont: true], absent means [false] *)
}.

(** [FONTS] *)
Definition FONTS : list FontOption :=
  [mkFontOption FontSystem "System Default" None false;
   mkFontOption FontComic "Comic Sans" (Some "Comic Sans MS") true].

(** ** Facts about the tables *)

Lemma SOCIAL_PLATFORMS_ids_NoDup : NoDup (map sp_id SOCIAL_PLATFORMS).
Proof. apply (bool_decide_unpack _). vm_compute. reflexivity. Qed.

Lemma SOCIAL_PLATFORMS_disconnected : Forall (fun p => sp_connected p = false) SOCIAL_PLATFORMS.
Proof. repeat constructor. Qed.

Lemma all_themes_complete (t : ThemeType) : t ∈ all_themes.
Proof. destruct t; unfold all_themes; repeat (apply elem_of_cons; (by left) || right); by left. Qed.

Lemma all_themes_NoDup : NoDup all_themes.
Proof. apply (bool_decide_unpack _). vm_compute. reflexivity. Qed.
