(* ===== verification/Stores.v ===== *)
(** * The zustand stores ([src/store/contentStore.ts], [userStore.ts], [themeStore.ts])

    A store is a record of its state fields; each action is a function on
    the state that performs the action's [set] (zustand merges the partial
    object into the state, which the functions write out field by field).
    The [persist] middleware only copies the state to AsyncStorage and is
    not modelled.  Each store's actions are also collected in an
    inductive [action] with a step function, so that "every reachable
    state" is the reflexive-transitive closure from [initial] and
    invariants are proved by induction on the run.

    The create screen uses the content and user stores through the
    interfaces [ContentStoreSig] and [UserStoreSig]: their laws are what
    the screen's theorems rely on. *)

From S2P Require Import Prelude Types Constants.

(** Runs of a step function ([reachable]) are in [Prelude]. *)

(** ** Interfaces *)

(** What the create screen uses of the content store. *)
Class ContentStoreOps (S : Type) : Type := {
  cs_history : S -> list GeneratedContent;
  cs_current : S -> option GeneratedContent;
  cs_generating : S -> bool;
  cs_addContent : GeneratedContent -> S -> S;
  cs_setCurrentContent : option GeneratedContent -> S -> S;
  cs_setIsGenerating : bool -> S -> S;
  cs_clearCurrentContent : S -> S
}.

(** Each action changes its own field and leaves the others alone. *)
Class ContentStoreLaws (S : Type) `{ContentStoreOps S} : Prop := {
  cs_add_history c s : cs_history (cs_addContent c s) = c :: cs_history s;
  cs_add_current c s : cs_current (cs_addContent c s) = cs_current s;
  cs_add_generating c s : cs_generating (cs_addContent c s) = cs_generating s;
  cs_set_current c s : cs_current (cs_setCurrentContent c s) = c;
  cs_set_current_history c s : cs_history (cs_setCurrentContent c s) = cs_history s;
  cs_set_current_generating c s : cs_generating (cs_setCurrentContent c s) = cs_generating s;
  cs_gen_flag b s : cs_generating (cs_setIsGenerating b s) = b;
  cs_gen_history b s : cs_history (cs_setIsGenerating b s) = cs_history s;
  cs_gen_current b s : cs_current (cs_setIsGenerating b s) = cs_current s;
  cs_clear_current s : cs_current (cs_clearCurrentContent s) = None;
  cs_clear_history s : cs_history (cs_clearCurrentContent s) = cs_history s;
  cs_clear_generating s : cs_generating (cs_clearCurrentContent s) = cs_generating s
}.

(** What the create screen uses of the user store. *)
Class UserStoreOps (S : Type) : Type := {
  us_user : S -> option User;
  us_connectPlatform : SocialPlatform -> S -> S
}.

(** [connectPlatform p] stores [p] connected, replacing the entry with its
    id, when a user is logged in, and does nothing otherwise. *)
Class UserStoreLaws (S : Type) `{UserStoreOps S} : Prop := {
  us_connect_none p s : us_user s = None -> us_connectPlatform p s = s;
  us_connect_some p s u : us_user s = Some u -> exists u',
    us_user (us_connectPlatform p s) = Some u' /\
    sp_set_connected p ∈ u_connectedPlatforms u'
}.

(** ** [useContentStore] *)

Module ContentStore.
Record state : Type := mkState {
  generatedContent : list GeneratedContent;
  currentContent : option GeneratedContent;
  isGenerating : bool
}.

Definition initial : state := mkState [] None false.

(** [[content, ...state.generatedContent]] *)
Definition addContent (content : GeneratedContent) (s : state) : state :=
  mkState (content :: generatedContent s) (currentContent s) (isGenerating s).

Definition setCurrentContent (content : option GeneratedContent) (s : state) : state :=
  mkState (generatedContent s) content (isGenerating s).

Definition setIsGenerating (b : bool) (s : state) : state :=
  mkState (generatedContent s) (currentContent s) b.

Definition publish_if (contentId : string) (c : GeneratedContent) : GeneratedContent :=
  if String.eqb (gc_id c) contentId then gc_set_published c else c.

(** Every entry with the id is marked, and the current content when
    [state.currentContent?.id === contentId]. *)
Definition markAsPublished (contentId : string) (s : state) : state :=
  mkState (map (publish_if contentId) (generatedContent s))
          (publish_if contentId <$> currentContent s)
          (isGenerating s).

Definition clearCurrentContent (s : state) : state :=
  mkState (generatedContent s) None (isGenerating s).

Inductive action : Type :=
| AddContent (c : GeneratedContent)
| SetCurrentContent (c : option GeneratedContent)
| SetIsGenerating (b : bool)
| MarkAsPublished (id : string)
| ClearCurrentContent.

Definition step (s : state) (a : action) : state :=
  match a with
  | AddContent c => addContent c s
  | SetCurrentContent c => setCurrentContent c s
  | SetIsGenerating b => setIsGenerating b s
  | MarkAsPublished id => markAsPublished id s
  | ClearCurrentContent => clearCurrentContent s
  end.

#[export] Instance ops : ContentStoreOps state := {|
  cs_history := generatedContent;
  cs_current := currentContent;
  cs_generating := isGenerating;
  cs_addContent := addContent;
  cs_setCurrentContent := setCurrentContent;
  cs_setIsGenerating := setIsGenerating;
  cs_clearCurrentContent := clearCurrentContent
|}.

#[export] Instance laws : ContentStoreLaws state.
Proof. split; reflexivity. Qed.

(** *** Lemmas *)



End ContentStore.

(** ** [useUserStore] *)

Module UserStore.
Record state : Type := mkState {
  user : option User;
  isLoggedIn : bool
}.

Definition initial : state := mkState None false.

Definition setUser (u : User) (s : state) : state := mkState (Some u) true.

Definition logout (s : state) : state := mkState None false.

(** [Array.prototype.findIndex]: [None] for [-1]. *)
Fixpoint findIndex {A} (p : A -> bool) (l : list A) : option nat :=
  match l with
  | [] => None
  | x :: l' => if p x then Some 0 else S <$> findIndex p l'
  end.

Definition same_id (id : string) (p : SocialPlatform) : bool := String.eqb (sp_id p) id.

(** Lines 30-42: replace the first entry with the same id by the
    connected platform, or push it. *)
Definition updated_platforms (platform : SocialPlatform) (ps : list SocialPlatform) :
    list SocialPlatform :=
  let connectedPlatform := sp_set_connected platform in
  match findIndex (same_id (sp_id platform)) ps with
  | Some i => <[i := connectedPlatform]> ps
  | None => ps ++ [connectedPlatform]
  end.

(** Lines 26-50. *)
Definition connectPlatform (platform : SocialPlatform) (s : state) : state :=
  match user s with
  | None => s
  | Some u =>
    mkState (Some (u_set_platforms u (updated_platforms platform (u_connectedPlatforms u))))
            (isLoggedIn s)
  end.

(** Lines 51-63. *)
Definition disconnectPlatform (platformId : string) (s : state) : state :=
  match user s with
  | None => s
  | Some u =>
    mkState (Some (u_set_platforms u
               (List.filter (fun p => negb (same_id platformId p)) (u_connectedPlatforms u))))
            (isLoggedIn s)
  end.

Inductive action : Type :=
| SetUser (u : User)
| Logout
| ConnectPlatform (p : SocialPlatform)
| DisconnectPlatform (id : string).

Definition step (s : state) (a : action) : state :=
  match a with
  | SetUser u => setUser u s
  | Logout => logout s
  | ConnectPlatform p => connectPlatform p s
  | DisconnectPlatform id => disconnectPlatform id s
  end.

(** The store's invariant: logged in exactly when there is a user, and
    the user's platforms have distinct ids. *)
Definition wf (s : state) : Prop :=
  isLoggedIn s = bool_decide (is_Some (user s)) /\
  match user s with
  | Some u => NoDup ((sp_id <$> (u_connectedPlatforms u)))
  | None => True
  end.

Definition action_ok (a : action) : Prop :=
  match a with SetUser u => NoDup (sp_id <$> u_connectedPlatforms u) | _ => True end.

#[export] Instance ops : UserStoreOps state := {|
  us_user := user;
  us_connectPlatform := connectPlatform
|}.

(** *** Lemmas *)

Lemma findIndex_Some {A} (p : A -> bool) l i :
  findIndex p l = Some i -> exists x, l !! i = Some x /\ p x = true /\
    forall j y, j < i -> l !! j = Some y -> p y = false.
Proof.
  revert i. induction l as [|x l IH]; intros i H; simpl in H; [done|].
  destruct (p x) eqn:Hx.
  - injection H as <-. exists x. split; [done|]. split; [done|]. intros j y Hj. lia.
  - destruct (findIndex p l) as [i'|] eqn:E; simpl in H; [|done]. injection H as <-.
    destruct (IH i' eq_refl) as (y & Hy & Hpy & Hmin). exists y. split; [done|]. split; [done|].
    intros [|j] z Hj Hz; simpl in Hz; [congruence|]. apply (Hmin j); [lia|done].
Qed.

Lemma findIndex_None {A} (p : A -> bool) l :
  findIndex p l = None -> Forall (fun x => p x = false) l.
Proof.
  induction l as [|x l IH]; simpl; [constructor|].
  destruct (p x) eqn:Hx; [done|]. destruct (findIndex p l); [done|]. intros _. constructor; auto.
Qed.

Lemma same_id_true id p : same_id id p = true <-> sp_id p = id.
Proof. unfold same_id. apply String.eqb_eq. Qed.

Lemma map_sp_id_insert (ps : list SocialPlatform) i q :
  ps !! i = Some q -> forall p, sp_id p = sp_id q ->
  (sp_id <$> (<[i := p]> ps)) = (sp_id <$> ps).
Proof.
  intros Hi p Hid. rewrite list_fmap_insert. simpl. rewrite Hid.
  apply list_insert_id. by rewrite list_lookup_fmap, Hi.
Qed.

Lemma filter_nodup_ids (P : SocialPlatform -> bool) (ps : list SocialPlatform) :
  NoDup (sp_id <$> ps) -> NoDup (sp_id <$> List.filter P ps).
Proof.
  induction ps as [|q ps IH]; simpl; [done|]. intros Hnd%NoDup_cons.
  destruct (P q); [|tauto]. constructor; [|tauto].
  intros Hin. apply (proj1 Hnd). apply list_elem_of_fmap in Hin as (r & -> & Hr).
  apply list_elem_of_fmap. exists r. split; [done|].
  apply list_elem_of_In in Hr. apply list_elem_of_In. by apply filter_In in Hr as [? _].
Qed.

Lemma filter_all_false (P : SocialPlatform -> bool) ps :
  Forall (fun x => P x = false) ps -> List.filter P ps = [].
Proof. induction 1 as [|x ps Hx _ IH]; simpl; [done|]. by rewrite Hx. Qed.

Lemma filter_all_true (P : SocialPlatform -> bool) ps :
  Forall (fun x => P x = false) ps -> List.filter (fun x => negb (P x)) ps = ps.
Proof. induction 1 as [|x ps Hx _ IH]; simpl; [done|]. by rewrite Hx, IH. Qed.

(** With distinct ids, no entry after the one with id [sp_id q] has it. *)
Lemma nodup_ids_after (ps : list SocialPlatform) i q :
  NoDup (sp_id <$> ps) -> ps !! i = Some q ->
  Forall (fun x => same_id (sp_id q) x = false) (drop (S i) ps).
Proof.
  intros Hnd Hi. rewrite <- (take_drop_middle ps i q Hi) in Hnd.
  rewrite fmap_app in Hnd. apply list.NoDup_app in Hnd as (_ & _ & Hnd). simpl in Hnd.
  apply NoDup_cons in Hnd as [Hq _]. apply Forall_forall. intros x Hx.
  destruct (same_id (sp_id q) x) eqn:E; [|done]. apply same_id_true in E.
  exfalso. apply Hq. apply list_elem_of_fmap. by exists x.
Qed.

Lemma findIndex_prefix (p : SocialPlatform -> bool) ps i :
  findIndex p ps = Some i -> Forall (fun x => p x = false) (take i ps).
Proof.
  intros Hf. destruct (findIndex_Some _ _ _ Hf) as (q & Hq & _ & Hmin).
  apply Forall_lookup. intros j y Hy. apply lookup_take_Some in Hy as [Hy Hj].
  by apply (Hmin j).
Qed.

(** The platform list after [connectPlatform p]: exactly one entry has
    [p]'s id, the connected [p]; the others are those of before, in
    order; the ids stay distinct. *)
Lemma updated_platforms_spec (p : SocialPlatform) (ps : list SocialPlatform) :
  NoDup (sp_id <$> ps) ->
  List.filter (same_id (sp_id p)) (updated_platforms p ps) = [sp_set_connected p] /\
  List.filter (fun x => negb (same_id (sp_id p) x)) (updated_platforms p ps) =
    List.filter (fun x => negb (same_id (sp_id p) x)) ps /\
  NoDup (sp_id <$> updated_platforms p ps).
Proof.
  intros Hnd. unfold updated_platforms.
  assert (Hc : same_id (sp_id p) (sp_set_connected p) = true) by apply String.eqb_refl.
  destruct (findIndex _ ps) as [i|] eqn:Hf.
  - destruct (findIndex_Some _ _ _ Hf) as (q & Hq & Hpq & _).
    pose proof (findIndex_prefix _ _ _ Hf) as Hpre.
    apply same_id_true in Hpq as Hid.
    pose proof (nodup_ids_after ps i q Hnd Hq) as Hpost. rewrite Hid in Hpost.
    assert (Hlt : i < length ps) by (by eapply lookup_lt_Some).
    split; [|split].
    + rewrite insert_take_drop by done. rewrite List.filter_app. cbn [List.filter].
      rewrite Hc, !filter_all_false by done. done.
    + rewrite insert_take_drop by done.
      rewrite <- (take_drop_middle ps i q Hq) at 3.
      rewrite !List.filter_app. cbn [List.filter]. rewrite Hc, Hpq. cbn [negb].
      by rewrite !filter_all_true.
    + rewrite (map_sp_id_insert _ _ q Hq); [done|]. done.
  - apply findIndex_None in Hf.
    rewrite !List.filter_app. cbn [List.filter]. rewrite Hc. cbn [negb].
    rewrite filter_all_false, filter_all_true by done. rewrite app_nil_r.
    split; [done|]. split; [done|].
    rewrite fmap_app. apply list.NoDup_app. split; [done|].
    split; [|repeat constructor; set_solver].
    intros x Hx Hx'. simpl in Hx'. apply list_elem_of_singleton in Hx' as ->.
    apply list_elem_of_fmap in Hx as (q & Hqe & Hq). rewrite Forall_forall in Hf.
    specialize (Hf q Hq). unfold same_id in Hf. rewrite Hqe, String.eqb_refl in Hf. discriminate.
Qed.

Lemma updated_platforms_elem (p : SocialPlatform) ps :
  sp_set_connected p ∈ updated_platforms p ps.
Proof.
  unfold updated_platforms. destruct (findIndex _ ps) as [i|] eqn:Hf.
  - destruct (findIndex_Some _ _ _ Hf) as (q & Hq & _).
    apply (list_elem_of_lookup_2 _ i). apply list_lookup_insert_eq. by eapply lookup_lt_Some.
  - apply elem_of_app. right. by constructor.
Qed.

Lemma step_wf s a : action_ok a -> wf s -> wf (step s a).
Proof.
  intros Ha [Hl Hu]. destruct a as [u| |p|id]; cbn [step action_ok] in *.
  - by split.
  - by split.
  - unfold connectPlatform. destruct (user s) as [u|] eqn:E; [|by split; rewrite ?E].
    split; [simpl; rewrite Hl; by rewrite ?E|]. apply updated_platforms_spec. exact Hu.
  - unfold disconnectPlatform. destruct (user s) as [u|] eqn:E; [|by split; rewrite ?E].
    split; [simpl; rewrite Hl; by rewrite ?E|]. by apply filter_nodup_ids.
Qed.

#[export] Instance laws : UserStoreLaws state.
Proof.
  split.
  - intros p s Hs. cbn in Hs |- *. unfold connectPlatform. by rewrite Hs.
  - intros p s u Hs. cbn in Hs |- *. unfold connectPlatform. rewrite Hs.
    eexists. split; [reflexivity|]. apply updated_platforms_elem.
Qed.

(** C19. Every state the user store reaches, from the initial one and
    with users of distinct platform ids given to [setUser], is logged in
    exactly when it holds a user, whose platform ids are distinct. *)
Theorem wf_reachable (acts : list action) :
  Forall action_ok acts -> wf (fold_left step acts initial).
Proof.
  assert (H0 : wf initial) by (split; done).
  revert H0. generalize initial. induction acts as [|a acts IH]; intros s Hs Hacts; [done|].
  apply Forall_cons_1 in Hacts as [Ha Hacts]. simpl. apply IH; [|done]. by apply step_wf.
Qed.

(** C20. [connectPlatform p] for a logged-in user keeps the user's
    other fields and other platforms (in order) and leaves exactly one
    platform with [p]'s id: [p] itself, marked connected. *)
Theorem connectPlatform_spec (s : state) (u : User) (p : SocialPlatform) :
  wf s -> user s = Some u ->
  exists ps', user (connectPlatform p s) = Some (u_set_platforms u ps') /\
    List.filter (same_id (sp_id p)) ps' = [sp_set_connected p] /\
    List.filter (fun x => negb (same_id (sp_id p) x)) ps' =
      List.filter (fun x => negb (same_id (sp_id p) x)) (u_connectedPlatforms u) /\
    isLoggedIn (connectPlatform p s) = true.
Proof.
  intros [Hl Hu] Hs. rewrite Hs in Hu. unfold connectPlatform. rewrite Hs.
  destruct (updated_platforms_spec p _ Hu) as (H1 & H2 & _).
  eexists. split; [reflexivity|]. split; [exact H1|]. split; [exact H2|].
  simpl. by rewrite Hl, Hs.
Qed.
End UserStore.

#[export] Existing Instances ContentStore.ops ContentStore.laws UserStore.ops UserStore.laws.

(** ** [useThemeStore] *)

Module ThemeStore.
Record state : Type := mkState {
  theme : ThemeType;
  primaryColor : string;
  secondaryColor : string;
  font : FontType;
  darkMode : bool
}.

Definition initial : state :=
  mkState neonGreen (tc_primary (theme_colors neonGreen)) (tc_secondary (theme_colors neonGreen))
          FontSystem true.

Definition setTheme (t : ThemeType) (s : state) : state :=
  mkState t (tc_primary (theme_colors t)) (tc_secondary (theme_colors t)) (font s) (darkMode s).

Definition setFont (f : FontType) (s : state) : state :=
  mkState (theme s) (primaryColor s) (secondaryColor s) f (darkMode s).

Definition toggleDarkMode (s : state) : state :=
  mkState (theme s) (primaryColor s) (secondaryColor s) (font s) (negb (darkMode s)).

Definition setPrimaryColor (color : string) (s : state) : state :=
  mkState (theme s) color (secondaryColor s) (font s) (darkMode s).

Inductive action : Type :=
| SetTheme (t : ThemeType)
| SetFont (f : FontType)
| ToggleDarkMode
| SetPrimaryColor (c : string).

Definition step (s : state) (a : action) : state :=
  match a with
  | SetTheme t => setTheme t s
  | SetFont f => setFont f s
  | ToggleDarkMode => toggleDarkMode s
  | SetPrimaryColor c => setPrimaryColor c s
  end.

(** The colours are those of the theme. *)
Definition colors_match (s : state) : Prop :=
  primaryColor s = tc_primary (theme_colors (theme s)) /\
  secondaryColor s = tc_secondary (theme_colors (theme s)).

Definition is_set_primary (a : action) : bool :=
  match a with SetPrimaryColor _ => true | _ => false end.

Lemma step_colors_match s a :
  is_set_primary a = false -> colors_match s -> colors_match (step s a).
Proof. destruct a; simpl; try discriminate; intros _ H; [split; reflexivity|exact H|exact H]. Qed.
End ThemeStore.

(** ** Properties of the stores *)


(** C38. The theme store keeps [primaryColor]/[secondaryColor] equal to
    the colours of [theme] along every run that does not call
    [setPrimaryColor]; one call of [setPrimaryColor] breaks it while
    [theme] still names the old theme. *)
Theorem theme_colors_consistent (acts : list ThemeStore.action) :
  Forall (fun a => ThemeStore.is_set_primary a = false) acts ->
  ThemeStore.colors_match (fold_left ThemeStore.step acts ThemeStore.initial) /\
  ~ ThemeStore.colors_match
      (ThemeStore.step (fold_left ThemeStore.step acts ThemeStore.initial)
         (ThemeStore.SetPrimaryColor "#00FF00"%string)).
Proof.
  intros Hacts.
  assert (H : ThemeStore.colors_match (fold_left ThemeStore.step acts ThemeStore.initial)).
  { assert (H0 : ThemeStore.colors_match ThemeStore.initial) by (split; reflexivity).
    revert H0. generalize ThemeStore.initial.
    induction acts as [|a acts IH]; intros s Hs; [done|].
    apply Forall_cons_1 in Hacts as [Ha Hacts]. simpl. apply IH; [done|].
    by apply ThemeStore.step_colors_match. }
  split; [done|]. intros [Hp _]. simpl in Hp.
  destruct (ThemeStore.theme (fold_left _ _ _)); discriminate.
Qed.

Lemma theme_colors_consistent_witness :
  Forall (fun a => ThemeStore.is_set_primary a = false) [ThemeStore.SetTheme neonPink; ThemeStore.ToggleDarkMode] /\
  ThemeStore.colors_match (fold_left ThemeStore.step [ThemeStore.SetTheme neonPink; ThemeStore.ToggleDarkMode]
                             ThemeStore.initial).
Proof.
  assert (H : Forall (fun a => ThemeStore.is_set_primary a = false)
                [ThemeStore.SetTheme neonPink; ThemeStore.ToggleDarkMode]) by (repeat constructor).
  split; [exact H|]. exact (proj1 (theme_colors_consistent _ H)).
Defined.

Lemma wf_reachable_witness :
  Forall UserStore.action_ok
    [UserStore.SetUser (mkUser "1" "Ana" "ana@example.com" "photo" [] None None None);
     UserStore.ConnectPlatform (mkSocialPlatform "twitter" "X" "icon" "#000000" false None);
     UserStore.ConnectPlatform (mkSocialPlatform "twitter" "X" "icon" "#000000" false (Some "ana"));
     UserStore.DisconnectPlatform "tiktok"] /\
  UserStore.wf (fold_left UserStore.step
    [UserStore.SetUser (mkUser "1" "Ana" "ana@example.com" "photo" [] None None None);
     UserStore.ConnectPlatform (mkSocialPlatform "twitter" "X" "icon" "#000000" false None);
     UserStore.ConnectPlatform (mkSocialPlatform "twitter" "X" "icon" "#000000" false (Some "ana"));
     UserStore.DisconnectPlatform "tiktok"] UserStore.initial).
Proof.
  assert (H : Forall UserStore.action_ok
    [UserStore.SetUser (mkUser "1" "Ana" "ana@example.com" "photo" [] None None None);
     UserStore.ConnectPlatform (mkSocialPlatform "twitter" "X" "icon" "#000000" false None);
     UserStore.ConnectPlatform (mkSocialPlatform "twitter" "X" "icon" "#000000" false (Some "ana"));
     UserStore.DisconnectPlatform "tiktok"]) by (repeat constructor).
  split; [exact H|]. exact (UserStore.wf_reachable _ H).
Defined.

Lemma connectPlatform_spec_witness :
  UserStore.wf (UserStore.mkState (Some (mkUser "1" "Ana" "ana@example.com" "photo" [] None None None)) true) /\
  exists ps', UserStore.user (UserStore.connectPlatform (mkSocialPlatform "twitter" "X" "icon" "#000000" false None)
                 (UserStore.mkState (Some (mkUser "1" "Ana" "ana@example.com" "photo" [] None None None)) true)) =
               Some (u_set_platforms (mkUser "1" "Ana" "ana@example.com" "photo" [] None None None) ps') /\
    List.filter (UserStore.same_id "twitter") ps' =
      [sp_set_connected (mkSocialPlatform "twitter" "X" "icon" "#000000" false None)] /\
    List.filter (fun x => negb (UserStore.same_id "twitter" x)) ps' = [] /\
    UserStore.isLoggedIn (UserStore.connectPlatform (mkSocialPlatform "twitter" "X" "icon" "#000000" false None)
                 (UserStore.mkState (Some (mkUser "1" "Ana" "ana@example.com" "photo" [] None None None)) true)) = true.
Proof.
  assert (Hwf : UserStore.wf (UserStore.mkState (Some (mkUser "1" "Ana" "ana@example.com" "photo" [] None None None)) true))
    by (split; [reflexivity|constructor]).
  split; [exact Hwf|].
  exact (UserStore.connectPlatform_spec _ _ (mkSocialPlatform "twitter" "X" "icon" "#000000" false None) Hwf eq_refl).
Defined.

Create Rewrite HintDb storedb.
#[export] Hint Rewrite @cs_add_history @cs_add_current @cs_add_generating @cs_set_current
  @cs_set_current_history @cs_set_current_generating @cs_gen_flag @cs_gen_history @cs_gen_current
  @cs_clear_current @cs_clear_history @cs_clear_generating using typeclasses eauto : storedb.
