(* ===== verification/Dispatcher.v ===== *)
(** * The content generation mutation ([generate.ts] 1-182)

    [parse_input] is the zod schema of the procedure: an object with
    string [prompt] and [platform] and a [contentType] among [text],
    [image], [video], [audio]; anything else is rejected before the
    handler runs.  [generate_mutation] is the handler: one [try] around an
    [if] chain on the content type, whose [catch] turns every exception
    into the string ["Error generating content. Please try again. Error: "]
    followed by the message.

    - text: one request to the 1min.ai features endpoint; a non-2xx status
      throws [API error: <status> <statusText>] (so the outer [catch]
      answers, not the text fallback); the JSON answer is read as
      [result.choices[0].message.content], else [result] when it is a
      non-empty string, else the fallback of [Synth];
    - image: its own [try]; any failure gives the Unsplash URL built from
      the platform's search term and [Math.floor(Math.random() * 1000)];
    - video, audio: one of three sample URLs, by [Math.random].

    [API_KEYS.mainApiKey] lives in a file the repository does not contain:
    it is the section variable [apiKey]. *)

From S2P Require Import Prelude JsString JsValue Random Runtime Hashtags Synth.
From Stdlib Require Import QArith.

(** ** Input schema *)

Record GenerateInput : Type := mkGenerateInput {
  prompt : string;
  platform : string;
  contentType : string
}.

(** [z.enum(['text', 'image', 'video', 'audio'])] *)
Definition contentTypeEnum : list string := ["text"; "image"; "video"; "audio"].

Definition zod_string (v : option JSVal) : option string :=
  match v with Some (JStr s) => Some s | _ => None end.

(** [z.object({ prompt: z.string(), platform: z.string(), contentType })] *)
Definition parse_input (raw : JSVal) : option GenerateInput :=
  match raw with
  | JObj fs =>
    match zod_string (assoc "prompt" fs), zod_string (assoc "platform" fs),
          zod_string (assoc "contentType" fs) with
    | Some p, Some pl, Some ct =>
      if bool_decide (ct ∈ contentTypeEnum) then Some (mkGenerateInput p pl ct) else None
    | _, _, _ => None
    end
  | _ => None
  end.

(** What the caller of the procedure receives. *)
Inductive TrpcResult : Type :=
| BadRequest                 (** zod rejected the input *)
| Returned (v : JSVal).      (** the handler's return value *)

(** ** Requests *)

Definition features_url : string := "https://api.1min.ai/api/features".

Definition api_headers (apiKey : string) : list (string * string) :=
  [("API-KEY", apiKey); ("Content-Type", "application/json")].

Definition system_instruction (platform : string) : string :=
  "You are a social media content creator for " +:+ platform +:+
  ". Create engaging content based on the user's prompt. Make it appropriate for the platform's style and format.".

Definition text_request (apiKey platform prompt : string) : FetchRequest :=
  mkFetchRequest features_url "POST" (api_headers apiKey)
    (JObj [("type", JStr "TEXT_GENERATION");
           ("model", JStr "gpt-3.5-turbo");
           ("promptObject", JObj [
              ("messages", JArr [
                 JObj [("role", JStr "system"); ("content", JStr (system_instruction platform))];
                 JObj [("role", JStr "user"); ("content", JStr prompt)]]);
              ("temperature", JNum (7 # 10));
              ("max_tokens", JNum (inject_Z 500))])]).

Definition image_request (apiKey platform prompt : string) : FetchRequest :=
  mkFetchRequest features_url "POST" (api_headers apiKey)
    (JObj [("type", JStr "IMAGE_GENERATION");
           ("model", JStr "dall-e-3");
           ("promptObject", JObj [
              ("prompt", JStr ("Create a social media image for " +:+ platform +:+ " about: " +:+ prompt));
              ("n", JNum (inject_Z 1));
              ("size", JStr "1024x1024");
              ("quality", JStr "standard")])]).

(** [new Error(`API error: ${response.status} ${response.statusText}`)] *)
Definition api_error (r : Response) : Thrown :=
  ThrownError "Error" ("API error: " +:+ Z_to_string (resp_status r) +:+ " " +:+ resp_statusText r).

(** ** Fallback media *)

(** The [switch (platform.toLowerCase())] of search terms. *)
Definition image_query (platform : string) : string :=
  let p := toLowerCase platform in
  if String.eqb p "instagram" then "instagram social media photography"
  else if String.eqb p "facebook" then "facebook social media marketing"
  else if String.eqb p "twitter/x" || String.eqb p "twitter" then "twitter social media post"
  else if String.eqb p "linkedin" then "linkedin professional business"
  else if String.eqb p "tiktok" then "tiktok video content creation"
  else if String.eqb p "youtube" then "youtube video content creator"
  else p +:+ " social media".

Definition unsplash_url (query : string) (randomParam : Z) : string :=
  "https://source.unsplash.com/random/800x600/?" +:+ encodeURIComponent query +:+
  "&random=" +:+ Z_to_string randomParam.

Definition videoOptions : list string :=
  ["https://assets.mixkit.co/videos/preview/mixkit-woman-typing-on-a-laptop-in-a-cafe-2558-large.mp4";
   "https://assets.mixkit.co/videos/preview/mixkit-young-woman-talking-on-a-smartphone-4353-large.mp4";
   "https://assets.mixkit.co/videos/preview/mixkit-young-woman-vlogging-about-her-new-laptop-42634-large.mp4"].

Definition audioOptions : list string :=
  ["https://assets.mixkit.co/music/preview/mixkit-tech-house-vibes-130.mp3";
   "https://assets.mixkit.co/music/preview/mixkit-hip-hop-02-738.mp3";
   "https://assets.mixkit.co/music/preview/mixkit-raising-me-higher-34.mp3"].

(** [options[i]] as a value ([undefined] out of range). *)
Definition js_index (l : list string) (i : Z) : JSVal :=
  if (i <? 0)%Z then JUndefined else default JUndefined (JStr <$> l !! Z.to_nat i).

(** ["Error generating content. Please try again. Error: ..."] *)
Definition error_text (e : Thrown) : string :=
  "Error generating content. Please try again. Error: " +:+
  match e with ThrownError _ msg => msg | ThrownValue _ => "Unknown error" end.

Section Handler.
Context {Seed : Type} `{RandomSource Seed} `{JsEngine}.
Context (apiKey : string).

Local Open Scope eff_scope.

Definition get (v : JSVal) (k : string) : @Eff Seed JSVal := st_lift (js_get v k).

(** [data && data.result && data.result.choices
      && data.result.choices.length > 0] *)
Definition has_choices (data : JSVal) : Eff bool :=
  if truthy data then
    result <- get data "result" ;;
    if truthy result then
      choices <- get result "choices" ;;
      if truthy choices then
        len <- get choices "length" ;; st_ret (js_gt0 len)
      else st_ret false
    else st_ret false
  else st_ret false.

(** [data && data.result && typeof data.result === 'string'] *)
Definition has_string_result (data : JSVal) : Eff bool :=
  if truthy data then
    result <- get data "result" ;;
    st_ret (truthy result && String.eqb (js_typeof result) "string")
  else st_ret false.

(** Lines 62-73: the generated content, from the parsed answer. *)
Definition extract_text (platform prompt : string) (data : JSVal) : Eff JSVal :=
  c1 <- has_choices data ;;
  if c1 then
    result <- get data "result" ;; choices <- get result "choices" ;;
    choice <- get choices "0" ;; message <- get choice "message" ;;
    get message "content"
  else
    c2 <- has_string_result data ;;
    if c2 then get data "result"
    else text <- getPlatformSpecificContent platform prompt ;; st_ret (JStr text).

(** Lines 25-74. *)
Definition generate_text (platform prompt : string) : Eff JSVal :=
  response <- fetch (text_request apiKey platform prompt) ;;
  if negb (response_ok response) then
    _ <- response_text response ;; st_throw (api_error response)
  else
    data <- response_json response ;;
    extract_text platform prompt data.

(** [data && data.result && data.result.data && data.result.data.length > 0] *)
Definition has_image_data (data : JSVal) : Eff bool :=
  if truthy data then
    result <- get data "result" ;;
    if truthy result then
      items <- get result "data" ;;
      if truthy items then
        len <- get items "length" ;; st_ret (js_gt0 len)
      else st_ret false
    else st_ret false
  else st_ret false.

Definition image_fallback (platform : string) : Eff JSVal :=
  randomParam <- random_index 1000 ;;
  st_ret (JStr (unsplash_url (image_query platform) randomParam)).

(** [data.result.data[0].url], line 104. *)
Definition read_image_url (data : JSVal) : Eff JSVal :=
  result <- get data "result" ;; items <- get result "data" ;;
  first <- get items "0" ;; get first "url".

(** The inner [try] block, lines 79-107. *)
Definition image_attempt (platform prompt : string) : Eff JSVal :=
  response <- fetch (image_request apiKey platform prompt) ;;
  if negb (response_ok response) then st_throw (api_error response)
  else
    data <- response_json response ;;
    c <- has_image_data data ;;
    if c then read_image_url data
    else st_throw (ThrownError "Error" "No image URL in response").

(** Lines 77-143: the attempt, and the Unsplash URL on any exception. *)
Definition generate_image (platform prompt : string) : Eff JSVal :=
  try! image_attempt platform prompt
  catch! (fun _ => image_fallback platform).

Definition pick_sample (options : list string) : Eff JSVal :=
  randomIndex <- random_index (Z.of_nat (List.length options)) ;;
  st_ret (js_index options randomIndex).

(** The body of the [try]: lines 15-175. *)
Definition generate_body (input : GenerateInput) : Eff JSVal :=
  let ct := contentType input in
  if String.eqb ct "text" then generate_text (platform input) (prompt input)
  else if String.eqb ct "image" then generate_image (platform input) (prompt input)
  else if String.eqb ct "video" then pick_sample videoOptions
  else if String.eqb ct "audio" then pick_sample audioOptions
  else st_throw (ThrownError "Error" ("Unsupported content type: " +:+ ct)).

(** The mutation handler, lines 13-182. *)
Definition generate_mutation (input : GenerateInput) : Eff JSVal :=
  try! generate_body input
  catch! (fun e => st_ret (JStr (error_text e))).

(** The procedure: zod, then the handler. *)
Definition generate_procedure (raw : JSVal) : Eff TrpcResult :=
  match parse_input raw with
  | None => st_ret BadRequest
  | Some input => v <- generate_mutation input ;; st_ret (Returned v)
  end.
End Handler.

(** ** Lemmas and properties *)

(** An answer with no usable [result]: [data] itself is falsy, or its
    [result] is. *)
Definition no_result `{JsEngine} (data : JSVal) : Prop :=
  truthy data = false \/ exists v, js_get data "result" = inr v /\ truthy v = false.


(** The characters that delimit the query of a URL. *)
Definition url_delimiter (c : ascii) : bool :=
  bool_decide (c = "&"%char \/ c = "#"%char \/ c = "="%char \/ c = "?"%char \/ c = "/"%char \/ c = " "%char).

Lemma uri_unreserved_not_delimiter (c : ascii) :
  uri_unreserved c = true \/ c = "%"%char -> url_delimiter c = false.
Proof.
  intros Hc. destruct (url_delimiter c) eqn:E; [|done]. exfalso.
  unfold url_delimiter in E. apply bool_decide_eq_true in E.
  destruct Hc as [Hc | ->]; [|by repeat destruct E as [E|E]].
  repeat destruct E as [->|E]; try discriminate. subst. discriminate.
Qed.

(** C15. The fallback image URL is the Unsplash endpoint, then the
    search term encoded by [encodeURIComponent], then [&random=] and the
    number: the encoded term contains no URL delimiter, so the query
    parameter is exactly the term and decodes back to it. *)
Theorem unsplash_url_query (platform : string) (i : Z) :
  exists enc,
    unsplash_url (image_query platform) i =
      "https://source.unsplash.com/random/800x600/?" +:+ enc +:+ "&random=" +:+ Z_to_string i /\
    Forall (fun c => url_delimiter c = false) (list_ascii_of_string enc) /\
    decodeURIComponent enc = Some (image_query platform).
Proof.
  exists (encodeURIComponent (image_query platform)). split; [done|]. split.
  - apply (list.Forall_impl _ _ _ (encode_bytes (image_query platform))). apply uri_unreserved_not_delimiter.
  - apply decode_encode.
Qed.

(** The search term matches the platform name case-insensitively:
    upper-casing the platform does not change it. *)
Theorem image_query_case_insensitive (platform : string) :
  image_query (toUpperCase platform) = image_query platform.
Proof. unfold image_query. by rewrite toLowerCase_toUpperCase. Qed.

(** The two answer shapes the text branch accepts, each with the value it
    reads: [result.choices[0].message.content] of a non-empty [choices]
    array, or a non-empty string [result]. *)
Inductive text_answer : JSVal -> JSVal -> Prop :=
| ta_choice v rest :
    text_answer (JObj [("result", JObj [("choices",
                   JArr (JObj [("message", JObj [("content", v)])] :: rest))])]) v
| ta_string s : s <> "" -> text_answer (JObj [("result", JStr s)]) (JStr s).

(** How the text branch fails before reading the answer: the request is
    rejected, the status is not 2xx, or the body is not JSON; [e] is what
    the handler then catches. *)
Inductive text_failure : FetchOutcome -> Thrown -> Prop :=
| tf_rejected e : text_failure (FetchRejected e) e
| tf_status r : response_ok r = false -> text_failure (FetchResolved r) (api_error r)
| tf_syntax r msg : response_ok r = true -> resp_json r = inl msg ->
    text_failure (FetchResolved r) (ThrownError "SyntaxError" msg).

Section HandlerProperties.
Context {Seed : Type} `{RandomSource Seed} `{JsEngine}.
Context (apiKey : string).

Lemma sends_get v k : sends_at_most 0 (@get Seed _ v k).
Proof. apply sends_lift. Qed.
#[local] Hint Resolve sends_get : effdb.

Lemma sends_generate_text platform prompt :
  sends_at_most 1 (generate_text apiKey platform prompt).
Proof.
  unfold generate_text, extract_text, has_choices, has_string_result, response_text.
  eauto 40 with effdb.
Qed.

Lemma sends_generate_image platform prompt :
  sends_at_most 1 (generate_image apiKey platform prompt).
Proof. unfold generate_image, image_attempt, read_image_url, has_image_data, image_fallback. eauto 40 with effdb. Qed.

(** C3. One invocation of the handler sends at most one request to the
    provider: there is no retry inside the dispatcher. *)
Theorem generate_mutation_one_request (input : GenerateInput) :
  sends_at_most 1 (generate_mutation apiKey input).
Proof.
  unfold generate_mutation, generate_body, pick_sample.
  eauto 40 using sends_generate_text, sends_generate_image with effdb.
Qed.

(** C2. The handler never throws: every invocation completes with a
    value, whatever the provider answers (the outer [catch] turns every
    exception into the error string). *)
Theorem generate_mutation_total (input : GenerateInput) (w : World) :
  exists v w', generate_mutation apiKey input w = (Ok v, w').
Proof. apply st_catch_total. intros e w'. by eexists _, _. Qed.

Lemma pick_sample_spec (options : list string) (w : World) :
  options <> [] ->
  exists u w', pick_sample options w = (Ok (JStr u), w') /\ u ∈ options /\
               w_sent w' = w_sent w /\ w_net w' = w_net w.
Proof.
  intros Hne. unfold pick_sample, st_bind.
  destruct (random_index_spec (Z.of_nat (List.length options)) w) as (i & s' & -> & Hi & _).
  { destruct options; [done|simpl; lia]. }
  unfold js_index. destruct (Z.ltb_spec i 0); [lia|].
  destruct (options !! Z.to_nat i) as [u|] eqn:E.
  - exists u, (mkWorld s' (w_net w) (w_sent w)). repeat split; try done.
    by eapply list_elem_of_lookup_2.
  - apply lookup_ge_None in E. lia.
Qed.

(** C1. For [video] and [audio] the handler sends no request and
    returns one of the three sample URLs of that modality. *)
Theorem generate_media_in_pool (input : GenerateInput) (w : World) :
  contentType input = "video" \/ contentType input = "audio" ->
  exists u w', generate_mutation apiKey input w = (Ok (JStr u), w') /\
    u ∈ (if String.eqb (contentType input) "video" then videoOptions else audioOptions) /\
    w_sent w' = w_sent w.
Proof.
  intros Hct. unfold generate_mutation, st_catch, generate_body.
  destruct Hct as [-> | ->]; simpl;
    [destruct (pick_sample_spec videoOptions w) as (u & w' & -> & Hu & Hs & _)
    |destruct (pick_sample_spec audioOptions w) as (u & w' & -> & Hu & Hs & _)];
    try discriminate; by exists u, w'.
Qed.

(** *** Unfolding the handler on a content type *)

Lemma fetch_step req (w : @World Seed) o :
  w_net w (List.length (w_sent w)) req = o ->
  fetch req w = (match o with FetchRejected e => Err e | FetchResolved r => Ok r end,
                 mkWorld (w_seed w) (w_net w) (w_sent w ++ [req])).
Proof. intros <-. unfold fetch. by destruct (w_net w _ req). Qed.

Lemma generate_mutation_text (input : GenerateInput) :
  contentType input = "text" ->
  generate_mutation apiKey input =
    st_catch (generate_text apiKey (platform input) (prompt input))
             (fun e => st_ret (JStr (error_text e))).
Proof. intros Hct. unfold generate_mutation, generate_body. by rewrite Hct. Qed.


(** The shape tests on an answer without a usable [result]. *)
Lemma no_shape_checks (data : JSVal) (w : @World Seed) :
  no_result data ->
  has_choices data w = (Ok false, w) /\ has_string_result data w = (Ok false, w).
Proof.
  unfold has_choices, has_string_result, get, st_bind.
  intros [Hd | (v & Hv & Ht)]; [by rewrite Hd|].
  destruct (truthy data); [|done]. rewrite Hv. cbn [st_lift st_ret]. by rewrite Ht.
Qed.

(** C10. For [text], a network failure, a non-2xx status or a body that
    is not JSON does not reach the fallback synthesizer: the handler
    answers the error string of the exception. *)
Theorem generate_text_unavailable (input : GenerateInput) (w : World) o e :
  contentType input = "text" ->
  w_net w (List.length (w_sent w)) (text_request apiKey (platform input) (prompt input)) = o ->
  text_failure o e ->
  fst (generate_mutation apiKey input w) = Ok (JStr (error_text e)).
Proof.
  intros Hct Hnet Hcase. rewrite generate_mutation_text by done.
  unfold st_catch, generate_text, st_bind. rewrite (fetch_step _ _ _ Hnet).
  destruct Hcase as [e0 | r Hok | r msg Hok Hj]; cbn [fst]; [done|rewrite Hok; done|].
  rewrite Hok. unfold response_json. by rewrite Hj.
Qed.

(** C11. For [text], a 2xx JSON answer without a usable [result] gives
    the fallback text: one request sent, the prompt echoed and a hashtag
    shown (for every platform whose key is not [constructor]). *)
Theorem generate_text_fallback (input : GenerateInput) (w : World) r data :
  contentType input = "text" ->
  w_net w (List.length (w_sent w)) (text_request apiKey (platform input) (prompt input)) =
    FetchResolved r ->
  response_ok r = true -> resp_json r = inr data -> no_result data ->
  platform_key (platform input) <> "constructor" ->
  exists text w', generate_mutation apiKey input w = (Ok (JStr text), w') /\
    str_contains text (echoed_prompt (platform input) (prompt input)) /\
    str_contains text "#" /\
    w_sent w' = w_sent w ++ [text_request apiKey (platform input) (prompt input)].
Proof.
  intros Hct Hnet Hok Hj Hno Hk. rewrite generate_mutation_text by done.
  unfold st_catch, generate_text, extract_text, st_bind. rewrite (fetch_step _ _ _ Hnet), Hok.
  cbn [negb]. unfold response_json. rewrite Hj. cbn [st_ret].
  set (w1 := mkWorld _ _ _).
  destruct (no_shape_checks data w1 Hno) as [-> ->].
  destruct (getPlatformSpecificContent_spec (platform input) (prompt input) w1 Hk)
    as (text & w' & -> & Hp & Hh & Hs).
  exists text, w'. auto.
Qed.

(** *** The image branch *)






(** *** Provider answers and validation *)

Lemma extract_text_answer (platform prompt : string) (data v : JSVal) (w : @World Seed) :
  text_answer data v -> extract_text platform prompt data w = (Ok v, w).
Proof.
  intros [v' rest | s Hs]; unfold extract_text, has_choices, has_string_result, get, st_bind;
    simpl.
  - reflexivity.
  - apply String.eqb_neq in Hs. cbn. by rewrite Hs.
Qed.

(** C13. For [text], a 2xx JSON answer of one of the two accepted shapes
    is returned as read, whatever it is: the handler neither checks that
    [message.content] is a string nor that it is non-empty. *)
Theorem generate_text_answer (input : GenerateInput) (w : World) r data v :
  contentType input = "text" ->
  w_net w (List.length (w_sent w)) (text_request apiKey (platform input) (prompt input)) =
    FetchResolved r ->
  response_ok r = true -> resp_json r = inr data -> text_answer data v ->
  generate_mutation apiKey input w =
    (Ok v, mkWorld (w_seed w) (w_net w)
             (w_sent w ++ [text_request apiKey (platform input) (prompt input)])).
Proof.
  intros Hct Hnet Hok Hj Ha. rewrite generate_mutation_text by done.
  unfold st_catch, generate_text, st_bind. rewrite (fetch_step _ _ _ Hnet), Hok.
  cbn [negb]. unfold response_json. rewrite Hj. cbn [st_ret].
  by rewrite (extract_text_answer _ _ _ _ _ Ha).
Qed.

End HandlerProperties.

Lemma generate_media_in_pool_witness :
  exists u w', generate_mutation (Seed:=list Z) "key" (mkGenerateInput "p" "X" "audio")
                 (mkWorld [7%Z] (fun _ _ => FetchRejected (ThrownValue JNull)) []) = (Ok (JStr u), w') /\
    u ∈ audioOptions /\ w_sent w' = [].
Proof.
  destruct (generate_media_in_pool "key" (mkGenerateInput "p" "X" "audio")
              (mkWorld [7%Z] (fun _ _ => FetchRejected (ThrownValue JNull)) []) (or_intror eq_refl))
    as (u & w' & E & Hu & Hs).
  exists u, w'. split; [exact E|]. split; [exact Hu|exact Hs].
Defined.

Lemma generate_text_unavailable_witness :
  fst (generate_mutation (Seed:=list Z) "key" (mkGenerateInput "new coffee shop" "LinkedIn" "text")
         (mkWorld [] (fun _ _ => FetchResolved (mkResponse 500 "Internal Server Error" "down" (inl "bad"))) [])) =
  Ok (JStr (error_text (api_error (mkResponse 500 "Internal Server Error" "down" (inl "bad"))))).
Proof.
  apply (generate_text_unavailable "key" (mkGenerateInput "new coffee shop" "LinkedIn" "text")
           (mkWorld [] (fun _ _ => FetchResolved (mkResponse 500 "Internal Server Error" "down" (inl "bad"))) [])
           (FetchResolved (mkResponse 500 "Internal Server Error" "down" (inl "bad")))).
  - reflexivity.
  - reflexivity.
  - constructor. reflexivity.
Defined.

Lemma generate_text_fallback_witness :
  exists text w', generate_mutation (Seed:=list Z) "key" (mkGenerateInput "new coffee shop" "LinkedIn" "text")
                    (mkWorld [1%Z; 2%Z; 3%Z] (fun _ _ => FetchResolved (mkResponse 200 "OK" "{}" (inr (JObj [])))) []) =
                  (Ok (JStr text), w') /\
    str_contains text (echoed_prompt "LinkedIn" "new coffee shop") /\ str_contains text "#" /\
    w_sent w' = [] ++ [text_request "key" "LinkedIn" "new coffee shop"].
Proof.
  apply (generate_text_fallback "key" (mkGenerateInput "new coffee shop" "LinkedIn" "text")
           (mkWorld [1%Z; 2%Z; 3%Z] (fun _ _ => FetchResolved (mkResponse 200 "OK" "{}" (inr (JObj [])))) [])
           (mkResponse 200 "OK" "{}" (inr (JObj []))) (JObj [])).
  - reflexivity.
  - reflexivity.
  - reflexivity.
  - reflexivity.
  - right. exists JUndefined. split; reflexivity.
  - vm_compute. discriminate.
Defined.



Lemma generate_text_answer_witness :
  generate_mutation (Seed:=list Z) "key" (mkGenerateInput "new coffee shop" "LinkedIn" "text")
    (mkWorld [] (fun _ _ => FetchResolved (mkResponse 200 "OK" "{...}"
       (inr (JObj [("result", JStr "Our new coffee shop opens today")])))) []) =
  (Ok (JStr "Our new coffee shop opens today"),
   mkWorld [] (fun _ _ => FetchResolved (mkResponse 200 "OK" "{...}"
       (inr (JObj [("result", JStr "Our new coffee shop opens today")])))) 
     ([] ++ [text_request "key" "LinkedIn" "new coffee shop"])).
Proof.
  apply (generate_text_answer "key" (mkGenerateInput "new coffee shop" "LinkedIn" "text")
           (mkWorld [] (fun _ _ => FetchResolved (mkResponse 200 "OK" "{...}"
              (inr (JObj [("result", JStr "Our new coffee shop opens today")])))) [])
           (mkResponse 200 "OK" "{...}" (inr (JObj [("result", JStr "Our new coffee shop opens today")])))
           (JObj [("result", JStr "Our new coffee shop opens today")])).
  - reflexivity.
  - reflexivity.
  - reflexivity.
  - reflexivity.
  - constructor. discriminate.
Defined.

(** ** Concrete runs *)

(** The result of a text generation can be [undefined] or the empty
    string: a 2xx answer whose first choice has no [content], or an empty
    one, is returned as is. *)
Theorem text_result_undefined_or_empty :
  fst (generate_mutation (Seed:=list Z) "key" (mkGenerateInput "new coffee shop" "LinkedIn" "text")
         (mkWorld [] (fun _ _ => FetchResolved (mkResponse 200 "OK" "{...}"
            (inr (JObj [("result", JObj [("choices", JArr [JObj [("message", JObj [])]])])])))) [])) =
    Ok JUndefined /\
  fst (generate_mutation (Seed:=list Z) "key" (mkGenerateInput "new coffee shop" "LinkedIn" "text")
         (mkWorld [] (fun _ _ => FetchResolved (mkResponse 200 "OK" "{...}"
            (inr (JObj [("result", JObj [("choices",
               JArr [JObj [("message", JObj [("content", JStr EmptyString)])]])])])))) [])) =
    Ok (JStr EmptyString).
Proof. split; vm_compute; reflexivity. Qed.

(** A provider outage on a text request answers the error string,
    not fallback content: status [500 Internal Server Error] gives exactly
    ["Error generating content. Please try again. Error: API error: 500
    Internal Server Error"]. *)
Theorem text_outage_message :
  fst (generate_mutation (Seed:=list Z) "key" (mkGenerateInput "new coffee shop" "LinkedIn" "text")
         (mkWorld [] (fun _ _ => FetchResolved
            (mkResponse 500 "Internal Server Error" "down" (inl "bad"))) [])) =
    Ok (JStr "Error generating content. Please try again. Error: API error: 500 Internal Server Error").
Proof. vm_compute. reflexivity. Qed.

(** A failed image request for ["TikTok"] with [Math.random()]
    returning [0] answers the Unsplash URL of [tiktok video content
    creation] with [random=0]. *)
Theorem tiktok_image_fallback :
  fst (generate_mutation (Seed:=list Z) "key" (mkGenerateInput "dance" "TikTok" "image")
         (mkWorld [0%Z] (fun _ _ => FetchRejected (ThrownError "TypeError" "fetch failed")) [])) =
    Ok (JStr "https://source.unsplash.com/random/800x600/?tiktok%20video%20content%20creation&random=0").
Proof. vm_compute. reflexivity. Qed.

(** The content type ["unsupported"] is rejected by the input
    schema: the caller gets [BadRequest], nothing is sent and the handler
    does not run. *)
Theorem unsupported_content_type_rejected (w : @World (list Z)) :
  generate_procedure "key"
    (JObj [("prompt", JStr "new coffee shop"); ("platform", JStr "LinkedIn");
           ("contentType", JStr "unsupported")]) w = (Ok BadRequest, w).
Proof. reflexivity. Qed.
