(* ===== verification/Trpc.v ===== *)
(** * The tRPC wiring ([src/backend/trpc/app-router.ts], [src/lib/trpc.ts])

    The server side is a router: a tree whose inner nodes are
    [createTRPCRouter({...})] objects and whose leaves are procedures.  A
    call names a procedure by its dotted path ([content.generate]); tRPC
    splits the path at the dots and walks the tree, answering [NOT_FOUND]
    when no procedure sits at the end.  The route [example.hi] is imported
    from [routes/example/hi/route], a file the repository does not
    contain: it is the section variable [hiRoute].

    The client side, [src/lib/trpc.ts], is a mock.  Its queries report no
    data and its mutations resolve to [{}] without using their input, so
    no call of the client ever reaches the router. *)

From S2P Require Import Prelude JsString JsValue Random Runtime I18n Dispatcher.

(** ** The router *)

Section Router.
Context {Seed : Type} `{RandomSource Seed} `{JsEngine}.
Context (apiKey : string).
Variable hiRoute : JSVal -> @Eff Seed TrpcResult.

Inductive Router : Type :=
| RProc (p : JSVal -> @Eff Seed TrpcResult)
| RNode (children : list (string * Router)).

(** The child of a router node by key (the object's own property). *)
Fixpoint child (k : string) (cs : list (string * Router)) : option Router :=
  match cs with
  | [] => None
  | (k', r) :: cs' => if String.eqb k k' then Some r else child k cs'
  end.

(** The procedure at the end of a path, if any. *)
Fixpoint router_lookup (r : Router) (path : list string) : option (JSVal -> @Eff Seed TrpcResult) :=
  match path, r with
  | [], RProc p => Some p
  | k :: ks, RNode cs => match child k cs with Some r' => router_lookup r' ks | None => None end
  | _, _ => None
  end.

(** app-router.ts lines 5-13. *)
Definition appRouter : Router :=
  RNode [("example", RNode [("hi", RProc hiRoute)]);
         ("content", RNode [("generate", RProc (generate_procedure apiKey))])].

(** The answer of a call: [NOT_FOUND] or the procedure's result. *)
Inductive CallResult : Type :=
| NotFound
| Found (r : TrpcResult).

Definition router_call (path : string) (raw : JSVal) : @Eff Seed CallResult :=
  match router_lookup appRouter (split_dot path) with
  | Some p => (r <- p raw ;; st_ret (Found r))%eff
  | None => st_ret NotFound
  end.
End Router.

(** ** The mock client *)

(** [useQuery()], lines 6-11: no data, not loading, no error. *)
Record QueryResult : Type := mkQueryResult {
  q_data : option JSVal;      (** [null] *)
  q_isLoading : bool;
  q_error : option JSVal       (** [null] *)
}.

Definition useQuery : QueryResult := mkQueryResult None false None.

(** The mutation function of [useMutation()] (line 13) and
    [trpcClient.query] / [trpcClient.mutation] (lines 18-21): each
    resolves to [{}] whatever it is given. *)
Definition mock_resolve {Seed : Type} (input : JSVal) : @Eff Seed JSVal := st_ret (JObj []).

(** ** Lemmas *)

(** [split('.')] and [join('.')] are inverse: splitting a path at its dots
    and joining the pieces gives the path back. *)
Lemma split_dot_go_nonempty (s cur : string) : split_dot_go s cur <> [].
Proof. revert cur. induction s as [|c s IH]; intros cur; simpl; [done|]. by destruct (Ascii.eqb c "."). Qed.

Lemma join_split_dot_go (s cur : string) : join "." (split_dot_go s cur) = cur +:+ s.
Proof.
  revert cur. induction s as [|c s IH]; intros cur; simpl; [by rewrite str_app_nil_r|].
  destruct (Ascii.eqb_spec c ".") as [->|_].
  - destruct (split_dot_go s "") as [|x l] eqn:E; [by apply split_dot_go_nonempty in E|].
    rewrite <- E. cbn [join]. rewrite E, <- E, IH. reflexivity.
  - rewrite IH, str_app_assoc. reflexivity.
Qed.

Lemma join_split_dot (s : string) : join "." (split_dot s) = s.
Proof. apply join_split_dot_go. Qed.

Lemma split_dot_content : split_dot "content.generate" = ["content"; "generate"].
Proof. reflexivity. Qed.

Lemma split_dot_hi : split_dot "example.hi" = ["example"; "hi"].
Proof. reflexivity. Qed.

Lemma join_content : String.eqb (join "." ["content"; "generate"]) "content.generate" = true.
Proof. reflexivity. Qed.

Lemma join_hi : String.eqb (join "." ["example"; "hi"]) "content.generate" = false /\
  String.eqb (join "." ["example"; "hi"]) "example.hi" = true.
Proof. split; reflexivity. Qed.

Section RouterLemmas.
Context {Seed : Type} `{RandomSource Seed} `{JsEngine}.
Context (apiKey : string) (hiRoute : JSVal -> @Eff Seed TrpcResult).

Lemma appRouter_content :
  router_lookup (appRouter apiKey hiRoute) ["content"; "generate"] = Some (generate_procedure apiKey).
Proof. reflexivity. Qed.

Lemma appRouter_hi : router_lookup (appRouter apiKey hiRoute) ["example"; "hi"] = Some hiRoute.
Proof. reflexivity. Qed.

(** Only the two procedures' paths lead to a procedure. *)
Lemma appRouter_lookup (l : list string) (p : JSVal -> @Eff Seed TrpcResult) :
  router_lookup (appRouter apiKey hiRoute) l = Some p ->
  (l = ["content"; "generate"] /\ p = generate_procedure apiKey) \/ (l = ["example"; "hi"] /\ p = hiRoute).
Proof.
  intros E. destruct l as [|k1 [|k2 [|k3 l]]]; simpl in E; try discriminate E;
    repeat (match type of E with context [String.eqb ?a ?b] =>
              destruct (String.eqb_spec a b) as [->|]; simpl in E end);
    try discriminate E; try (destruct l; discriminate E); injection E as <-; auto.
Qed.

(** C14. The router answers a call by its path exactly as the route table
    of app-router.ts says: [content.generate] runs the dispatcher's
    procedure (zod validation, then the mutation handler) and wraps its
    result, [example.hi] runs the missing file's route, and every other
    path, a node's path such as [content] included, is [NOT_FOUND]
    without any effect.  The mock client of lib/trpc.ts answers [{}] to
    every mutation without any effect, so it never reaches the router. *)
Theorem router_call_spec (path : string) (raw : JSVal) (w : @World Seed) :
  router_call apiKey hiRoute path raw w =
    (if String.eqb path "content.generate" then st_bind (generate_procedure apiKey raw) (fun r => st_ret (Found r)) w
     else if String.eqb path "example.hi" then st_bind (hiRoute raw) (fun r => st_ret (Found r)) w
     else (Ok NotFound, w)) /\
  mock_resolve raw w = (Ok (JObj []), w).
Proof.
  split; [|reflexivity]. unfold router_call.
  destruct (router_lookup _ (split_dot path)) as [p|] eqn:E.
  - destruct (appRouter_lookup _ _ E) as [[Hl ->]|[Hl ->]];
      rewrite <- (join_split_dot path), Hl; [rewrite join_content|rewrite (proj1 join_hi), (proj2 join_hi)]; reflexivity.
  - destruct (String.eqb_spec path "content.generate") as [->|].
    { rewrite split_dot_content, appRouter_content in E. discriminate E. }
    destruct (String.eqb_spec path "example.hi") as [->|].
    { rewrite split_dot_hi, appRouter_hi in E. discriminate E. }
    reflexivity.
Qed.
End RouterLemmas.
