(* ===== verification/CreateFlow.v ===== *)
(** * The create tab ([src/app/(tabs)/create.tsx])

    The screen's local state ([useState] hooks) is the record [screen];
    together with the content store and the user store it forms the
    [state] the handlers change.  The stores are used through the
    interfaces [ContentStoreOps]/[UserStoreOps] of [Stores], so the
    theorems hold for any implementation satisfying their laws (the
    zustand stores do).  Each handler of the screen is one function; the
    asynchronous ones are split at their [await] or [setTimeout]: the part
    before runs on the press and records what its closure captured
    ([pendingGenerate], [pendingPublish]), the part after runs on a later
    event ([GenerateResolved], [GenerateRejected], [PublishTimer]).  Other
    presses may come in between, as on the device.

    [available] is the render function reduced to what it decides: which
    controls are on screen and enabled.  A press of a control that is not
    available does nothing.  Keyboard handling, animation, scrolling and
    alerts are not modelled (they do not change the state). *)

From S2P Require Import Prelude JsString JsValue Types Constants Stores AiService.

(** The [contentTypes] of [ContentTypeSelector] (components/ContentTypeSelector.tsx 25-50). *)
Definition contentTypes : list ContentType :=
  [mkContentType "text" "Text Post" "text" "Create engaging text content";
   mkContentType "image" "Image Post" "image" "Generate image descriptions and captions";
   mkContentType "video" "Video Script" "video" "Create video scripts and descriptions";
   mkContentType "audio" "Audio Script" "audio" "Generate podcast or audio content scripts"].

(** Entries of the tables, for the runs below. *)
Definition platform_X : SocialPlatform := default (mkSocialPlatform "" "" "" "" false None) (SOCIAL_PLATFORMS !! 2).
Definition type_text : ContentType := default (mkContentType "" "" "" "") (contentTypes !! 0).
Definition type_image : ContentType := default (mkContentType "" "" "" "") (contentTypes !! 1).

(** [!s.trim()] *)
Definition blank (s : string) : bool := bool_decide (trim s = []).

(** [s.trim()] as a string. *)
Definition trim_str (s : string) : string := string_of_list_ascii (trim s).

Record screen : Type := mkScreen {
  selectedPlatform : option SocialPlatform;
  accountId : string;
  contentType : option ContentType;
  prompt : string;
  error : option string;
  generatedContent : option GeneratedContent;
  isPublishing : bool;
  currentStep : nat;
  showAccountInput : bool;
  pendingGenerate : list (SocialPlatform * ContentType * string);
  pendingPublish : list GeneratedContent
}.

(** Lines 45-55. *)
Definition screen0 : screen := mkScreen None "" None "" None None false 1 false [] [].

(** One [setX] per hook. *)
Definition set_selectedPlatform v s := mkScreen v (accountId s) (contentType s) (prompt s) (error s)
  (generatedContent s) (isPublishing s) (currentStep s) (showAccountInput s) (pendingGenerate s) (pendingPublish s).
Definition set_accountId v s := mkScreen (selectedPlatform s) v (contentType s) (prompt s) (error s)
  (generatedContent s) (isPublishing s) (currentStep s) (showAccountInput s) (pendingGenerate s) (pendingPublish s).
Definition set_contentType v s := mkScreen (selectedPlatform s) (accountId s) v (prompt s) (error s)
  (generatedContent s) (isPublishing s) (currentStep s) (showAccountInput s) (pendingGenerate s) (pendingPublish s).
Definition set_prompt v s := mkScreen (selectedPlatform s) (accountId s) (contentType s) v (error s)
  (generatedContent s) (isPublishing s) (currentStep s) (showAccountInput s) (pendingGenerate s) (pendingPublish s).
Definition set_error v s := mkScreen (selectedPlatform s) (accountId s) (contentType s) (prompt s) v
  (generatedContent s) (isPublishing s) (currentStep s) (showAccountInput s) (pendingGenerate s) (pendingPublish s).
Definition set_generatedContent v s := mkScreen (selectedPlatform s) (accountId s) (contentType s) (prompt s) (error s)
  v (isPublishing s) (currentStep s) (showAccountInput s) (pendingGenerate s) (pendingPublish s).
Definition set_isPublishing v s := mkScreen (selectedPlatform s) (accountId s) (contentType s) (prompt s) (error s)
  (generatedContent s) v (currentStep s) (showAccountInput s) (pendingGenerate s) (pendingPublish s).
Definition set_currentStep v s := mkScreen (selectedPlatform s) (accountId s) (contentType s) (prompt s) (error s)
  (generatedContent s) (isPublishing s) v (showAccountInput s) (pendingGenerate s) (pendingPublish s).
Definition set_showAccountInput v s := mkScreen (selectedPlatform s) (accountId s) (contentType s) (prompt s) (error s)
  (generatedContent s) (isPublishing s) (currentStep s) v (pendingGenerate s) (pendingPublish s).
Definition set_pendingGenerate v s := mkScreen (selectedPlatform s) (accountId s) (contentType s) (prompt s) (error s)
  (generatedContent s) (isPublishing s) (currentStep s) (showAccountInput s) v (pendingPublish s).
Definition set_pendingPublish v s := mkScreen (selectedPlatform s) (accountId s) (contentType s) (prompt s) (error s)
  (generatedContent s) (isPublishing s) (currentStep s) (showAccountInput s) (pendingGenerate s) v.

Inductive event : Type :=
| SelectPlatform (p : SocialPlatform)
| ContinueToContentType
| SetAccountId (v : string)
| AddAccount
| SkipAccount
| CancelAccountInput
| SelectContentType (t : ContentType)
| ChangeContentType
| SetPrompt (v : string)
| Generate                         (** the [Generate Content] button *)
| TryAgain                         (** the button of the error box, also [handleGenerate] *)
| GenerateResolved (i : nat) (text id createdAt : string)
    (** the [i]-th pending [generateContent] resolved; [Date.now()], [toISOString()] *)
| GenerateRejected (i : nat) (message : string)
| Publish
| PublishTimer                     (** the oldest pending [setTimeout(..., 1500)] fires *)
| Regenerate
| ClearError
| Reset.

(** The panels the render can show, top to bottom. *)
Inductive Panel : Type :=
| PStep1 | PContinue | PAccountBox | PStep2 | PTypeSelected | PTypeSelector
| PStep3 | PErrorBox | PLoading | PPreview.

#[export] Instance Panel_eq_dec : EqDecision Panel.
Proof. solve_decision. Defined.

Section Screen.
Context {CS US : Type} `{ContentStoreOps CS} `{UserStoreOps US}.

Record state : Type := mkState {
  scr : screen;
  cs : CS;
  us : US
}.

Definition with_screen (f : screen -> screen) (st : state) : state :=
  mkState (f (scr st)) (cs st) (us st).

(** Lines 112-123. *)
Definition handleSelectPlatform (p : SocialPlatform) (st : state) : state :=
  mkState (set_generatedContent None (set_error None
             (set_showAccountInput true (set_selectedPlatform (Some p) (scr st)))))
          (cs_clearCurrentContent (cs st)) (us st).

(** Lines 125-129. *)
Definition handleContinueToContentType (st : state) : state :=
  match selectedPlatform (scr st) with
  | Some _ => with_screen (set_currentStep 2) st
  | None => st
  end.

(** Lines 131-147; the [Alert] branch changes nothing. *)
Definition handleAddAccount (st : state) : state :=
  match selectedPlatform (scr st) with
  | Some p =>
    if blank (accountId (scr st)) then st
    else mkState (set_accountId "" (set_currentStep 2 (set_showAccountInput false (scr st))))
                 (cs st)
                 (us_connectPlatform (sp_with_account p (trim_str (accountId (scr st)))) (us st))
  | None => st
  end.

(** Lines 149-152. *)
Definition handleSkipAccount (st : state) : state :=
  with_screen (fun s => set_currentStep 2 (set_showAccountInput false s)) st.

(** Lines 154-160. *)
Definition handleSelectContentType (t : ContentType) (st : state) : state :=
  mkState (set_generatedContent None (set_error None
             (set_currentStep 3 (set_contentType (Some t) (scr st)))))
          (cs_clearCurrentContent (cs st)) (us st).

(** The [Change] link, lines 453-456. *)
Definition handleChangeContentType (st : state) : state :=
  with_screen (fun s => set_currentStep 2 (set_contentType None s)) st.

(** Lines 162-171: the guard and what runs before the [await]; the
    closure keeps the platform, the content type and the prompt.  Every
    call has a closure of its own: they are queued in the order started,
    and any of them may settle first. *)
Definition handleGenerate (st : state) : state :=
  match selectedPlatform (scr st), contentType (scr st) with
  | Some p, Some t =>
    if blank (prompt (scr st)) then st
    else mkState (set_pendingGenerate (pendingGenerate (scr st) ++ [(p, t, prompt (scr st))])
                    (set_currentStep 4 (set_generatedContent None (set_error None (scr st)))))
                 (cs_setIsGenerating true (cs st)) (us st)
  | _, _ => st
  end.

(** The request [handleGenerate] sends (lines 174-178). *)
Definition generate_params (pending : SocialPlatform * ContentType * string) : GenerateContentParams :=
  let '(p, t, pr) := pending in mkGenerateContentParams pr (sp_name p) (ct_id t).

(** Lines 180-191 and the [finally] (205), for the [i]-th pending call. *)
Definition handleGenerateResolved (i : nat) (text id createdAt : string) (st : state) : state :=
  match pendingGenerate (scr st) !! i with
  | Some (p, t, _) =>
    let newContent := mkGeneratedContent id t text (sp_name p) createdAt false in
    mkState (set_pendingGenerate (delete i (pendingGenerate (scr st))) (set_generatedContent (Some newContent) (scr st)))
            (cs_setIsGenerating false (cs_setCurrentContent (Some newContent)
               (cs_addContent newContent (cs st))))
            (us st)
  | None => st
  end.

(** Lines 195-206. *)
Definition handleGenerateRejected (i : nat) (message : string) (st : state) : state :=
  match pendingGenerate (scr st) !! i with
  | Some _ =>
    mkState (set_pendingGenerate (delete i (pendingGenerate (scr st))) (set_error (Some message) (scr st)))
            (cs_setIsGenerating false (cs st)) (us st)
  | None => st
  end.

(** Lines 209-213: the timer keeps the content shown at the press. *)
Definition handlePublish (st : state) : state :=
  match generatedContent (scr st) with
  | Some c => with_screen (fun s => set_pendingPublish (pendingPublish s ++ [c]) (set_isPublishing true s)) st
  | None => st
  end.

(** Lines 214-227: the timer's callback. *)
Definition handlePublishTimer (st : state) : state :=
  match pendingPublish (scr st) with
  | c :: rest =>
    let updatedContent := gc_set_published c in
    mkState (set_isPublishing false (set_generatedContent (Some updatedContent)
               (set_pendingPublish rest (scr st))))
            (cs_addContent updatedContent (cs st)) (us st)
  | [] => st
  end.

(** Lines 230-234: [prompt && selectedPlatform && contentType]. *)
Definition handleRegenerate (st : state) : state :=
  match selectedPlatform (scr st), contentType (scr st) with
  | Some _, Some _ => if String.eqb (prompt (scr st)) "" then st else handleGenerate st
  | _, _ => st
  end.

(** Lines 236-238. *)
Definition handleClearError (st : state) : state := with_screen (set_error None) st.

(** Lines 240-250. *)
Definition handleReset (st : state) : state :=
  mkState (set_accountId "" (set_showAccountInput false (set_currentStep 1 (set_error None
             (set_generatedContent None (set_prompt "" (set_contentType None
               (set_selectedPlatform None (scr st)))))))))
          (cs_clearCurrentContent (cs st)) (us st).

(** Lines 252-261. *)
Definition handleCancelAccountInput (st : state) : state :=
  with_screen (fun s => set_accountId "" (set_selectedPlatform None (set_showAccountInput false s))) st.

Definition step (st : state) (e : event) : state :=
  match e with
  | SelectPlatform p => handleSelectPlatform p st
  | ContinueToContentType => handleContinueToContentType st
  | SetAccountId v => with_screen (set_accountId v) st
  | AddAccount => handleAddAccount st
  | SkipAccount => handleSkipAccount st
  | CancelAccountInput => handleCancelAccountInput st
  | SelectContentType t => handleSelectContentType t st
  | ChangeContentType => handleChangeContentType st
  | SetPrompt v => with_screen (set_prompt v) st
  | Generate | TryAgain => handleGenerate st
  | GenerateResolved i text id createdAt => handleGenerateResolved i text id createdAt st
  | GenerateRejected i msg => handleGenerateRejected i msg st
  | Publish => handlePublish st
  | PublishTimer => handlePublishTimer st
  | Regenerate => handleRegenerate st
  | ClearError => handleClearError st
  | Reset => handleReset st
  end.

(** The render, lines 263-556: which controls are shown and enabled. *)
Definition available (st : state) (e : event) : bool :=
  let s := scr st in
  let step1 := Nat.eqb (currentStep s) 1 in
  let account_box := showAccountInput s && bool_decide (is_Some (selectedPlatform s)) in
  let preview := bool_decide (is_Some (generatedContent s)) && negb (cs_generating (cs st)) in
  match e with
  | SelectPlatform p => step1 && bool_decide (p ∈ SOCIAL_PLATFORMS)
  | ContinueToContentType =>
      step1 && bool_decide (is_Some (selectedPlatform s)) && negb (showAccountInput s)
  | SetAccountId _ | SkipAccount | CancelAccountInput => account_box
  | AddAccount => account_box && negb (blank (accountId s))
  | SelectContentType t =>
      (2 <=? currentStep s) && bool_decide (contentType s = None) && bool_decide (t ∈ contentTypes)
  | ChangeContentType => (2 <=? currentStep s) && bool_decide (is_Some (contentType s))
  | SetPrompt _ => 3 <=? currentStep s
  | Generate => (3 <=? currentStep s) && negb (blank (prompt s)) && negb (cs_generating (cs st))
  | TryAgain | ClearError => bool_decide (is_Some (error s))
  | GenerateResolved i _ _ _ | GenerateRejected i _ => bool_decide (is_Some (pendingGenerate s !! i))
  | Publish =>
      preview && negb (isPublishing s) &&
      negb (default false (gc_published <$> generatedContent s))
  | PublishTimer => negb (bool_decide (pendingPublish s = []))
  | Regenerate | Reset => preview
  end.

(** A press of a control that is not available does nothing. *)
Definition ui_step (st : state) (e : event) : state :=
  if available st e then step st e else st.

Definition run (st : state) (es : list event) : state := fold_left ui_step es st.

Definition initial (cs0 : CS) (us0 : US) : state := mkState screen0 cs0 us0.

(** The progress indicator, lines 284-307: for steps 1 to 3, whether the
    dot is filled and whether it is the active one, and for the two
    connecting lines whether they are filled. *)
Definition progress_dots (st : state) : list (bool * bool) :=
  map (fun step => (step <=? currentStep (scr st), Nat.eqb (currentStep (scr st)) step)) [1; 2; 3].

Definition progress_lines (st : state) : list bool :=
  map (fun step => step <? currentStep (scr st)) [1; 2].

(** The panels shown, lines 309-556. *)
Definition panels (st : state) : list Panel :=
  let s := scr st in
  let selected := bool_decide (is_Some (selectedPlatform s)) in
  (if Nat.eqb (currentStep s) 1
   then PStep1 :: (if selected && negb (showAccountInput s) then [PContinue] else [])
   else []) ++
  (if showAccountInput s && selected then [PAccountBox] else []) ++
  (if 2 <=? currentStep s
   then [PStep2; if bool_decide (is_Some (contentType s)) then PTypeSelected else PTypeSelector]
   else []) ++
  (if 3 <=? currentStep s then [PStep3] else []) ++
  (if bool_decide (is_Some (error s)) then [PErrorBox] else []) ++
  (if cs_generating (cs st) then [PLoading] else []) ++
  (if bool_decide (is_Some (generatedContent s)) && negb (cs_generating (cs st)) then [PPreview] else []).
End Screen.

(** ** Invariant of the screen *)

(** A queue of at most one closure is empty once its only entry settles. *)
Lemma delete_single {A} (l : list A) (i : nat) (x : A) :
  length l <= 1 -> l !! i = Some x -> l = [x] /\ delete i l = [].
Proof. destruct l as [|a [|b l]]; simpl; try lia; [done|]. by destruct i as [|[]]; intros _ [= ->]. Qed.

Section FlowProperties.
Context {CS US : Type} `{ContentStoreLaws CS} `{UserStoreLaws US}.

(** The step is between 1 and 4; the account box is shown only with a
    platform selected; at most one generation is in flight, and one is
    exactly while the store's [isGenerating] is set; no error is shown
    while one is in flight. *)
Definition flow_inv (st : @state CS US) : Prop :=
  1 <= currentStep (scr st) <= 4 /\
  (showAccountInput (scr st) = true -> is_Some (selectedPlatform (scr st))) /\
  length (pendingGenerate (scr st)) <= 1 /\
  (pendingGenerate (scr st) <> [] <-> cs_generating (cs st) = true) /\
  (is_Some (error (scr st)) -> pendingGenerate (scr st) = []).

(** The controls that call [handleGenerate]. *)
Definition starts_generation (e : event) : bool :=
  match e with Generate | TryAgain | Regenerate => true | _ => false end.

(** Under the invariant a generation starts only when none is in flight. *)
Lemma start_idle (st : @state CS US) (e : event) :
  flow_inv st -> starts_generation e = true -> available st e = true -> pendingGenerate (scr st) = [].
Proof.
  intros (_ & _ & _ & Hp & He) Hs Hav. destruct e; try discriminate Hs; cbn [available] in Hav.
  - apply andb_true_iff in Hav as [_ Hg]. apply negb_true_iff in Hg.
    destruct (pendingGenerate (scr st)) eqn:E; [done|].
    enough (cs_generating (cs st) = true) by congruence. apply Hp. intros E'. congruence.
  - apply He. by apply bool_decide_eq_true in Hav.
  - apply andb_true_iff in Hav as [_ Hg]. apply negb_true_iff in Hg.
    destruct (pendingGenerate (scr st)) eqn:E; [done|].
    enough (cs_generating (cs st) = true) by congruence. apply Hp. intros E'. congruence.
Qed.

(** Under the invariant the error box and the loading indicator are
    never shown together, nor the loading indicator and the preview. *)
Lemma panels_exclusive (st : @state CS US) :
  flow_inv st -> ~ (PErrorBox ∈ panels st /\ PLoading ∈ panels st) /\
                 ~ (PLoading ∈ panels st /\ PPreview ∈ panels st).
Proof.
  intros (_ & _ & _ & Hp & He). unfold panels. cbv zeta.
  destruct (cs_generating (cs st)) eqn:Hg.
  - assert (Hn : error (scr st) = None).
    { destruct (error (scr st)) eqn:Ee; [|done].
      exfalso. apply (proj2 Hp eq_refl). apply He. by eexists. }
    rewrite Hn. cbn [bool_decide]. rewrite andb_false_r.
    repeat case_match; set_solver.
  - rewrite andb_true_r. repeat case_match; set_solver.
Qed.

Lemma run_cons (st : @state CS US) e es : run st (e :: es) = run (ui_step st e) es.
Proof. reflexivity. Qed.

Lemma run_app (st : @state CS US) es1 es2 : run st (es1 ++ es2) = run (run st es1) es2.
Proof. unfold run. by rewrite fold_left_app. Qed.

Lemma handleGenerate_inv (st : @state CS US) :
  flow_inv st -> pendingGenerate (scr st) = [] -> flow_inv (handleGenerate st).
Proof.
  intros Hinv Hn. pose proof Hinv as (Hs & Ha & Hl & Hp & He). unfold handleGenerate.
  destruct (selectedPlatform (scr st)) eqn:Ep; [|exact Hinv].
  destruct (contentType (scr st)); [|exact Hinv].
  destruct (blank _); [exact Hinv|].
  unfold flow_inv; simpl. autorewrite with storedb. rewrite Hn. simpl. split; [lia|].
  split; [rewrite Ep; done|]. split; [lia|]. split; [done|]. intros [? [=]].
Qed.

(** The settling of the one generation in flight empties the queue. *)
Lemma settle_inv (st : @state CS US) (i : nat) (x : SocialPlatform * ContentType * string) :
  flow_inv st -> pendingGenerate (scr st) !! i = Some x ->
  1 <= currentStep (scr st) <= 4 /\ (showAccountInput (scr st) = true -> is_Some (selectedPlatform (scr st))) /\
  delete i (pendingGenerate (scr st)) = [].
Proof. intros (Hs & Ha & Hl & _) Hx. by destruct (delete_single _ _ _ Hl Hx) as [_ ->]. Qed.

Lemma resolved_inv (st : @state CS US) i text id createdAt :
  flow_inv st -> flow_inv (handleGenerateResolved i text id createdAt st).
Proof.
  intros Hinv. unfold handleGenerateResolved.
  destruct (pendingGenerate (scr st) !! i) as [[[p t] pr]|] eqn:Ei; [|exact Hinv].
  destruct (settle_inv st i _ Hinv Ei) as (Hs & Ha & Hd).
  unfold flow_inv; simpl. autorewrite with storedb. rewrite Hd. simpl. repeat split; try done; lia.
Qed.

Lemma rejected_inv (st : @state CS US) i message :
  flow_inv st -> flow_inv (handleGenerateRejected i message st).
Proof.
  intros Hinv. unfold handleGenerateRejected.
  destruct (pendingGenerate (scr st) !! i) as [x|] eqn:Ei; [|exact Hinv].
  destruct (settle_inv st i _ Hinv Ei) as (Hs & Ha & Hd).
  unfold flow_inv; simpl. autorewrite with storedb. rewrite Hd. simpl. repeat split; try done; lia.
Qed.

Lemma ui_step_inv (st : @state CS US) e : flow_inv st -> flow_inv (ui_step st e).
Proof.
  intros Hinv. pose proof Hinv as (Hs & Ha & Hl & Hp & He). unfold ui_step.
  destruct (available st e) eqn:Hav; [|done].
  assert (Hidle : starts_generation e = true -> pendingGenerate (scr st) = [])
    by (intros Hst; by apply (start_idle st e)).
  destruct e; cbn [step starts_generation] in Hav, Hidle |- *.
  all: try unfold handleRegenerate.
  all: repeat case_match; try exact Hinv.
  all: try (apply handleGenerate_inv; [done|by apply Hidle]).
  all: try (apply resolved_inv; done).
  all: try (apply rejected_inv; done).
  all: unfold handleSelectPlatform, handleContinueToContentType, handleAddAccount, handleSkipAccount,
    handleCancelAccountInput, handleSelectContentType, handleChangeContentType,
    handlePublish, handlePublishTimer, handleClearError, handleReset, with_screen.
  all: repeat case_match; try exact Hinv.
  all: unfold flow_inv; simpl; autorewrite with storedb.
  all: try (split; [lia|]).
  all: intuition (try discriminate; try (eexists; reflexivity);
    try (match goal with H : is_Some None |- _ => destruct H as [? [=]] end);
    try (match goal with H : selectedPlatform _ = Some _ |- is_Some (selectedPlatform _) =>
           rewrite H; eexists; reflexivity end)).
Qed.

(** C22. Along every sequence of presses and completions from the
    initial screen (with the store not generating), the step stays in
    [1..4], the account box only shows with a platform, at most one
    generation is in flight and one is exactly while [isGenerating] is
    set, and no error is shown while one is in flight; and no control
    that calls [handleGenerate] ([Generate Content], [Try Again],
    [Regenerate]) is offered while a generation is in flight, so none
    starts a second one. *)
Theorem flow_invariant (cs0 : CS) (us0 : US) (es : list event) :
  cs_generating cs0 = false ->
  flow_inv (run (initial cs0 us0) es) /\
  (forall e, starts_generation e = true -> available (run (initial cs0 us0) es) e = true ->
     pendingGenerate (scr (run (initial cs0 us0) es)) = []).
Proof.
  intros Hg. assert (Hi : flow_inv (run (initial cs0 us0) es)).
  { assert (Hi : flow_inv (initial cs0 us0)).
    { unfold flow_inv. simpl. rewrite Hg. split; [lia|]. split; [done|]. split; [lia|].
      split; [done|intros [? [=]]]. }
    revert Hi. generalize (initial cs0 us0). unfold run.
    induction es as [|e es IH]; intros st Hst; [done|]. simpl. apply IH. by apply ui_step_inv. }
  split; [done|]. intros e. by apply start_idle.
Qed.
End FlowProperties.

Section Scenarios.
Context {CS US : Type} `{ContentStoreLaws CS} `{UserStoreOps US}.

(** C25. Handling the [i]-th generation's [GenerateResolved] adds the new
    content at the head of the history, makes it the current content,
    clears [isGenerating] and removes that closure from the queue: the
    new content has the id and date of the completion, the platform's
    display name and the content type captured at the press, and is not
    published. *)
Theorem generate_resolved_spec (st : @state CS US) i p t pr text id createdAt :
  pendingGenerate (scr st) !! i = Some (p, t, pr) ->
  let c := mkGeneratedContent id t text (sp_name p) createdAt false in
  let st' := handleGenerateResolved i text id createdAt st in
  cs_history (cs st') = c :: cs_history (cs st) /\ cs_current (cs st') = Some c /\
  cs_generating (cs st') = false /\ generatedContent (scr st') = Some c /\
  pendingGenerate (scr st') = delete i (pendingGenerate (scr st)).
Proof.
  intros Hp c st'. subst st'. unfold handleGenerateResolved. rewrite Hp. simpl.
  autorewrite with storedb. auto.
Qed.

(** C26. Publishing adds a second copy instead of marking the content
    published: from any screen showing a content [c] that is already in
    the history (as every generated one is, by C28), with no publication
    pending, the press of [Publish] and its timer put a published copy of
    [c] at the head of the history and show it, so the history holds two
    entries with [c]'s id. *)
Theorem publish_duplicates_history (st : @state CS US) (c : GeneratedContent) :
  generatedContent (scr st) = Some c -> pendingPublish (scr st) = [] -> c ∈ cs_history (cs st) ->
  let st' := handlePublishTimer (handlePublish st) in
  cs_history (cs st') = gc_set_published c :: cs_history (cs st) /\
  generatedContent (scr st') = Some (gc_set_published c) /\ isPublishing (scr st') = false /\
  ~ NoDup (map gc_id (cs_history (cs st'))).
Proof.
  intros Hc Hp Hin st'. subst st'. unfold handlePublish. rewrite Hc. unfold handlePublishTimer, with_screen.
  simpl. rewrite Hp. simpl. autorewrite with storedb. split; [done|]. split; [done|]. split; [done|].
  cbn [map]. rewrite NoDup_cons. intros [Hn _]. apply Hn. rewrite gc_set_published_id.
  apply list_elem_of_In, in_map, list_elem_of_In, Hin.
Qed.

(** C27. The generation's closure outlives a change of content type: while
    a generation of type [t] is the one in flight on step 2 or later, the
    screen offers [Change] and then the choice of any content type [t'];
    when the generation then resolves, the screen shows [t'] as the
    content type but the generated (and publishable) content is of type
    [t]. *)
Theorem stale_content_type (st : @state CS US) p t pr t' text id createdAt :
  pendingGenerate (scr st) = [(p, t, pr)] -> contentType (scr st) = Some t -> 2 <= currentStep (scr st) ->
  t' ∈ contentTypes ->
  let st1 := handleChangeContentType st in
  let st' := handleGenerateResolved 0 text id createdAt (handleSelectContentType t' st1) in
  available st ChangeContentType = true /\ available st1 (SelectContentType t') = true /\
  contentType (scr st') = Some t' /\ (gc_type <$> generatedContent (scr st')) = Some t /\
  cs_generating (cs st') = false.
Proof.
  intros Hp Ht Hs Ht' st1 st'. subst st1 st'. apply Nat.leb_le in Hs.
  split; [unfold available; cbv zeta; rewrite Hs, Ht; done|].
  split; [unfold available; simpl; by rewrite bool_decide_eq_true_2|].
  unfold handleGenerateResolved. simpl. rewrite Hp. simpl. autorewrite with storedb. auto.
Qed.
End Scenarios.

Lemma flow_invariant_witness :
  cs_generating ContentStore.initial = false /\
  flow_inv (run (initial ContentStore.initial UserStore.initial)
    [SelectPlatform platform_X; SkipAccount; SelectContentType type_text; SetPrompt "new coffee shop"; Generate]).
Proof.
  assert (Hg : cs_generating ContentStore.initial = false) by reflexivity.
  split; [exact Hg|].
  exact (proj1 (flow_invariant ContentStore.initial UserStore.initial
           [SelectPlatform platform_X; SkipAccount; SelectContentType type_text; SetPrompt "new coffee shop"; Generate] Hg)).
Defined.

(** A screen with one generation of a text post in flight. *)
Definition generating_screen : screen :=
  set_currentStep 4 (set_contentType (Some type_text)
    (set_pendingGenerate [(platform_X, type_text, "new coffee shop")] screen0)).

Lemma generate_resolved_spec_witness :
  pendingGenerate generating_screen !! 0 = Some (platform_X, type_text, "new coffee shop") /\
  cs_history (cs (handleGenerateResolved 0 "Hello" "1" "2023-11-14T22:13:20.000Z"
    (mkState generating_screen ContentStore.initial UserStore.initial))) =
    [mkGeneratedContent "1" type_text "Hello" (sp_name platform_X) "2023-11-14T22:13:20.000Z" false].
Proof.
  assert (Hp : pendingGenerate generating_screen !! 0 = Some (platform_X, type_text, "new coffee shop"))
    by reflexivity.
  split; [exact Hp|].
  destruct (generate_resolved_spec (mkState generating_screen ContentStore.initial UserStore.initial)
    0 platform_X type_text "new coffee shop" "Hello" "1" "2023-11-14T22:13:20.000Z" Hp) as [E _].
  exact E.
Defined.

(** The screen and store after the generation above resolved. *)
Definition resolved_state : @state ContentStore.state UserStore.state :=
  handleGenerateResolved 0 "Hello" "1" "2023-11-14T22:13:20.000Z"
    (mkState generating_screen ContentStore.initial UserStore.initial).

Definition resolved_content : GeneratedContent :=
  mkGeneratedContent "1" type_text "Hello" (sp_name platform_X) "2023-11-14T22:13:20.000Z" false.

Lemma publish_duplicates_history_witness :
  generatedContent (scr resolved_state) = Some resolved_content /\
  pendingPublish (scr resolved_state) = [] /\
  resolved_content ∈ cs_history (cs resolved_state) /\
  ~ NoDup (map gc_id (cs_history (cs (handlePublishTimer (handlePublish resolved_state))))).
Proof.
  assert (H1 : generatedContent (scr resolved_state) = Some resolved_content) by reflexivity.
  assert (H2 : pendingPublish (scr resolved_state) = []) by reflexivity.
  assert (H3 : resolved_content ∈ cs_history (cs resolved_state)) by (left; reflexivity).
  split; [exact H1|]. split; [exact H2|]. split; [exact H3|].
  exact (proj2 (proj2 (proj2 (publish_duplicates_history resolved_state resolved_content H1 H2 H3)))).
Defined.

Lemma stale_content_type_witness :
  pendingGenerate generating_screen = [(platform_X, type_text, "new coffee shop")] /\
  (gc_type <$> generatedContent (scr (handleGenerateResolved 0 "Hello" "1" "2023-11-14T22:13:20.000Z"
     (handleSelectContentType type_image (handleChangeContentType
        (mkState generating_screen ContentStore.initial UserStore.initial)))))) = Some type_text.
Proof.
  assert (Hp : pendingGenerate generating_screen = [(platform_X, type_text, "new coffee shop")]) by reflexivity.
  split; [exact Hp|].
  assert (Ht : contentType generating_screen = Some type_text) by reflexivity.
  assert (Hs : 2 <= currentStep generating_screen) by (simpl; lia).
  assert (Hi : type_image ∈ contentTypes) by (right; left).
  exact (proj1 (proj2 (proj2 (proj2 (stale_content_type (mkState generating_screen ContentStore.initial UserStore.initial)
    platform_X type_text "new coffee shop" type_image "Hello" "1" "2023-11-14T22:13:20.000Z" Hp Ht Hs Hi))))).
Defined.
