(* ===== verification/LegacyCreate.v ===== *)
(** * The stand-alone create screen ([src/app/create.tsx]) and the platform selector

    An older version of the create flow, without steps: the platform is
    chosen among the user's connected platforms by
    [SocialPlatformSelector] (components/SocialPlatformSelector.tsx), then
    a content type, then the prompt.  It uses the same stores and the same
    [generateContent] as the tab screen of [CreateFlow], and is modelled
    the same way (handlers split at their [await] and [setTimeout],
    [available] for what the render shows).  Unlike the tab screen it
    passes the whole [ContentType] object as [contentType], which the
    service interpolates into its system message.

    The file also holds the two selectors both create screens use: the
    platform grid of [SocialPlatformSelector] and the type tiles of
    [ContentTypeSelector], with their selection highlight.  Their
    floating animations are not modelled. *)

From S2P Require Import Prelude JsString JsValue Types Constants Stores AiService CreateFlow.

(** ** The platform selector *)

(** Lines 76-80: [connected] and [username] recomputed from the user's
    list, by id. *)
Definition platformsWithConnected (connectedPlatforms : list SocialPlatform) : list SocialPlatform :=
  map (fun platform =>
         mkSocialPlatform (sp_id platform) (sp_name platform) (sp_icon platform) (sp_color platform)
           (existsb (fun p => String.eqb (sp_id p) (sp_id platform)) connectedPlatforms)
           (List.find (fun p => String.eqb (sp_id p) (sp_id platform)) connectedPlatforms ≫= sp_username))
      SOCIAL_PLATFORMS.

(** Lines 82-84. *)
Definition selector_platforms (connectedOnly : bool) (connectedPlatforms : list SocialPlatform) :
    list SocialPlatform :=
  if connectedOnly then List.filter sp_connected (platformsWithConnected connectedPlatforms)
  else platformsWithConnected connectedPlatforms.

(** One platform of the grid, lines 87-147: whether it is selected
    ([selectedPlatform === platform.id]), its connected badge, and the
    highlight of a selected one (border and name in [primaryColor], the
    background [`${primaryColor}15`]).  Pressing it calls
    [onSelectPlatform] with [tile_platform]. *)
Record PlatformTile : Type := mkTile {
  tile_platform : SocialPlatform;
  tile_selected : bool;
  tile_connected : bool;
  tile_highlight : option (string * string)
}.

Definition renderPlatform (primaryColor : string) (selectedPlatform : option string)
    (platform : SocialPlatform) : PlatformTile :=
  let isSelected := match selectedPlatform with
                    | Some id => String.eqb id (sp_id platform)
                    | None => false
                    end in
  mkTile platform isSelected (sp_connected platform)
    (if isSelected then Some (primaryColor, primaryColor +:+ "15") else None).

Inductive SelectorView : Type :=
| SelectorEmpty                              (** "No connected accounts available" *)
| SelectorGrid (tiles : list PlatformTile).

(** The render, lines 86-91 and 150-156. *)
Definition selector_view (primaryColor : string) (selectedPlatform : option string)
    (connectedOnly : bool) (connectedPlatforms : list SocialPlatform) : SelectorView :=
  let platforms := selector_platforms connectedOnly connectedPlatforms in
  if Nat.eqb (length platforms) 0 && connectedOnly then SelectorEmpty
  else SelectorGrid (map (renderPlatform primaryColor selectedPlatform) platforms).

(** ** The content type selector (components/ContentTypeSelector.tsx) *)

(** The four icons of [getIcon], lines 52-65. *)
Inductive TypeIcon : Type := IFileText | IImage | IVideo | IMusic.

Definition getIcon (iconType : string) : TypeIcon :=
  if String.eqb iconType "text" then IFileText
  else if String.eqb iconType "image" then IImage
  else if String.eqb iconType "video" then IVideo
  else if String.eqb iconType "audio" then IMusic
  else IFileText.

(** One tile, lines 103-151: selected when [selectedType?.id === item.id];
    a selected tile has the border [primaryColor], the background
    [`${primaryColor}20`] and the icon background [`${primaryColor}30`],
    and is scaled by 1.05.  Pressing it calls [onSelectType(item)]. *)
Record TypeTile : Type := mkTypeTile {
  tt_type : ContentType;
  tt_selected : bool;
  tt_icon : TypeIcon;
  tt_highlight : option (string * string * string)
}.

Definition type_tiles (primaryColor : string) (selectedType : option ContentType) : list TypeTile :=
  map (fun item =>
         let isSelected := match selectedType with
                           | Some st => String.eqb (ct_id st) (ct_id item)
                           | None => false
                           end in
         mkTypeTile item isSelected (getIcon (ct_icon item))
           (if isSelected then Some (primaryColor, primaryColor +:+ "20", primaryColor +:+ "30") else None))
    contentTypes.

(** The [ContentType] object the selector hands over (types/index.ts
    33-38): its four own string properties. *)
Definition contentType_value (t : ContentType) : JSVal :=
  JObj [("id", JStr (ct_id t)); ("name", JStr (ct_name t)); ("icon", JStr (ct_icon t));
        ("description", JStr (ct_description t))].

Record legacy_screen : Type := mkLegacy {
  l_selectedPlatform : option SocialPlatform;
  l_contentType : option ContentType;
  l_prompt : string;
  l_error : option string;
  l_generatedContent : option GeneratedContent;
  l_isPublishing : bool;
  l_pendingGenerate : list (SocialPlatform * ContentType * string);
  l_pendingPublish : list GeneratedContent
}.

Definition legacy0 : legacy_screen := mkLegacy None None "" None None false [] [].

Inductive legacy_event : Type :=
| LSelectPlatform (p : SocialPlatform)
| LSelectContentType (t : ContentType)
| LSetPrompt (v : string)
| LGenerate
| LTryAgain
| LGenerateResolved (i : nat) (text id createdAt : string)
| LGenerateRejected (i : nat) (message : string)
| LPublish
| LPublishTimer
| LRegenerate
| LClearError.

(** The request of lines 116-120: the [contentType] field is the object,
    which the service's template literal (aiService.ts 18) converts to a
    string; [None] when that conversion throws. *)
Definition legacy_params (pending : SocialPlatform * ContentType * string) : option GenerateContentParams :=
  let '(p, t, pr) := pending in
  match template_string (contentType_value t) with
  | Some (inr ct) => Some (mkGenerateContentParams pr (sp_name p) ct)
  | _ => None
  end.

Section Legacy.
Context {CS US : Type} `{ContentStoreOps CS} `{UserStoreOps US}.

Record lstate : Type := mkLState {
  lscr : legacy_screen;
  lcs : CS;
  lus : US
}.

(** Lines 82-87. *)
Definition l_handleSelectPlatform (p : SocialPlatform) (st : lstate) : lstate :=
  let s := lscr st in
  mkLState (mkLegacy (Some p) (l_contentType s) (l_prompt s) None None (l_isPublishing s)
              (l_pendingGenerate s) (l_pendingPublish s))
           (cs_clearCurrentContent (lcs st)) (lus st).

(** Lines 89-94. *)
Definition l_handleSelectContentType (t : ContentType) (st : lstate) : lstate :=
  let s := lscr st in
  mkLState (mkLegacy (l_selectedPlatform s) (Some t) (l_prompt s) None None (l_isPublishing s)
              (l_pendingGenerate s) (l_pendingPublish s))
           (cs_clearCurrentContent (lcs st)) (lus st).

(** Lines 96-104. *)
Definition l_handleGenerate (st : lstate) : lstate :=
  let s := lscr st in
  match l_selectedPlatform s, l_contentType s with
  | Some p, Some t =>
    if blank (l_prompt s) then st
    else mkLState (mkLegacy (Some p) (Some t) (l_prompt s) None None (l_isPublishing s)
                     (l_pendingGenerate s ++ [(p, t, l_prompt s)]) (l_pendingPublish s))
                  (cs_setIsGenerating true (lcs st)) (lus st)
  | _, _ => st
  end.

(** Lines 124-135 and the [finally], for the [i]-th pending call. *)
Definition l_handleGenerateResolved (i : nat) (text id createdAt : string) (st : lstate) : lstate :=
  let s := lscr st in
  match l_pendingGenerate s !! i with
  | Some (p, t, _) =>
    let newContent := mkGeneratedContent id t text (sp_name p) createdAt false in
    mkLState (mkLegacy (l_selectedPlatform s) (l_contentType s) (l_prompt s) (l_error s)
                (Some newContent) (l_isPublishing s) (delete i (l_pendingGenerate s)) (l_pendingPublish s))
             (cs_setIsGenerating false (cs_setCurrentContent (Some newContent)
                (cs_addContent newContent (lcs st))))
             (lus st)
  | None => st
  end.

(** Lines 142-153. *)
Definition l_handleGenerateRejected (i : nat) (message : string) (st : lstate) : lstate :=
  let s := lscr st in
  match l_pendingGenerate s !! i with
  | Some _ =>
    mkLState (mkLegacy (l_selectedPlatform s) (l_contentType s) (l_prompt s) (Some message)
                (l_generatedContent s) (l_isPublishing s) (delete i (l_pendingGenerate s)) (l_pendingPublish s))
             (cs_setIsGenerating false (lcs st)) (lus st)
  | None => st
  end.

(** Lines 156-160. *)
Definition l_handlePublish (st : lstate) : lstate :=
  let s := lscr st in
  match l_generatedContent s with
  | Some c =>
    mkLState (mkLegacy (l_selectedPlatform s) (l_contentType s) (l_prompt s) (l_error s)
                (l_generatedContent s) true (l_pendingGenerate s) (l_pendingPublish s ++ [c]))
             (lcs st) (lus st)
  | None => st
  end.

(** Lines 162-175. *)
Definition l_handlePublishTimer (st : lstate) : lstate :=
  let s := lscr st in
  match l_pendingPublish s with
  | c :: rest =>
    mkLState (mkLegacy (l_selectedPlatform s) (l_contentType s) (l_prompt s) (l_error s)
                (Some (gc_set_published c)) false (l_pendingGenerate s) rest)
             (cs_addContent (gc_set_published c) (lcs st)) (lus st)
  | [] => st
  end.

Definition l_step (st : lstate) (e : legacy_event) : lstate :=
  let s := lscr st in
  match e with
  | LSelectPlatform p => l_handleSelectPlatform p st
  | LSelectContentType t => l_handleSelectContentType t st
  | LSetPrompt v =>
      mkLState (mkLegacy (l_selectedPlatform s) (l_contentType s) v (l_error s)
                  (l_generatedContent s) (l_isPublishing s) (l_pendingGenerate s) (l_pendingPublish s))
               (lcs st) (lus st)
  | LGenerate | LTryAgain => l_handleGenerate st
  | LGenerateResolved i text id createdAt => l_handleGenerateResolved i text id createdAt st
  | LGenerateRejected i msg => l_handleGenerateRejected i msg st
  | LPublish => l_handlePublish st
  | LPublishTimer => l_handlePublishTimer st
  | LRegenerate =>   (** lines 178-182 *)
      match l_selectedPlatform s, l_contentType s with
      | Some _, Some _ => if String.eqb (l_prompt s) "" then st else l_handleGenerate st
      | _, _ => st
      end
  | LClearError =>   (** lines 184-186 *)
      mkLState (mkLegacy (l_selectedPlatform s) (l_contentType s) (l_prompt s) None
                  (l_generatedContent s) (l_isPublishing s) (l_pendingGenerate s) (l_pendingPublish s))
               (lcs st) (lus st)
  end.

(** The render, lines 188-307: nothing without a user or without a
    connected platform; the selector offers the connected platforms. *)
Definition l_available (st : lstate) (e : legacy_event) : bool :=
  let s := lscr st in
  match us_user (lus st) with
  | None => false
  | Some u =>
    let connected := u_connectedPlatforms u in
    let preview := bool_decide (is_Some (l_generatedContent s)) && negb (cs_generating (lcs st)) in
    negb (Nat.eqb (List.length connected) 0) &&
    match e with
    | LSelectPlatform p => bool_decide (p ∈ selector_platforms true connected)
    | LSelectContentType t => bool_decide (is_Some (l_selectedPlatform s)) && bool_decide (t ∈ contentTypes)
    | LSetPrompt _ => bool_decide (is_Some (l_selectedPlatform s)) && bool_decide (is_Some (l_contentType s))
    | LGenerate =>
        bool_decide (is_Some (l_selectedPlatform s)) && bool_decide (is_Some (l_contentType s)) &&
        negb (blank (l_prompt s)) && negb (cs_generating (lcs st))
    | LTryAgain | LClearError => bool_decide (is_Some (l_error s))
    | LGenerateResolved i _ _ _ | LGenerateRejected i _ => bool_decide (is_Some (l_pendingGenerate s !! i))
    | LPublish =>
        preview && negb (l_isPublishing s) && negb (default false (gc_published <$> l_generatedContent s))
    | LPublishTimer => negb (bool_decide (l_pendingPublish s = []))
    | LRegenerate => preview
    end
  end.

Definition l_run (st : lstate) (es : list legacy_event) : lstate :=
  fold_left (fun st e => if l_available st e then l_step st e else st) es st.
End Legacy.

(** ** Properties *)

Lemma selector_ids_gen (l cps : list SocialPlatform) :
  map sp_id (List.filter sp_connected
    (map (fun platform =>
         mkSocialPlatform (sp_id platform) (sp_name platform) (sp_icon platform) (sp_color platform)
           (existsb (fun p => String.eqb (sp_id p) (sp_id platform)) cps)
           (List.find (fun p => String.eqb (sp_id p) (sp_id platform)) cps ≫= sp_username)) l)) =
  List.filter (fun id => existsb (fun p => String.eqb (sp_id p) id) cps) (map sp_id l).
Proof.
  induction l as [|q l IH]; [done|]. simpl.
  destruct (existsb _ cps); simpl; by rewrite IH.
Qed.

Lemma platformsWithConnected_ids (cps : list SocialPlatform) :
  map sp_id (platformsWithConnected cps) = map sp_id SOCIAL_PLATFORMS.
Proof. unfold platformsWithConnected. rewrite map_map. done. Qed.

Lemma selector_platforms_NoDup (connectedOnly : bool) (cps : list SocialPlatform) :
  NoDup (map sp_id (selector_platforms connectedOnly cps)).
Proof.
  pose proof SOCIAL_PLATFORMS_ids_NoDup as Hnd. destruct connectedOnly.
  - cbv [selector_platforms platformsWithConnected]. rewrite selector_ids_gen. apply NoDup_ListNoDup, List.NoDup_filter, NoDup_ListNoDup, Hnd.
  - cbv [selector_platforms]. by rewrite platformsWithConnected_ids.
Qed.

(** At most one tile of a grid of platforms with distinct ids is selected. *)
Lemma tiles_selected_at_most_one (pc : string) (sel : option string) (ps : list SocialPlatform) :
  NoDup (map sp_id ps) -> length (List.filter tile_selected (map (renderPlatform pc sel) ps)) <= 1.
Proof.
  intros Hnd. destruct sel as [id|].
  - etransitivity; [|exact (filter_key_at_most_one sp_id id ps Hnd)].
    induction ps as [|p ps IH]; [done|]. apply NoDup_cons in Hnd as [_ Hnd]. simpl.
    destruct (String.eqb id (sp_id p)); simpl; [apply le_n_S|]; auto.
  - induction ps as [|p ps IH]; [simpl; lia|]. apply NoDup_cons in Hnd as [_ Hnd]. simpl. auto.
Qed.

(** The content type selector shows the four types in order, each with
    its own icon, and highlights exactly the tiles whose id is the
    selected type's: one tile for a type of the table, none otherwise. *)
Lemma type_tiles_spec (pc : string) (sel : option ContentType) :
  map (fun t => (ct_id (tt_type t), tt_icon t)) (type_tiles pc sel) =
    [("text", IFileText); ("image", IImage); ("video", IVideo); ("audio", IMusic)] /\
  map tt_selected (type_tiles pc sel) =
    map (fun id => match sel with Some st => String.eqb (ct_id st) id | None => false end)
      ["text"; "image"; "video"; "audio"].
Proof. split; [done|]. by destruct sel. Qed.

(** C28. In connected-only mode the selector shows "No connected
    accounts available" exactly when no platform of [SOCIAL_PLATFORMS]
    has its id among the user's connected platforms.  Otherwise it shows
    a grid of exactly those platforms, in the table's order: a connected
    platform with another id is never offered, and duplicates in the
    user's list are not repeated.  Each tile is marked connected and
    passes a connected platform to [onSelectPlatform], and at most one
    tile is highlighted as selected. *)
Theorem selector_offers_connected (primaryColor : string) (selectedPlatform : option string)
    (connectedPlatforms : list SocialPlatform) :
  let ids := List.filter (fun id => existsb (fun p => String.eqb (sp_id p) id) connectedPlatforms)
               (map sp_id SOCIAL_PLATFORMS) in
  match selector_view primaryColor selectedPlatform true connectedPlatforms with
  | SelectorEmpty => ids = []
  | SelectorGrid tiles =>
    ids <> [] /\ map (fun t => sp_id (tile_platform t)) tiles = ids /\
    Forall (fun t => tile_connected t = true /\ sp_connected (tile_platform t) = true) tiles /\
    length (List.filter tile_selected tiles) <= 1
  end.
Proof.
  intros ids. assert (Hids : map sp_id (selector_platforms true connectedPlatforms) = ids)
    by apply selector_ids_gen.
  pose proof (selector_platforms_NoDup true connectedPlatforms) as Hnd.
  unfold selector_view. rewrite andb_true_r.
  destruct (Nat.eqb_spec (length (selector_platforms true connectedPlatforms)) 0) as [E|E].
  - apply length_zero_iff_nil in E. by rewrite <- Hids, E.
  - split; [|split; [|split]].
    + rewrite <- Hids. intros Hn. apply map_eq_nil in Hn. by rewrite Hn in E.
    + by rewrite map_map.
    + apply Forall_map, Forall_forall. intros p Hp. simpl.
      cbv [selector_platforms] in Hp. apply list_elem_of_In, filter_In in Hp as [_ Hc]. by split.
    + by apply tiles_selected_at_most_one.
Qed.

(** C29. The stand-alone screen sends the [ContentType] object where the
    service expects its id, and the service's template literal turns every
    such object into ["[object Object]"]: the request is the same whatever
    type was chosen, and its system message reads ["Create engaging
    [object Object] content for <platform>"]; the tab screen's requests
    for two types with different ids differ. *)
Theorem legacy_request_object_object (p : SocialPlatform) (t t' : ContentType) (pr : string) :
  exists params, legacy_params (p, t, pr) = Some params /\ legacy_params (p, t', pr) = Some params /\
    gp_contentType params = "[object Object]" /\
    str_contains (llm_system params) ("Create engaging [object Object] content for " +:+ sp_name p) /\
    (ct_id t <> ct_id t' -> generate_params (p, t, pr) <> generate_params (p, t', pr)).
Proof.
  eexists. split; [reflexivity|]. split; [reflexivity|]. split; [reflexivity|]. split.
  - unfold llm_system; simpl.
    exists "You are a professional social media content creator. ",
      ". Make it authentic, engaging, and platform-appropriate. Include relevant hashtags when appropriate.".
    by autorewrite with strdb.
  - intros Hne [= Heq]. by apply Hne.
Qed.

(** ** The stand-alone screen's generations *)

Section LegacyFlow.
Context {CS US : Type} `{ContentStoreLaws CS} `{UserStoreOps US}.

(** At most one generation in flight, one exactly while [isGenerating] is
    set, and no error shown while one is in flight. *)
Definition l_flow_inv (st : @lstate CS US) : Prop :=
  length (l_pendingGenerate (lscr st)) <= 1 /\
  (l_pendingGenerate (lscr st) <> [] <-> cs_generating (lcs st) = true) /\
  (is_Some (l_error (lscr st)) -> l_pendingGenerate (lscr st) = []).

(** The controls that call [handleGenerate]. *)
Definition l_starts_generation (e : legacy_event) : bool :=
  match e with LGenerate | LTryAgain | LRegenerate => true | _ => false end.

Lemma l_idle_of_not_generating (st : @lstate CS US) :
  l_flow_inv st -> cs_generating (lcs st) = false -> l_pendingGenerate (lscr st) = [].
Proof.
  intros (_ & Hp & _) Hg. destruct (l_pendingGenerate (lscr st)) eqn:E; [done|].
  enough (cs_generating (lcs st) = true) by congruence. apply Hp. intros E'. congruence.
Qed.

Lemma l_start_idle (st : @lstate CS US) (e : legacy_event) :
  l_flow_inv st -> l_starts_generation e = true -> l_available st e = true -> l_pendingGenerate (lscr st) = [].
Proof.
  intros Hi Hs Hav. unfold l_available in Hav. destruct (us_user (lus st)); [|discriminate].
  apply andb_true_iff in Hav as [_ Hav].
  destruct e; try discriminate Hs.
  - apply l_idle_of_not_generating; [done|]. apply andb_true_iff in Hav as [_ Hg]. by apply negb_true_iff in Hg.
  - destruct Hi as (_ & _ & He). apply He. by apply bool_decide_eq_true in Hav.
  - apply l_idle_of_not_generating; [done|]. apply andb_true_iff in Hav as [_ Hg]. by apply negb_true_iff in Hg.
Qed.

Lemma l_handleGenerate_inv (st : @lstate CS US) :
  l_flow_inv st -> l_pendingGenerate (lscr st) = [] -> l_flow_inv (l_handleGenerate st).
Proof.
  intros Hinv Hn. unfold l_handleGenerate.
  destruct (l_selectedPlatform (lscr st)); [|exact Hinv].
  destruct (l_contentType (lscr st)); [|exact Hinv].
  destruct (blank _); [exact Hinv|].
  unfold l_flow_inv; simpl. autorewrite with storedb. rewrite Hn. simpl. repeat split; try done; intros [? [=]].
Qed.

Lemma l_resolved_inv (st : @lstate CS US) i text id createdAt :
  l_flow_inv st -> l_flow_inv (l_handleGenerateResolved i text id createdAt st).
Proof.
  intros Hinv. pose proof Hinv as (Hl & _). unfold l_handleGenerateResolved.
  destruct (l_pendingGenerate (lscr st) !! i) as [[[p t] pr]|] eqn:Ei; [|exact Hinv].
  destruct (delete_single _ _ _ Hl Ei) as [_ Hd].
  unfold l_flow_inv; simpl. autorewrite with storedb. rewrite Hd. simpl. repeat split; try done; lia.
Qed.

Lemma l_rejected_inv (st : @lstate CS US) i message :
  l_flow_inv st -> l_flow_inv (l_handleGenerateRejected i message st).
Proof.
  intros Hinv. pose proof Hinv as (Hl & _). unfold l_handleGenerateRejected.
  destruct (l_pendingGenerate (lscr st) !! i) as [x|] eqn:Ei; [|exact Hinv].
  destruct (delete_single _ _ _ Hl Ei) as [_ Hd].
  unfold l_flow_inv; simpl. autorewrite with storedb. rewrite Hd. simpl. repeat split; try done; lia.
Qed.

Lemma l_step_inv (st : @lstate CS US) (e : legacy_event) :
  l_flow_inv st -> l_available st e = true -> l_flow_inv (l_step st e).
Proof.
  intros Hinv Hav. pose proof Hinv as (Hl & Hp & He).
  pose proof (fun Hs => l_start_idle st e Hinv Hs Hav) as Hidle.
  destruct e; cbn [l_step l_starts_generation] in Hidle |- *.
  all: try (apply l_handleGenerate_inv; [done|by apply Hidle]).
  all: try (repeat case_match; try exact Hinv; apply l_handleGenerate_inv; [done|by apply Hidle]).
  all: try (apply l_resolved_inv; done).
  all: try (apply l_rejected_inv; done).
  all: unfold l_handleSelectPlatform, l_handleSelectContentType, l_handlePublish, l_handlePublishTimer.
  all: repeat case_match; try exact Hinv.
  all: unfold l_flow_inv; simpl; autorewrite with storedb.
  all: repeat split; try done; try (by intros [? [=]]); try apply Hp; try apply He.
Qed.

(** C23. Along every sequence of presses and completions the
    stand-alone create screen offers, from an initial screen with the
    store not generating, at most one generation is in flight, one is
    exactly while [isGenerating] is set, and no error is shown while one
    is; no control that calls [handleGenerate] ([Generate], [Try Again],
    [Regenerate]) is offered while a generation is in flight. *)
Theorem l_flow_invariant (cs0 : CS) (us0 : US) (es : list legacy_event) :
  cs_generating cs0 = false ->
  l_flow_inv (l_run (mkLState legacy0 cs0 us0) es) /\
  (forall e, l_starts_generation e = true -> l_available (l_run (mkLState legacy0 cs0 us0) es) e = true ->
     l_pendingGenerate (lscr (l_run (mkLState legacy0 cs0 us0) es)) = []).
Proof.
  intros Hg. assert (Hi : l_flow_inv (l_run (mkLState legacy0 cs0 us0) es)).
  { assert (Hi : l_flow_inv (mkLState legacy0 cs0 us0)).
    { unfold l_flow_inv. simpl. rewrite Hg. repeat split; try done; try lia; intros [? [=]]. }
    revert Hi. generalize (mkLState legacy0 cs0 us0). unfold l_run.
    induction es as [|e es IH]; intros st Hst; [done|]. simpl. apply IH.
    destruct (l_available st e) eqn:Ha; [by apply l_step_inv|done]. }
  split; [done|]. intros e. by apply l_start_idle.
Qed.
End LegacyFlow.

Lemma l_flow_invariant_witness :
  cs_generating ContentStore.initial = false /\
  l_flow_inv (l_run (mkLState legacy0 ContentStore.initial UserStore.initial) [LGenerate; LClearError]).
Proof.
  assert (Hg : cs_generating ContentStore.initial = false) by reflexivity.
  split; [exact Hg|].
  exact (proj1 (l_flow_invariant ContentStore.initial UserStore.initial [LGenerate; LClearError] Hg)).
Defined.
