(* ===== verification/ProfileForm.v ===== *)
(** * The profile editor ([src/app/profile/edit.tsx])

    The form's fields, its validation [validateForm] (lines 109-136) with
    the two regular expressions it uses, the default picture heuristic of
    the initial effect (lines 63-76), and [handleSave] (lines 138-160),
    which stores the edited user after a one-second timer.  The images of
    [constants/images] and the [COUNTRY_CODES] table are in files the
    repository does not contain: they are section variables.  The
    validation answers the i18n key of the alert it shows, or [None] when
    the form is valid. *)

From S2P Require Import Prelude JsString JsValue Types Stores CreateFlow.

(** [/\S+@\S+\.\S+/.test(s)]: somewhere a non-space, an [@], a run of
    non-spaces, a [.] and a non-space.  The characters are code points. *)
Fixpoint email_tail (cs : list string) (seen : bool) : bool :=
  match cs with
  | c :: cs' =>
    if is_js_space c then false
    else (seen && String.eqb c "." &&
          match cs' with d :: _ => negb (is_js_space d) | [] => false end)
         || email_tail cs' true
  | [] => false
  end.

Fixpoint email_scan (prev : option string) (cs : list string) : bool :=
  match cs with
  | c :: cs' =>
    (match prev with Some p => negb (is_js_space p) | None => false end &&
     String.eqb c "@" && email_tail cs' false)
    || email_scan (Some c) cs'
  | [] => false
  end.

Definition email_regex (s : string) : bool := email_scan None (utf8_chars s).

(** [/^\d{6,15}$/.test(s)] *)
Definition phone_regex (s : string) : bool :=
  let cs := list_ascii_of_string s in
  forallb is_digit cs && (6 <=? List.length cs) && (List.length cs <=? 15).

Record ProfileFields : Type := mkProfileFields {
  pf_name : string;
  pf_email : string;
  pf_photoUrl : string;
  pf_phoneNumber : string;
  pf_countryDial : option string;    (** [selectedCountry?.dialCode] *)
  pf_dateOfBirth : option string;    (** [dateOfBirth?.toISOString()] *)
  pf_password : string;
  pf_confirmPassword : string
}.

(** Lines 109-136. *)
Definition validateForm (f : ProfileFields) : option string :=
  if blank (pf_name f) then Some "profile.nameRequired"
  else if blank (pf_email f) || negb (email_regex (pf_email f)) then Some "profile.validEmailRequired"
  else if negb (String.eqb (pf_phoneNumber f) "") && negb (phone_regex (pf_phoneNumber f))
    then Some "profile.validPhoneRequired"
  else if negb (String.eqb (pf_password f) "") && (utf16_length (pf_password f) <? 6)
    then Some "profile.passwordTooShort"
  else if negb (String.eqb (pf_password f) "") && negb (String.eqb (pf_password f) (pf_confirmPassword f))
    then Some "profile.passwordsDoNotMatch"
  else None.

(** [x || undefined] for a string. *)
Definition or_undefined (s : string) : option string := if String.eqb s "" then None else Some s.

(** The object given to [setUser] by the timer (lines 146-154). *)
Definition saved_user (u : User) (f : ProfileFields) : User :=
  mkUser (u_id u) (pf_name f) (pf_email f) (pf_photoUrl f) (u_connectedPlatforms u)
    (or_undefined (pf_phoneNumber f))
    (pf_countryDial f ≫= or_undefined)
    (pf_dateOfBirth f ≫= or_undefined).

(** [handleSave] and its timer (lines 138-160) on the user store:
    nothing when the form is invalid; otherwise, when the timer fires, the
    [user] the closure captured at the press, if there was one, updated
    with the form, whatever the store holds by then.  (The [loading] flag
    and the [router.back()] are the app shell's, in [Navigation].) *)
Definition handleSave (captured : option User) (f : ProfileFields) (s : UserStore.state) : UserStore.state :=
  match validateForm f, captured with
  | None, Some u => UserStore.setUser (saved_user u f) s
  | _, _ => s
  end.

Definition femaleIndicators : list string :=
  ["female"; "woman"; "girl"; "mary"; "sarah"; "jennifer"; "jessica"].

(** [a.includes(b)] *)
Fixpoint includes (a b : string) : bool :=
  String.prefix b a || match a with EmptyString => false | String _ a' => includes a' b end.

Section Defaults.
Variables (defaultProfileMale defaultProfileFemale : string).

(** Lines 63-76: the picture shown when the screen opens. *)
Definition initial_photo (u : option User) : string :=
  match u with
  | Some u =>
    if String.eqb (u_photoUrl u) "" then
      if String.eqb (u_email u) "" then defaultProfileMale
      else if existsb (includes (toLowerCase (u_email u))) femaleIndicators
           then defaultProfileFemale else defaultProfileMale
    else u_photoUrl u
  | None => defaultProfileMale
  end.
End Defaults.

(** ** Lemmas *)

Lemma prefix_app_self (b y : string) : String.prefix b (b +:+ y) = true.
Proof.
  induction b as [|c b IH]; [by destruct y|]. rewrite str_app_cons. simpl.
  destruct (ascii_dec c c); [exact IH|done].
Qed.

(** [includes] decides [str_contains]. *)
Lemma includes_spec (a b : string) : includes a b = true <-> str_contains a b.
Proof.
  split.
  - induction a as [|c a IH]; cbn [includes]; intros H.
    + rewrite orb_false_r in H. destruct (str_prefix_app _ _ H) as [y Hy].
      exists "", y. exact Hy.
    + apply orb_true_iff in H as [H|H].
      * destruct (str_prefix_app _ _ H) as [y Hy]. exists "", y. exact Hy.
      * destruct (IH H) as (x & y & ->). exists (String c x), y. done.
  - intros (x & y & ->). induction x as [|c x IH].
    + rewrite str_app_nil_l. destruct (b +:+ y) eqn:E; cbn [includes];
        rewrite <- E, prefix_app_self; done.
    + rewrite str_app_cons. cbn [includes]. rewrite IH. apply orb_true_r.
Qed.

(** ** Properties *)

(** A signed-in user, for the examples. *)
Definition session_user0 : User := mkUser "user123" "Ana" "ana@example.com" "" [] None None None.

(** The form with its two password fields set. *)
Definition with_password (f : ProfileFields) (pw cpw : string) : ProfileFields :=
  mkProfileFields (pf_name f) (pf_email f) (pf_photoUrl f) (pf_phoneNumber f)
    (pf_countryDial f) (pf_dateOfBirth f) pw cpw.

(** The checks before the password's only depend on the other fields. *)
Lemma validateForm_password (f : ProfileFields) (pw cpw : string) :
  validateForm (with_password f pw cpw) =
  if blank (pf_name f) then Some "profile.nameRequired"
  else if blank (pf_email f) || negb (email_regex (pf_email f)) then Some "profile.validEmailRequired"
  else if negb (String.eqb (pf_phoneNumber f) "") && negb (phone_regex (pf_phoneNumber f))
    then Some "profile.validPhoneRequired"
  else if negb (String.eqb pw "") && (utf16_length pw <? 6) then Some "profile.passwordTooShort"
  else if negb (String.eqb pw "") && negb (String.eqb pw cpw) then Some "profile.passwordsDoNotMatch"
  else None.
Proof. reflexivity. Qed.

(** C33. The password fields are validated but never saved.  Whatever the
    captured user and the store, a form with a new password of at least
    six characters typed twice stores exactly what the same form with no
    password stores, so the new password is dropped; and a non-empty
    password shorter than six characters blocks the whole save, the
    other edits included. *)
Theorem password_not_saved (f : ProfileFields) (pw : string) (u : option User) (s : UserStore.state) :
  (6 <= utf16_length pw -> handleSave u (with_password f pw pw) s = handleSave u (with_password f "" "") s) /\
  (pw <> "" -> utf16_length pw < 6 -> handleSave u (with_password f pw pw) s = s).
Proof.
  unfold handleSave. rewrite !validateForm_password. simpl.
  destruct (String.eqb_spec pw "") as [->|Hne]; [split; [done|]; by intros []|]. simpl.
  rewrite String.eqb_refl. simpl. split; intros Hl.
  - assert (Hlt : (utf16_length pw <? 6) = false) by (apply Nat.ltb_ge; lia). rewrite Hlt.
    by repeat case_match.
  - intros Hlt. apply Nat.ltb_lt in Hlt. rewrite Hlt. by repeat case_match.
Qed.

Lemma password_not_saved_witness :
  handleSave (Some session_user0) (with_password (mkProfileFields "Ana" "ana@example.com" "" "" None None "" "") "se" "se")
    UserStore.initial = UserStore.initial.
Proof.
  exact (proj2 (password_not_saved (mkProfileFields "Ana" "ana@example.com" "" "" None None "" "") "se"
           (Some session_user0) UserStore.initial) ltac:(discriminate) ltac:(vm_compute; lia)).
Defined.

(** The checks the form applies: an address needs a non-space
    before the [@] and a [.] followed by a non-space after a non-empty
    run, anywhere in the text ([x y@b.co] passes, [a@b] and [@b.co] do
    not); a phone number is 6 to 15 ASCII digits, so [+14155550123] is
    refused; a 5-character password is too short. *)
Theorem validation_examples :
  email_regex "ana@example.com" = true /\ email_regex "x y@b.co" = true /\
  email_regex "a@b" = false /\ email_regex "@b.co" = false /\ email_regex "a@.co" = false /\
  phone_regex "4155550123" = true /\ phone_regex "+14155550123" = false /\
  validateForm (mkProfileFields "Ana" "ana@example.com" "" "" None None "12345" "12345") =
    Some "profile.passwordTooShort".
Proof. vm_compute. auto 10. Qed.
