(* ===== verification/CountryPicker.v ===== *)
(** * The country code picker ([src/components/CountryCodePicker.tsx]) and the login screen ([src/app/login.tsx])

    The picker shows a button with the selected country and a modal with a
    search field and the list [filteredCountries].  The list is
    recomputed by an effect whenever the query changes: all countries for
    a blank query, otherwise those whose lower-cased name contains the
    lower-cased query, whose dial code contains it, or whose lower-cased
    ISO code contains it.  The table [COUNTRY_CODES] is in a file the
    repository does not contain: it is the section variable
    [COUNTRY_CODES].  [picker_view] is the render: the button's label
    and, while open, the modal's search field, clear button and rows.

    The login screen's only handler waits, then stores a fixed mock user
    (with no connected platform) in the user store. *)

From S2P Require Import Prelude JsString JsValue Types Stores CreateFlow ProfileForm.

Module CountryCodePicker.

Record PickerState : Type := mkCountryPicker {
  modalVisible : bool;
  searchQuery : string;
  filteredCountries : list CountryCode
}.

Section Picker.
Variable COUNTRY_CODES : list CountryCode.

(** The filter of lines 38-43. *)
Definition country_matches (query : string) (country : CountryCode) : bool :=
  includes (toLowerCase (cc_name country)) query ||
  includes (cc_dialCode country) query ||
  includes (toLowerCase (cc_code country)) query.

(** The effect of lines 33-46. *)
Definition filter_countries (searchQuery : string) : list CountryCode :=
  if blank searchQuery then COUNTRY_CODES
  else List.filter (country_matches (toLowerCase searchQuery)) COUNTRY_CODES.

Definition picker0 : PickerState := mkCountryPicker false "" COUNTRY_CODES.

(** [setSearchQuery], followed by the effect. *)
Definition setSearchQuery (q : string) (s : PickerState) : PickerState :=
  mkCountryPicker (modalVisible s) q (filter_countries q).

(** Lines 48-59 (the focus timer is not modelled). *)
Definition handleOpenModal (s : PickerState) : PickerState :=
  mkCountryPicker true "" COUNTRY_CODES.

(** Lines 61-63. *)
Definition handleCloseModal (s : PickerState) : PickerState :=
  mkCountryPicker false (searchQuery s) (filteredCountries s).

(** Lines 65-68: the country handed to [onSelectCountry], and the new
    state; only a country of the shown list can be pressed (70-76, 135-143). *)
Definition handleSelectCountry (country : CountryCode) (s : PickerState) :
    option CountryCode * PickerState :=
  if modalVisible s && bool_decide (country ∈ filteredCountries s)
  then (Some country, handleCloseModal s) else (None, s).

(** The clear button of lines 131-135: [setSearchQuery('')]. *)
Definition handleClearSearch (s : PickerState) : PickerState := setSearchQuery "" s.

(** What the button shows (lines 83-97): the selected country's flag and
    dial code, or the placeholder. *)
Inductive PickerLabel : Type :=
| SelectedCountry (flag dialCode : string)
| PickerPlaceholder (text : string).

(** The modal (lines 99-149): its title, the search field's placeholder
    and value, whether the clear button is shown, and the list, one row
    per country with its flag, name and dial code. *)
Record PickerModal : Type := mkPickerModal {
  pm_title : string;
  pm_placeholder : string;
  pm_query : string;
  pm_clear : bool;
  pm_rows : list (string * string * string)
}.

Definition picker_view (t : string -> string) (selectedCountry : option CountryCode) (s : PickerState) :
    PickerLabel * option PickerModal :=
  (match selectedCountry with
   | Some c => SelectedCountry (cc_flag c) (cc_dialCode c)
   | None => PickerPlaceholder (t "profile.selectCountry")
   end,
   if modalVisible s then
     Some (mkPickerModal (t "profile.selectCountry") (t "profile.searchCountry") (searchQuery s)
             (negb (Nat.eqb (String.length (searchQuery s)) 0))
             (map (fun c => (cc_flag c, cc_name c, cc_dialCode c)) (filteredCountries s)))
   else None).

(** The profile screen's initial country (edit.tsx 47-56):
    [COUNTRY_CODES.find(c => c.dialCode === user.countryCode)], or the
    first entry when the user has no country code. *)
Definition initial_country (u : option User) : option CountryCode :=
  match u ≫= u_countryCode with
  | Some dial => List.find (fun c => String.eqb (cc_dialCode c) dial) COUNTRY_CODES
  | None => head COUNTRY_CODES
  end.
End Picker.

End CountryCodePicker.

Import CountryCodePicker.

(** ** Login *)

Section Login.
Variable defaultProfileMale : string.

(** Lines 32-38. *)
Definition mockUser : User :=
  mkUser "user123" "Amir Gharegozlou" "everai@rexent.com" defaultProfileMale [] None None None.

Record LoginState : Type := mkLogin {
  loading : bool;
  login_pending : bool    (** the 1.5 s wait of line 29 is running *)
}.

(** Lines 24-29: the press (disabled while [loading], line 80), up to the [await]. *)
Definition handleGoogleLogin (s : LoginState) : LoginState :=
  if loading s then s else mkLogin true true.

(** Lines 31-47: after the wait, the user is stored and [loading]
    cleared. *)
Definition handleLoginTimer (s : LoginState * UserStore.state) : LoginState * UserStore.state :=
  let '(l, us) := s in
  if login_pending l then (mkLogin false false, UserStore.setUser mockUser us) else s.
End Login.

(** ** Lemmas *)

Lemma filter_countries_spec (codes : list CountryCode) (q : string) (c : CountryCode) :
  c ∈ filter_countries codes q <->
  c ∈ codes /\ (blank q = true \/ country_matches (toLowerCase q) c = true).
Proof.
  unfold filter_countries. destruct (blank q) eqn:Hb.
  - tauto.
  - rewrite list_elem_of_In, filter_In, <- list_elem_of_In. intuition (try discriminate).
Qed.

(** Clearing the search after typing shows the modal as it opened: an
    empty query, no clear button, and every country of the table. *)
Lemma clear_search_restores (C : list CountryCode) (t : string -> string) (sel : option CountryCode)
    (q : string) (s : PickerState) :
  picker_view t sel (handleClearSearch C (setSearchQuery C q (handleOpenModal C s))) =
  picker_view t sel (handleOpenModal C s).
Proof. reflexivity. Qed.

Lemma login_user_wf (defaultProfileMale : string) (l : LoginState) (us : UserStore.state) :
  UserStore.wf (snd (handleLoginTimer defaultProfileMale (l, us))) \/
  snd (handleLoginTimer defaultProfileMale (l, us)) = us.
Proof.
  unfold handleLoginTimer. destruct (login_pending l); [left|right; done].
  split; [reflexivity|constructor].
Qed.
