(* ===== verification/Settings.v ===== *)
(** * The settings tab ([src/app/(tabs)/settings.tsx])

    The screen drives three stores: logout in the user store, the language
    in the language store, dark mode and the primary colour in the theme
    store; the other buttons navigate.  The state is the three stores and
    the route the router shows.  The primary colour buttons offer eight
    fixed colours, none of which is a colour of a theme, so a press always
    leaves the theme store with a [primaryColor] that its [theme] does
    not have.  The notification switches and the help button have empty
    handlers; they are events that leave the state unchanged. *)

From S2P Require Import Prelude JsString Types Constants Stores I18n.

Record SettingsState : Type := mkSettings {
  st_user : UserStore.state;
  st_language : LanguageState;
  st_theme : ThemeStore.state;
  st_route : string
}.

(** The colour swatches, line 107. *)
Definition settings_colors : list string :=
  ["#6366f1"; "#8b5cf6"; "#ec4899"; "#f43f5e"; "#f97316"; "#eab308"; "#22c55e"; "#06b6d4"].

(** The language buttons, line 129, with the cast [lang as Language]. *)
Definition settings_languages : list (string * Language) :=
  [("en", lang_en); ("es", lang_es); ("fr", lang_fr); ("de", lang_de); ("pt", lang_pt)].

Inductive settings_event : Type :=
| EditProfile                     (** line 67 *)
| ToggleDark                      (** line 97 *)
| PickColor (color : string)      (** lines 107-116 *)
| PickLanguage (lang : Language)  (** lines 129-135 *)
| About                           (** line 178 *)
| EverAi                          (** line 186 *)
| Logout                          (** line 207 *)
| PushNotifications (value : bool)   (** line 150 *)
| EmailNotifications (value : bool)  (** line 160 *)
| Help.                              (** line 194 *)

(** Lines 32-35. *)
Definition handleLogout (s : SettingsState) : SettingsState :=
  mkSettings (UserStore.logout (st_user s)) (st_language s) (st_theme s) "/login".

(** Lines 37-39. *)
Definition handleLanguageChange (lang : Language) (s : SettingsState) : SettingsState :=
  mkSettings (st_user s) (setLanguage lang (st_language s)) (st_theme s) (st_route s).

(** The handlers bound in the render, lines 32-213. *)
Definition settings_step (s : SettingsState) (e : settings_event) : SettingsState :=
  match e with
  | EditProfile => mkSettings (st_user s) (st_language s) (st_theme s) "/profile/edit"
  | ToggleDark => mkSettings (st_user s) (st_language s) (ThemeStore.toggleDarkMode (st_theme s)) (st_route s)
  | PickColor c =>
      if bool_decide (c ∈ settings_colors)
      then mkSettings (st_user s) (st_language s) (ThemeStore.setPrimaryColor c (st_theme s)) (st_route s)
      else s
  | PickLanguage l => handleLanguageChange l s
  | About => mkSettings (st_user s) (st_language s) (st_theme s) "/about"
  | EverAi => mkSettings (st_user s) (st_language s) (st_theme s) "/everai"
  | Logout => handleLogout s
  | PushNotifications _ | EmailNotifications _ | Help => s      (** [() => {}] *)
  end.

(** The two notification switches, lines 146-167: fixed values, the
    track colour [`${primaryColor}80`] when on and the thumb colour of
    [value ? primaryColor : '#f4f3f4']. *)
Record SwitchView : Type := mkSwitch {
  sw_label : string;
  sw_value : bool;
  sw_track_on : string;
  sw_thumb : string
}.

Definition notification_switches (t : string -> string) (primaryColor : string) : list SwitchView :=
  [mkSwitch (t "settings.pushNotifications") true (primaryColor +:+ "80") primaryColor;
   mkSwitch (t "settings.emailNotifications") false (primaryColor +:+ "80") "#f4f3f4"].

(** The end of the about card and the logout button, lines 192-212: the
    help button's title, the version text and the logout button's title. *)
Definition settings_footer (t : string -> string) : string * string * string :=
  (t "settings.help", t "common.version", t "common.logout").

(** The language button shown as selected ([variant='primary']), line 134. *)
Definition selected_language (s : SettingsState) : list string :=
  map fst (List.filter (fun p => bool_decide (snd p = language (st_language s))) settings_languages).

(** ** Properties *)

(** No swatch of the settings screen is the primary colour of a theme. *)
Lemma settings_colors_not_theme (c : string) (t : ThemeType) :
  c ∈ settings_colors -> c <> tc_primary (theme_colors t).
Proof.
  intros Hc. unfold settings_colors in Hc.
  repeat (apply elem_of_cons in Hc as [->|Hc]; [destruct t; discriminate|]).
  by apply elem_of_nil in Hc.
Qed.

(** Picking a colour always breaks the agreement of theme and colours. *)
Lemma pick_color_breaks_theme (s : SettingsState) (c : string) :
  c ∈ settings_colors -> ~ ThemeStore.colors_match (st_theme (settings_step s (PickColor c))).
Proof.
  intros Hc [Hp _]. unfold settings_step in Hp. rewrite bool_decide_true in Hp by done.
  simpl in Hp. by apply (settings_colors_not_theme c (ThemeStore.theme (st_theme s))).
Qed.

(** Exactly one language button is highlighted, the current language's. *)
Lemma selected_language_unique (s : SettingsState) :
  exists code, selected_language s = [code].
Proof. unfold selected_language. destruct (language (st_language s)); eexists; reflexivity. Qed.

(** The notification switches and the help button change nothing: the
    switches show push notifications on and e-mail notifications off
    whatever is pressed. *)
Lemma notification_controls_inert (s : SettingsState) (b : bool) :
  settings_step s (PushNotifications b) = s /\ settings_step s (EmailNotifications b) = s /\
  settings_step s Help = s.
Proof. done. Qed.
