(* ===== verification/Preview.v ===== *)
(** * The content preview card ([src/components/ContentPreview.tsx])

    What the card shows for a generated content, by its type id, and what
    its copy and download buttons do.  The platform ([Platform.OS]) is a
    parameter: the web uses the DOM, native platforms the clipboard
    module.  Alerts are results (their title's i18n key and their
    message); the DOM and clipboard calls are modelled by their effect
    (the text copied, the file offered).  A failure of the clipboard or of
    [execCommand] is not modelled. *)

From S2P Require Import Prelude JsString Types.

Inductive OS : Type := OSWeb | OSNative.

(** An [Alert.alert(title, message)]: the title's i18n key and the message. *)
Record Alert : Type := mkAlert { al_title : string; al_message : string }.

(** The effect of a button. *)
Inductive PreviewEffect : Type :=
| Nothing
| Copied (text : string) (a : Alert)
| Downloaded (href fileName : string) (a : Alert)   (** a link clicked with [download] *)
| Refused (a : Alert).

(** Lines 27-54. *)
Definition handleCopyToClipboard (os : OS) (c : GeneratedContent) : PreviewEffect :=
  if String.eqb (ct_id (gc_type c)) "text"
  then Copied (gc_content c) (mkAlert "common.success" "Content copied to clipboard")
  else Nothing.

(** Lines 56-79; [blob:] stands for [URL.createObjectURL] of the text. *)
Definition handleDownload (os : OS) (c : GeneratedContent) : PreviewEffect :=
  match os with
  | OSWeb =>
    if String.eqb (ct_id (gc_type c)) "text" then
      Downloaded ("blob:" +:+ gc_content c) ("content_" +:+ gc_id c +:+ ".txt")
        (mkAlert "common.success" "Content downloaded")
    else if String.eqb (ct_id (gc_type c)) "image" then
      Downloaded (gc_content c) ("content_" +:+ gc_id c +:+ ".jpg")
        (mkAlert "common.success" "Image downloaded")
    else Refused (mkAlert "common.error" "Download not supported for this content type on web")
  | OSNative => Refused (mkAlert "common.error" "Download functionality is not supported on this platform")
  end.

(** The controls of the card. *)
Inductive PreviewControl : Type :=
| ShowText (text : string) | ShowImage (uri : string) | MediaPlaceholder
| CopyButton | DownloadButton
| RegenerateButton | PublishButton (enabled loading : bool) | PublishedBadge.

(** Lines 81-158. *)
Definition renderContent (c : GeneratedContent) : list PreviewControl :=
  let id := ct_id (gc_type c) in
  if String.eqb id "text" then [ShowText (gc_content c); CopyButton; DownloadButton]
  else if String.eqb id "image" then [ShowImage (gc_content c); DownloadButton]
  else if String.eqb id "video" || String.eqb id "audio" then [MediaPlaceholder; DownloadButton]
  else [].

(** Lines 160-185. *)
Definition preview (c : GeneratedContent) (isPublishing : bool) : list PreviewControl :=
  renderContent c ++ [RegenerateButton; PublishButton (negb (gc_published c)) isPublishing] ++
  (if gc_published c then [PublishedBadge] else []).

(** ** Lemmas *)

(** A published content's publish button is disabled and the badge shows. *)
Lemma preview_published (c : GeneratedContent) (p : bool) :
  gc_published c = true -> PublishButton false p ∈ preview c p /\ PublishedBadge ∈ preview c p.
Proof.
  intros Hp. unfold preview. rewrite Hp. simpl. split; apply elem_of_app; right; set_solver.
Qed.
