(* ===== verification/Button.v ===== *)
(** * The shared button ([src/components/Button.tsx])

    Every screen's buttons are this component.  What it shows depends on
    its props and on the theme store's two colours:

    - the two colours of its gradient, chosen by [variant];
    - the outline variant's border colour;
    - either a spinner (with its colour) or its title;
    - whether a press reaches [onPress].  The touchable is
      [disabled={disabled || loading}], so a loading button ignores
      presses as a disabled one does.

    The glass variant and the home and splash screens build colours by
    appending a two-digit alpha to a theme colour ([`${primaryColor}60`]).
    That string is a CSS colour only when the theme colour is [#RRGGBB].
    [hex_color] states this type and [with_alpha] builds the suffixed
    colour.  The sizes and the style sheet are layout only and are not
    modelled. *)

From S2P Require Import Prelude JsString Types Constants.

(** [variant?: 'primary' | 'secondary' | 'outline' | 'glass' | 'danger' | 'text'] *)
Inductive Variant : Type :=
| VPrimary | VSecondary | VOutline | VGlass | VDanger | VText.

#[export] Instance Variant_eq_dec : EqDecision Variant.
Proof. solve_decision. Defined.

(** The props the behaviour depends on, with the defaults of lines 31-41. *)
Record ButtonProps : Type := mkButton {
  b_title : string;
  b_variant : Variant;      (** default ['primary'] *)
  b_loading : bool;         (** default [false] *)
  b_disabled : bool         (** default [false] *)
}.

Definition button (title : string) : ButtonProps := mkButton title VPrimary false false.

(** [`${c}${alpha}`] *)
Definition with_alpha (c alpha : string) : string := c +:+ alpha.

(** [getButtonStyle().colors], lines 44-88. *)
Definition gradient_colors (primaryColor secondaryColor : string) (v : Variant) : string * string :=
  match v with
  | VPrimary => (primaryColor, secondaryColor)
  | VSecondary | VOutline | VText => ("transparent", "transparent")
  | VGlass => (with_alpha primaryColor "60", with_alpha secondaryColor "40")
  | VDanger => ("#ef4444", "#dc2626")
  end.

(** The text colour set by the style: the theme colour for [outline] and
    [text], [COLORS.text] otherwise (lines 59-80 and the style sheet). *)
Definition text_color (primaryColor : string) (v : Variant) : string :=
  match v with
  | VOutline | VText => primaryColor
  | _ => pal_text COLORS
  end.

(** What the gradient holds: a spinner of a colour, or the title. *)
Inductive ButtonContent : Type :=
| Spinner (color : string)
| Label (title : string).

Record ButtonView : Type := mkButtonView {
  bv_pressable : bool;
  bv_colors : string * string;
  bv_border : option string;
  bv_content : ButtonContent
}.

(** [disabled={disabled || loading}], lines 108 and 155. *)
Definition pressable (p : ButtonProps) : bool := negb (b_disabled p || b_loading p).

(** The render, lines 103-182: the glass branch (103-150) and the others
    (152-181), which differ in the spinner colour and the outline border. *)
Definition render (primaryColor secondaryColor : string) (p : ButtonProps) : ButtonView :=
  let v := b_variant p in
  let isOutline := bool_decide (v = VOutline) in
  let spinner := if bool_decide (v = VGlass) then pal_text COLORS
                 else if isOutline then primaryColor else pal_text COLORS in
  mkButtonView (pressable p) (gradient_colors primaryColor secondaryColor v)
    (if isOutline then Some primaryColor else None)
    (if b_loading p then Spinner spinner else Label (b_title p)).

(** A press: [onPress] runs only when the touchable is enabled. *)
Definition press {S : Type} (p : ButtonProps) (onPress : S -> S) (s : S) : S :=
  if pressable p then onPress s else s.

(** ** CSS hex colours *)

Definition is_hex_digit (c : ascii) : bool :=
  is_digit c || ((97 <=? code c) && (code c <=? 102)) || ((65 <=? code c) && (code c <=? 70)).

(** [#] followed by [n] hexadecimal digits. *)
Definition hex_color (n : nat) (s : string) : bool :=
  match s with
  | String c r => bool_decide (c = "#"%char) && forallb is_hex_digit (list_ascii_of_string r) &&
                  Nat.eqb (String.length r) n
  | EmptyString => false
  end.

(** A colour of the forms [#RRGGBB] and [#RRGGBBAA]. *)
Definition css_hex (s : string) : bool := hex_color 6 s || hex_color 8 s.

(** ** Lemmas *)

Lemma press_disabled {S} (p : ButtonProps) (onPress : S -> S) (s : S) :
  b_disabled p = true \/ b_loading p = true -> press p onPress s = s.
Proof. unfold press, pressable. intros [-> | ->]; [done|by rewrite orb_true_r]. Qed.

Lemma press_enabled {S} (p : ButtonProps) (onPress : S -> S) (s : S) :
  b_disabled p = false -> b_loading p = false -> press p onPress s = onPress s.
Proof. unfold press, pressable. by intros -> ->. Qed.

Lemma hex_color_app (n : nat) (c a : string) :
  hex_color n c = true -> forallb is_hex_digit (list_ascii_of_string a) = true ->
  hex_color (n + String.length a) (with_alpha c a) = true.
Proof.
  unfold with_alpha. destruct c as [|h r]; [done|]. simpl.
  rewrite !andb_true_iff, list_ascii_of_string_app, forallb_app, str_length_app, Nat.eqb_eq.
  intros [[Hh Hr] Hn] Ha. rewrite Hr, Ha. repeat split; [done|apply Nat.eqb_eq; lia].
Qed.

(** The glass variant's colours are [#RRGGBBAA] when the theme's colours
    are [#RRGGBB]. *)
Lemma glass_colors_hex (primaryColor secondaryColor : string) :
  hex_color 6 primaryColor = true -> hex_color 6 secondaryColor = true ->
  hex_color 8 (fst (gradient_colors primaryColor secondaryColor VGlass)) = true /\
  hex_color 8 (snd (gradient_colors primaryColor secondaryColor VGlass)) = true.
Proof. intros Hp Hs. simpl. split; by apply (hex_color_app 6). Qed.
