(* ===== verification/Pages.v ===== *)
(** * The about and Ever AI pages ([src/app/about.tsx], [src/app/everai.tsx])

    Both pages are static text with a few [Button]s that open an address
    with [Linking.openURL].  A page is modelled as its list of link
    buttons, each with the props it passes to [Button] and the address
    its [onPress] opens; a press goes through [Button.press], so it opens
    the address only when the button is enabled, and appends it to the
    log of opened addresses.  The about page's translated title is built
    with a translation function [t], a section variable.

    The file also holds the render of the login screen (login.tsx): its
    two buttons both start the mock login, one a plain touchable disabled
    while loading, the other a glass [Button] given [loading]. *)

From S2P Require Import Prelude JsString Types Constants CountryPicker Button.

(** [Linking.openURL(url)] *)
Inductive LinkEffect : Type := OpenURL (url : string).

Record LinkButton : Type := mkLink {
  lb_props : ButtonProps;
  lb_url : string
}.

Section About.
Variable t : string -> string.

(** The founder's three buttons, about.tsx lines 60-83, all of variant
    [outline]. *)
Definition about_links : list LinkButton :=
  [mkLink (mkButton (t "about.contact") VOutline false false) "mailto:everai@rexent.com";
   mkLink (mkButton "LinkedIn" VOutline false false) "https://linkedin.com";
   mkLink (mkButton "Twitter" VOutline false false) "https://twitter.com"].
End About.

(** The hero button, everai.tsx lines 32-37. *)
Definition everai_hero_link : LinkButton :=
  mkLink (mkButton "Contact Us" VPrimary false false) "mailto:everai@rexent.com".

(** The two buttons of the contact card, lines 130-144. *)
Definition everai_contact_links : list LinkButton :=
  [mkLink (mkButton "everai@rexent.com" VText false false) "mailto:everai@rexent.com";
   mkLink (mkButton "www.everai.com" VText false false) "https://www.example.com"].

Definition everai_links : list LinkButton := everai_hero_link :: everai_contact_links.

(** [onPress={() => Linking.openURL(url)}] behind the button's guard. *)
Definition press_link (l : LinkButton) (log : list LinkEffect) : list LinkEffect :=
  press (lb_props l) (fun log => log ++ [OpenURL (lb_url l)]) log.

(** The button of a page with a given title. *)
Definition link_titled (title : string) (ls : list LinkButton) : option LinkButton :=
  List.find (fun l => String.eqb (b_title (lb_props l)) title) ls.

(** ** The login screen's render *)

(** What login.tsx lines 48-112 show that depends on the state: the
    Google button's label (with the Google logo unless loading) and
    whether it is enabled, and the props of the glass [Button]. *)
Record LoginView : Type := mkLoginView {
  lv_google_enabled : bool;
  lv_google_logo : bool;
  lv_google_label : string;
  lv_button : ButtonProps
}.

Section LoginView.
Variable t : string -> string.

Definition login_view (l : LoginState) : LoginView :=
  mkLoginView (negb (loading l)) (negb (loading l))
    (if loading l then t "auth.loggingIn" else t "auth.loginWithGoogle")
    (mkButton (t "auth.login") VGlass (loading l) false).

(** The touchable of lines 76-89: [disabled={loading}]. *)
Definition press_google (l : LoginState) : LoginState :=
  if lv_google_enabled (login_view l) then handleGoogleLogin l else l.

(** The [Button] of lines 91-98, through its own guard. *)
Definition press_login_button (l : LoginState) : LoginState :=
  press (lv_button (login_view l)) handleGoogleLogin l.
End LoginView.

(** ** Lemmas *)

(** Every link button of both pages is enabled, so a press opens its
    address exactly once. *)
Lemma press_link_opens (t : string -> string) (l : LinkButton) (log : list LinkEffect) :
  l ∈ about_links t ++ everai_links -> press_link l log = log ++ [OpenURL (lb_url l)].
Proof.
  intros Hl. assert (b_disabled (lb_props l) = false /\ b_loading (lb_props l) = false) as [Hd Hlo].
  { repeat (apply elem_of_app in Hl as [Hl|Hl] || apply elem_of_cons in Hl as [->|Hl]);
      try done; by apply elem_of_nil in Hl. }
  unfold press_link. by rewrite press_enabled.
Qed.

(** The Ever AI page's button titled [www.everai.com] opens
    [https://www.example.com]. *)
Lemma everai_website_link (log : list LinkEffect) :
  exists l, link_titled "www.everai.com" everai_links = Some l /\
    press_link l log = log ++ [OpenURL "https://www.example.com"].
Proof. eexists. split; [reflexivity|]. apply press_link_opens with (t := id). set_solver. Qed.

(** Both login buttons do the same: they start the login when none is
    running and are inert while one is. *)
Lemma login_presses_agree (t : string -> string) (l : LoginState) :
  press_google t l = handleGoogleLogin l /\ press_login_button t l = handleGoogleLogin l.
Proof.
  unfold press_google, press_login_button, press, pressable, handleGoogleLogin. simpl.
  by destruct (loading l).
Qed.
