(* ===== verification/Components.v ===== *)
(** * Shared presentational components

    [Card] (components/Card.tsx), [MatrixBackground]
    (components/MatrixBackground.tsx), [FontProvider] and [StyledText]
    (components/FontProvider.tsx) and [ProfileHeader]
    (components/ProfileHeader.tsx).  They hold no state of their own: each
    is a function from its props and the stores it reads to what it shows,
    and is modelled as such.  The colours they build by appending a
    two-digit alpha to a theme colour are written with [Button.with_alpha],
    so that the hex type of [Button] applies to them.  [Platform.OS] is a
    parameter of the card, the one component whose output depends on it. *)

From S2P Require Import Prelude JsString Types Constants Stores LegacyCreate Button.

(** [Platform.OS], as far as the components test it. *)
Inductive OS : Type := OSWeb | OSNative.

(** ** Card *)

(** The props that decide the render; [glass] defaults to [true]
    (line 19), [gradient] to [false] (line 18). *)
Record CardProps : Type := mkCardProps {
  card_gradient : bool;
  card_glass : bool
}.

Definition card_default : CardProps := mkCardProps false true.

(** The glass background: a [BlurView] off the web, a tinted [View] on it. *)
Inductive GlassLayer : Type :=
| BlurLayer (intensity : nat) (tint : string)
| WebGlassLayer (color : string).

Inductive CardView : Type :=
| GlassCard (layer : GlassLayer) (gradient : option (string * string)) (border : string)
| GradientCard (colors : string * string)
| PlainCard.

(** Lines 15-79: the glass card (24-57), the gradient card (60-72) and
    the plain one (74-78). *)
Definition card_view (primaryColor secondaryColor : string) (os : OS) (p : CardProps) : CardView :=
  if card_glass p then
    GlassCard (match os with
               | OSWeb => WebGlassLayer (with_alpha primaryColor "10")
               | OSNative => BlurLayer 20 "dark"
               end)
      (if card_gradient p then Some (with_alpha primaryColor "15", with_alpha secondaryColor "10") else None)
      (with_alpha primaryColor "30")
  else if card_gradient p then GradientCard (with_alpha primaryColor "20", with_alpha secondaryColor "10")
  else PlainCard.

(** The colours a card's render uses. *)
Definition card_colors (v : CardView) : list string :=
  match v with
  | GlassCard l g b =>
    match l with WebGlassLayer c => [c] | BlurLayer _ _ => [] end ++
    match g with Some (c1, c2) => [c1; c2] | None => [] end ++ [b]
  | GradientCard (c1, c2) => [c1; c2]
  | PlainCard => []
  end.

(** ** MatrixBackground *)

Record MatrixView : Type := mkMatrix {
  mx_gradient : string * string;
  mx_overlay : string
}.

(** Lines 30-53: the gradient and the glass overlay.  The opacity loop of
    lines 13-28 is animation only. *)
Definition matrix_background (primaryColor secondaryColor : string) : MatrixView :=
  mkMatrix (with_alpha primaryColor "10", with_alpha secondaryColor "05") (with_alpha primaryColor "05").

Definition matrix_colors (v : MatrixView) : list string :=
  [fst (mx_gradient v); snd (mx_gradient v); mx_overlay v].

(** ** FontProvider and StyledText *)

(** Lines 9-19: [font === 'system' ? undefined : undefined]. *)
Definition fontFamily (font : FontType) : option string :=
  if bool_decide (font = FontSystem) then None else None.

(** Lines 23-35: [{ fontFamily }] when the context's family is truthy,
    [{}] otherwise; the caller's style follows. *)
Definition styled_text_font (ctx : option string) : option string :=
  match ctx with Some f => if String.eqb f "" then None else Some f | None => None end.

(** ** ProfileHeader *)

Section Header.
Variable t : string -> string.
Variable defaultProfileMale : string.

Inductive HeaderView : Type :=
| HeaderLoggedOut (title : string)
| HeaderUser (picture name email platformsText : string) (editButton : option ButtonProps).

(** Lines 14-51.  [onEditProfile] is given or not; the count is
    [connectedPlatforms.length.toString()] put in place of the first
    [{count}] of the translation. *)
Definition profile_header (u : option User) (onEditProfile : bool) : HeaderView :=
  match u with
  | None => HeaderLoggedOut "Not logged in"
  | Some u =>
    HeaderUser (if String.eqb (u_photoUrl u) "" then defaultProfileMale else u_photoUrl u)
      (u_name u) (u_email u)
      (js_replace (t "profile.connectedPlatforms") "{count}"
         (N_to_string (N.of_nat (length (u_connectedPlatforms u)))))
      (if onEditProfile then Some (mkButton (t "profile.editProfile") VOutline false false) else None)
  end.
End Header.

(** Every colour the app derives from the two theme colours by an alpha
    suffix is a [#RRGGBBAA] colour: the cards, the background, the glass
    button, and the highlights of the two selectors. *)
Definition decor_colors_hex (pc sc : string) : Prop :=
  (forall os p, Forall (fun c => hex_color 8 c = true) (card_colors (card_view pc sc os p))) /\
  Forall (fun c => hex_color 8 c = true) (matrix_colors (matrix_background pc sc)) /\
  hex_color 8 (fst (gradient_colors pc sc VGlass)) = true /\
  hex_color 8 (snd (gradient_colors pc sc VGlass)) = true /\
  (forall sel p x y, tile_highlight (renderPlatform pc sel p) = Some (x, y) -> hex_color 8 y = true) /\
  (forall sel tt x y z, tt ∈ type_tiles pc sel -> tt_highlight tt = Some (x, y, z) ->
     hex_color 8 y = true /\ hex_color 8 z = true).

(** ** Lemmas *)

(** A [#RRGGBB] colour with a two-digit alpha is a [#RRGGBBAA] colour. *)
Lemma alpha_hex (c a : string) :
  hex_color 6 c = true -> String.length a = 2 -> forallb is_hex_digit (list_ascii_of_string a) = true ->
  hex_color 8 (with_alpha c a) = true.
Proof. intros Hc Hl Ha. replace 8 with (6 + String.length a) by lia. by apply hex_color_app. Qed.

Ltac alpha_hex := apply alpha_hex; [assumption|reflexivity|reflexivity].

Lemma card_colors_hex (pc sc : string) (os : OS) (p : CardProps) :
  hex_color 6 pc = true -> hex_color 6 sc = true ->
  Forall (fun c => hex_color 8 c = true) (card_colors (card_view pc sc os p)).
Proof.
  intros Hp Hs. unfold card_view.
  destruct (card_glass p), (card_gradient p), os; simpl; repeat constructor; alpha_hex.
Qed.

Lemma matrix_colors_hex (pc sc : string) :
  hex_color 6 pc = true -> hex_color 6 sc = true ->
  Forall (fun c => hex_color 8 c = true) (matrix_colors (matrix_background pc sc)).
Proof. intros Hp Hs. repeat constructor; alpha_hex. Qed.

Lemma platform_highlight_hex (pc : string) sel p x y :
  hex_color 6 pc = true -> tile_highlight (renderPlatform pc sel p) = Some (x, y) -> hex_color 8 y = true.
Proof.
  intros Hp. unfold renderPlatform. simpl. destruct (match sel with Some _ => _ | None => _ end); [|done].
  intros [= <- <-]. change (pc +:+ "15") with (with_alpha pc "15"). alpha_hex.
Qed.

Lemma type_highlight_hex (pc : string) sel tt x y z :
  hex_color 6 pc = true -> tt ∈ type_tiles pc sel -> tt_highlight tt = Some (x, y, z) ->
  hex_color 8 y = true /\ hex_color 8 z = true.
Proof.
  intros Hp Ht. unfold type_tiles in Ht. apply list_elem_of_In, in_map_iff in Ht as (item & <- & _). simpl.
  destruct (match sel with Some _ => _ | None => _ end); [|done]. intros [= <- <- <-].
  change (pc +:+ "20") with (with_alpha pc "20"). change (pc +:+ "30") with (with_alpha pc "30").
  split; alpha_hex.
Qed.

Lemma theme_decor_hex (pc sc : string) :
  hex_color 6 pc = true -> hex_color 6 sc = true -> decor_colors_hex pc sc.
Proof.
  intros Hp Hs. destruct (glass_colors_hex pc sc Hp Hs) as [Hg1 Hg2].
  split; [|split; [|split; [done|split; [done|split]]]].
  - intros. by apply card_colors_hex.
  - by apply matrix_colors_hex.
  - intros sel p x y. by apply platform_highlight_hex.
  - intros sel tt x y z. by apply type_highlight_hex.
Qed.

(** No font family ever reaches a text: [StyledText] adds none whatever
    the theme's font. *)
Lemma styled_text_no_font (f : FontType) : styled_text_font (fontFamily f) = None.
Proof. unfold fontFamily. by case_bool_decide. Qed.

(** C36. The profile header of a logged-in user shows the user's photo (the
    male default when it is empty), name and e-mail, and the translation
    of [profile.connectedPlatforms] with the number of connected platforms
    in place of its first [{count}]: the text before that first
    occurrence, the decimal digits of the count, and the rest.  A
    translation without [{count}] is shown unchanged, without the count. *)
Theorem profile_header_count (t : string -> string) (male : string) (u : User) (onEdit : bool) :
  let tmpl := t "profile.connectedPlatforms" in
  let digits := N_to_string (N.of_nat (length (u_connectedPlatforms u))) in
  exists text,
    profile_header t male (Some u) onEdit =
      HeaderUser (if String.eqb (u_photoUrl u) "" then male else u_photoUrl u) (u_name u) (u_email u) text
        (if onEdit then Some (mkButton (t "profile.editProfile") VOutline false false) else None) /\
    ((exists a b, tmpl = a +:+ "{count}" +:+ b /\
        (forall a' b', tmpl = a' +:+ "{count}" +:+ b' -> String.length a <= String.length a') /\
        text = a +:+ digits +:+ b) \/
     (~ str_contains tmpl "{count}" /\ text = tmpl)).
Proof.
  intros tmpl digits. subst tmpl digits. eexists. split; [reflexivity|]. unfold js_replace.
  destruct (split_first "{count}" (t "profile.connectedPlatforms")) as [[a b]|] eqn:E.
  - left. exists a, b. split; [by apply split_first_sound|]. split; [intros a' b'; by apply (split_first_first _ _ a b)|].
    rewrite get_substitution_plain; [done|].
    apply forallb_forall. intros c Hc. pose proof (N_to_string_digits (N.of_nat (length (u_connectedPlatforms u)))) as Hd.
    rewrite forallb_forall in Hd. specialize (Hd c Hc). apply negb_true_iff.
    destruct (Ascii.eqb_spec c "$") as [->|]; [discriminate|done].
  - right. split; [by apply split_first_none|done].
Qed.
