(* ===== verification/Analytics.v ===== *)
(** * The analytics tab ([src/app/(tabs)/analytics.tsx]) and its chart ([src/components/AnalyticsChart.tsx])

    The tab shows mock statistics for the connected platform the user
    selects.  [generateMockAnalytics] draws every number with
    [getRandomValue(min, max)], which is [Math.floor(Math.random() * (max -
    min + 1)) + min].  It runs in the [Eff] monad of [Runtime], which
    threads [Math.random]'s seed.  The draws follow the evaluation order of
    the object literal: eight fields, then the seven days of the history.
    The history's dates go back from today with [setDate(getDate() - i)],
    modelled by [Dates.setDate].  Today ([new Date()]) and its ISO string
    are parameters.

    The chart draws one bar per history entry, of height
    [(value / max) * CHART_HEIGHT], in rationals, with [CHART_HEIGHT = 150]. *)

From Stdlib Require Import QArith Lqa.
From S2P Require Import Prelude JsString JsValue Random Runtime Types Dates LegacyCreate.

Section Mock.
Context {Seed : Type} `{RandomSource Seed}.
Local Open Scope eff_scope.

(** Lines 14-15. *)
Definition getRandomValue (min max : Z) : @Eff Seed Z :=
  i <- random_index (max - min + 1)%Z ;; st_ret (i + min)%Z.

(** [`${date.getMonth() + 1}/${date.getDate()}`], line 23. *)
Definition history_label (date : JsDate) : string :=
  Z_to_string (month date + 1) +:+ "/" +:+ Z_to_string (day date).

(** The loop of lines 20-28, for [i] from [n] down to [0]. *)
Fixpoint history_loop (today : JsDate) (n : nat) : Eff (list HistoryPoint) :=
  let date := setDate today (day today - Z.of_nat n)%Z in
  v <- getRandomValue 100 1000 ;;
  match n with
  | O => st_ret [mkHistoryPoint (history_label date) v]
  | S n' => rest <- history_loop today n' ;; st_ret (mkHistoryPoint (history_label date) v :: rest)
  end.

(** Lines 17-30. *)
Definition generateHistory (today : JsDate) : Eff (list HistoryPoint) := history_loop today 6.

(** [s.split('T')[0]] *)
Fixpoint before_T (s : string) : string :=
  match s with
  | String c r => if Ascii.eqb c "T"%char then EmptyString else String c (before_T r)
  | EmptyString => EmptyString
  end.

(** Lines 13-45. *)
Definition generateMockAnalytics (today : JsDate) (todayIso : string) (platformId : string) :
    Eff AnalyticsData :=
  views <- getRandomValue 500 5000 ;;
  likes <- getRandomValue 100 1000 ;;
  comments <- getRandomValue 50 500 ;;
  shares <- getRandomValue 10 100 ;;
  posts <- getRandomValue 10 50 ;;
  engagement <- getRandomValue 500 5000 ;;
  followers <- getRandomValue 1000 10000 ;;
  growth <- getRandomValue 1 10 ;;
  history <- generateHistory today ;;
  st_ret (mkAnalyticsData (before_T todayIso) views likes comments shares platformId posts engagement
            followers growth history).
End Mock.

(** ** The screen *)

Record AnalyticsState : Type := mkAnalytics {
  selectedPlatform : option SocialPlatform;
  analyticsData : option AnalyticsData
}.

Definition analytics0 : AnalyticsState := mkAnalytics None None.

(** Lines 63-65, followed by the effect of lines 53-61: each selection
    stores a fresh platform object (the selector builds its list anew
    each render), so the effect runs and draws new data.  Its module
    keeps it apart from the create tab's handler of the same name. *)
Module AnalyticsTab.
Definition handleSelectPlatform {Seed} `{RandomSource Seed} (today : JsDate) (todayIso : string)
    (platform : SocialPlatform) (s : AnalyticsState) : @Eff Seed AnalyticsState :=
  (data <- generateMockAnalytics today todayIso (sp_id platform) ;;
   st_ret (mkAnalytics (Some platform) (Some data)))%eff.
End AnalyticsTab.
Import AnalyticsTab.

(** [type: 'posts' | 'engagement' | 'followers' | 'growth'] *)
Inductive ChartType : Type := CPosts | CEngagement | CFollowers | CGrowth.

(** [getValue()], lines 38-51: a number, or the growth with a [%]. *)
Definition chart_value (data : AnalyticsData) (type : ChartType) : string :=
  match type with
  | CPosts => Z_to_string (ad_posts data)
  | CEngagement => Z_to_string (ad_engagement data)
  | CFollowers => Z_to_string (ad_followers data)
  | CGrowth => Z_to_string (ad_growth data) +:+ "%"
  end.

Definition CHART_HEIGHT : Q := 150.

(** [Math.max(...data.history.map(item => item.value))] on a non-empty history. *)
Definition max_value (h : list HistoryPoint) : Z :=
  match h with
  | [] => 0
  | p :: ps => fold_left (fun m q => Z.max m (hp_value q)) ps (hp_value p)
  end.

(** Lines 53-80: no bars for an empty history, else one bar per entry
    with its height and label. *)
Definition renderChart (data : AnalyticsData) : option (list (Q * string)) :=
  match ad_history data with
  | [] => None
  | h => Some (map (fun item => (((inject_Z (hp_value item) / inject_Z (max_value h)) * CHART_HEIGHT)%Q,
                                hp_date item)) h)
  end.

(** What the tab shows, lines 66-139; the selector offers
    [selector_platforms true] of the user's connected platforms. *)
Inductive AnalyticsView : Type :=
| LoginRequired
| NoPlatforms
| SelectPrompt (platforms : list SocialPlatform)
| Charts (platforms : list SocialPlatform) (platform : SocialPlatform) (data : AnalyticsData)
         (charts : list ChartType).

Definition render_analytics (u : option User) (s : AnalyticsState) : AnalyticsView :=
  match u with
  | None => LoginRequired
  | Some u =>
    match u_connectedPlatforms u with
    | [] => NoPlatforms
    | ps =>
      match selectedPlatform s, analyticsData s with
      | Some p, Some d => Charts (selector_platforms true ps) p d [CEngagement; CFollowers; CPosts]
      | _, _ => SelectPrompt (selector_platforms true ps)
      end
    end
  end.

(** ** Lemmas *)

Section MockLemmas.
Context {Seed : Type} `{RandomSource Seed}.

Lemma getRandomValue_spec (lo hi : Z) (w : @World Seed) :
  (lo <= hi)%Z ->
  exists v s', getRandomValue lo hi w = (Ok v, mkWorld s' (w_net w) (w_sent w)) /\ (lo <= v <= hi)%Z.
Proof.
  intros Hle. unfold getRandomValue, st_bind.
  destruct (random_index_spec (hi - lo + 1) w) as (i & s' & -> & Hi & _); [lia|].
  exists (i + lo)%Z, s'. split; [done|lia].
Qed.

Lemma history_loop_spec (today : JsDate) (n : nat) (w : @World Seed) :
  exists h s', history_loop today n w = (Ok h, mkWorld s' (w_net w) (w_sent w)) /\
    length h = S n /\ Forall (fun p => (100 <= hp_value p <= 1000)%Z) h.
Proof.
  revert w. induction n as [|n IH]; intros w; simpl; unfold st_bind;
    destruct (getRandomValue_spec 100 1000 w) as (v & s1 & -> & Hv); try lia.
  - eexists _, s1. split; [reflexivity|]. split; [done|]. constructor; [simpl; lia|constructor].
  - destruct (IH (mkWorld s1 (w_net w) (w_sent w))) as (h & s2 & -> & Hl & Hf).
    eexists _, s2. split; [reflexivity|]. simpl. split; [by rewrite Hl|]. constructor; [simpl; lia|done].
Qed.
End MockLemmas.

(** The running maximum bounds every value seen, and is the start or one
    of them. *)
Lemma max_value_fold (ps : list HistoryPoint) (acc : Z) :
  let m := fold_left (fun m q => Z.max m (hp_value q)) ps acc in
  (acc <= m)%Z /\ Forall (fun q => hp_value q <= m)%Z ps /\ (m = acc \/ Exists (fun q => hp_value q = m) ps).
Proof.
  revert acc. induction ps as [|q ps IH]; intros acc; simpl; [split; [lia|split; [constructor|by left]]|].
  destruct (IH (Z.max acc (hp_value q))) as (H1 & H2 & H3). split; [lia|]. split.
  - constructor; [lia|done].
  - destruct H3 as [E|E]; [|right; by right]. rewrite E.
    destruct (Z.max_spec acc (hp_value q)) as [[_ ->]|[_ ->]]; [right; by left|by left].
Qed.

Lemma max_value_spec (h : list HistoryPoint) :
  h <> [] ->
  Forall (fun q => hp_value q <= max_value h)%Z h /\ Exists (fun q => hp_value q = max_value h) h.
Proof.
  destruct h as [|p ps]; [done|]. intros _. simpl.
  destruct (max_value_fold ps (hp_value p)) as (H1 & H2 & [E|E]).
  - split; [constructor; [lia|done]|]. left. by rewrite E.
  - split; [constructor; [lia|done]|]. by right.
Qed.

Section ChartLemmas.
Local Open Scope Q_scope.

Lemma inject_Z_pos (z : Z) : (0 < z)%Z -> 0 < inject_Z z.
Proof. intros Hz. change 0 with (inject_Z 0). by rewrite <- Zlt_Qlt. Qed.

(** A bar of a positive value at most the maximum is within the chart. *)
Lemma bar_bounds (v M : Z) :
  (0 < v)%Z -> (v <= M)%Z ->
  0 < (inject_Z v / inject_Z M) * CHART_HEIGHT /\ (inject_Z v / inject_Z M) * CHART_HEIGHT <= CHART_HEIGHT.
Proof.
  intros Hv HvM. assert (HM : 0 < inject_Z M) by (apply inject_Z_pos; lia).
  assert (Hx0 : 0 < inject_Z v / inject_Z M).
  { apply Qlt_shift_div_l; [done|]. rewrite Qmult_0_l. by apply inject_Z_pos. }
  assert (Hx1 : inject_Z v / inject_Z M <= 1).
  { apply Qle_shift_div_r; [done|]. rewrite Qmult_1_l, <- Zle_Qle. lia. }
  unfold CHART_HEIGHT. split; nra.
Qed.

Lemma bar_max (M : Z) : (0 < M)%Z -> (inject_Z M / inject_Z M) * CHART_HEIGHT == CHART_HEIGHT.
Proof.
  intros HM. assert (HQ : ~ inject_Z M == 0) by (apply Qnot_eq_sym, Qlt_not_eq, inject_Z_pos, HM).
  unfold CHART_HEIGHT. field. done.
Qed.

(** The chart of a non-empty history of positive values: one bar per
    entry, each of height in [(0, CHART_HEIGHT]], the highest at
    [CHART_HEIGHT]. *)
Lemma renderChart_bounds (d : AnalyticsData) :
  ad_history d <> [] -> Forall (fun q => 0 < hp_value q)%Z (ad_history d) ->
  exists bars, renderChart d = Some bars /\ length bars = length (ad_history d) /\
    Forall (fun b => 0 < fst b /\ fst b <= CHART_HEIGHT) bars /\ Exists (fun b => fst b == CHART_HEIGHT) bars.
Proof.
  unfold renderChart. intros Hne Hpos. destruct (ad_history d) as [|p ps] eqn:Eh; [done|].
  destruct (max_value_spec (p :: ps)) as [Hle Hex]; [done|].
  assert (HM : (0 < max_value (p :: ps))%Z) by (apply Forall_inv in Hpos, Hle; lia).
  eexists. split; [reflexivity|]. rewrite length_map. split; [done|]. split.
  - apply Forall_map. apply Forall_forall. intros q Hq. simpl.
    apply bar_bounds; [apply (proj1 (Forall_forall _ _) Hpos q Hq)|apply (proj1 (Forall_forall _ _) Hle q Hq)].
  - apply Exists_map. eapply Exists_impl; [exact Hex|]. intros q Eq. simpl. rewrite Eq. by apply bar_max.
Qed.
End ChartLemmas.

Section Generated.
Context {Seed : Type} `{RandomSource Seed}.

(** One draw of [getRandomValue] in a chain of binds, by its
    specification [spec]. *)
Local Ltac draw spec :=
  match goal with
  | |- context [st_bind (getRandomValue ?lo ?hi) ?k ?w] =>
    let v := fresh "v" in let s := fresh "s" in let E := fresh "E" in let Hv := fresh "Hv" in
    destruct (spec lo hi w) as (v & s & E & Hv); [lia|];
    rewrite (st_bind_ok _ k w v _ E)
  end.

Lemma generateMockAnalytics_spec (today : JsDate) (todayIso p : string) (w : @World Seed) :
  exists d s', generateMockAnalytics today todayIso p w = (Ok d, mkWorld s' (w_net w) (w_sent w)) /\
    ad_platform d = p /\
    (500 <= ad_views d <= 5000)%Z /\ (100 <= ad_likes d <= 1000)%Z /\ (50 <= ad_comments d <= 500)%Z /\
    (10 <= ad_shares d <= 100)%Z /\ (10 <= ad_posts d <= 50)%Z /\ (500 <= ad_engagement d <= 5000)%Z /\
    (1000 <= ad_followers d <= 10000)%Z /\ (1 <= ad_growth d <= 10)%Z /\
    length (ad_history d) = 7 /\ Forall (fun q => (100 <= hp_value q <= 1000)%Z) (ad_history d).
Proof.
  unfold generateMockAnalytics, generateHistory. do 8 draw getRandomValue_spec.
  match goal with
  | |- context [st_bind (history_loop today 6) ?k ?w'] =>
    destruct (history_loop_spec today 6 w') as (h & s' & Eh & Hl & Hf); rewrite (st_bind_ok _ k w' h _ Eh)
  end.
  eexists _, s'. split; [reflexivity|]. simpl. done.
Qed.

(** C35. Selecting a platform on the analytics tab always succeeds and
    sends no request: the state holds the platform and the generated data,
    whose platform is the selected one's id, whose eight figures lie in the
    ranges [generateMockAnalytics] draws them from, and whose history has
    seven days; its chart has seven bars, each of height in
    [(0, CHART_HEIGHT]], the highest exactly [CHART_HEIGHT]. *)
Theorem select_platform_charts (today : JsDate) (todayIso : string) (pl : SocialPlatform)
    (st0 : AnalyticsState) (w : @World Seed) :
  exists d s', handleSelectPlatform today todayIso pl st0 w =
                 (Ok (mkAnalytics (Some pl) (Some d)), mkWorld s' (w_net w) (w_sent w)) /\
    ad_platform d = sp_id pl /\
    (500 <= ad_views d <= 5000)%Z /\ (100 <= ad_likes d <= 1000)%Z /\ (50 <= ad_comments d <= 500)%Z /\
    (10 <= ad_shares d <= 100)%Z /\ (10 <= ad_posts d <= 50)%Z /\ (500 <= ad_engagement d <= 5000)%Z /\
    (1000 <= ad_followers d <= 10000)%Z /\ (1 <= ad_growth d <= 10)%Z /\
    exists bars, renderChart d = Some bars /\ length bars = 7 /\
      Forall (fun b => 0 < fst b /\ fst b <= CHART_HEIGHT)%Q bars /\ Exists (fun b => fst b == CHART_HEIGHT)%Q bars.
Proof.
  destruct (generateMockAnalytics_spec today todayIso (sp_id pl) w) as (d & s' & E & Hp & R1 & R2 & R3 & R4 & R5 & R6 & R7 & R8 & Hl & Hf).
  unfold handleSelectPlatform. rewrite (st_bind_ok _ _ _ d _ E). exists d, s'.
  destruct (renderChart_bounds d) as (bars & Eb & Lb & Fb & Xb).
  - by intros Hn; rewrite Hn in Hl.
  - eapply Forall_impl; [exact Hf|]. intros q Hq; simpl in Hq; lia.
  - split; [reflexivity|]. do 9 (split; [done|]). exists bars. by rewrite Lb, Hl.
Qed.
End Generated.
