(* ===== verification/ProfileEdit.v ===== *)
(** * The profile editor screen ([src/app/profile/edit.tsx])

    The screen's local state is its twelve [useState] hooks.  The fields
    start from the signed-in user (lines 33-44).  The mount effect (lines
    47-76) then chooses the country, the date of birth and the picture.

    The handlers are the following.
    - The text inputs and the two password toggles.
    - The country and date pickers' callbacks.
    - The picture modal: two default pictures, and the library picker
      [pickImage].  [pickImage] awaits a permission and then the
      library; each [await] is a pending answer, counted because a second
      press starts a second flow.
    - [handleSavePress] (lines 138-143).  It validates the form, sets
      [loading] and starts the one-second timer.  The timer's closure
      holds the [user] and the fields of that render.  The timer itself
      is run by the app shell ([Navigation]), which owns the user store
      and the router.

    The screen shows alerts, returned as [EditEffect]s.  The images and
    the country table are in files the repository does not contain.  So
    are [new Date(s)] and [toISOString], which depend on the device's time
    zone.  All of them are section variables. *)

From S2P Require Import Prelude JsString Types Stores Dates ProfileForm Button.

(** An alert of the screen: the title's key and the message (a key, or
    the text written in the source). *)
Inductive EditEffect : Type := EAlert (title message : string).

Record EditState : Type := mkEdit {
  ed_name : string;
  ed_email : string;
  ed_photoUrl : string;
  ed_phoneNumber : string;
  ed_selectedCountry : option CountryCode;
  ed_dateOfBirth : option JsDate;
  ed_password : string;
  ed_confirmPassword : string;
  ed_showPassword : bool;
  ed_showConfirmPassword : bool;
  ed_loading : bool;
  ed_showProfilePicker : bool;
  ed_awaitingPermission : nat;    (** [pickImage] flows waiting for the permission *)
  ed_awaitingLibrary : nat        (** flows waiting for the library picker *)
}.

Inductive edit_event : Type :=
| SetName (v : string) | SetEmail (v : string) | SetPhoneNumber (v : string)
| SetPassword (v : string) | SetConfirmPassword (v : string)
| ToggleShowPassword | ToggleShowConfirmPassword
| SelectCountry (c : CountryCode)          (** [onSelectCountry={setSelectedCountry}] *)
| SelectDate (d : JsDate)                  (** [onSelectDate={setDateOfBirth}] *)
| OpenProfilePicker | CloseProfilePicker
| SelectDefaultMale | SelectDefaultFemale
| PickImage
| PermissionAnswered (granted : bool)
| LibraryAnswered (uri : option string)    (** [None] when [result.canceled] *)
| Save.

Section Edit.
Variables (COUNTRY_CODES : list CountryCode) (defaultProfileMale defaultProfileFemale : string).
(** [new Date(s)] and [Date.prototype.toISOString]. *)
Variables (parseDate : string -> JsDate) (toISOString : JsDate -> string).

(** [x || ''] on an optional string. *)
Definition or_empty (o : option string) : string := default "" o.

(** A string's truthiness. *)
Definition truthy_str (o : option string) : option string :=
  match o with Some s => if String.eqb s "" then None else Some s | None => None end.

(** Lines 33-44. *)
Definition edit_init (u : option User) : EditState :=
  mkEdit (or_empty (u_name <$> u)) (or_empty (u_email <$> u)) (or_empty (u_photoUrl <$> u))
    (or_empty (u ≫= u_phoneNumber)) None None "" "" false false false false 0 0.

(** Lines 47-76: the effect, run when the screen mounts with [user]. *)
Definition init_effect (u : option User) (s : EditState) : EditState :=
  let country :=
    match truthy_str (u ≫= u_countryCode) with
    | Some code =>
      match List.find (fun c => String.eqb (cc_dialCode c) code) COUNTRY_CODES with
      | Some c => Some c
      | None => ed_selectedCountry s
      end
    | None => head COUNTRY_CODES
    end in
  let dob :=
    match truthy_str (u ≫= u_dateOfBirth) with
    | Some d => Some (parseDate d)
    | None => ed_dateOfBirth s
    end in
  mkEdit (ed_name s) (ed_email s) (initial_photo defaultProfileMale defaultProfileFemale u)
    (ed_phoneNumber s) country dob (ed_password s) (ed_confirmPassword s)
    (ed_showPassword s) (ed_showConfirmPassword s) (ed_loading s) (ed_showProfilePicker s)
    (ed_awaitingPermission s) (ed_awaitingLibrary s).

(** The screen as it is after mounting. *)
Definition edit_mount (u : option User) : EditState := init_effect u (edit_init u).

(** The values [validateForm] reads and the timer stores. *)
Definition form_fields (s : EditState) : ProfileFields :=
  mkProfileFields (ed_name s) (ed_email s) (ed_photoUrl s) (ed_phoneNumber s)
    (cc_dialCode <$> ed_selectedCountry s) (toISOString <$> ed_dateOfBirth s)
    (ed_password s) (ed_confirmPassword s).

(** A record update of the screen's state. *)
Definition ed_set_photo (url : string) (closePicker : bool) (s : EditState) : EditState :=
  mkEdit (ed_name s) (ed_email s) url (ed_phoneNumber s) (ed_selectedCountry s) (ed_dateOfBirth s)
    (ed_password s) (ed_confirmPassword s) (ed_showPassword s) (ed_showConfirmPassword s)
    (ed_loading s) (if closePicker then false else ed_showProfilePicker s)
    (ed_awaitingPermission s) (ed_awaitingLibrary s).

Definition ed_set_picker (b : bool) (s : EditState) : EditState :=
  mkEdit (ed_name s) (ed_email s) (ed_photoUrl s) (ed_phoneNumber s) (ed_selectedCountry s)
    (ed_dateOfBirth s) (ed_password s) (ed_confirmPassword s) (ed_showPassword s)
    (ed_showConfirmPassword s) (ed_loading s) b (ed_awaitingPermission s) (ed_awaitingLibrary s).

Definition ed_set_awaiting (p l : nat) (s : EditState) : EditState :=
  mkEdit (ed_name s) (ed_email s) (ed_photoUrl s) (ed_phoneNumber s) (ed_selectedCountry s)
    (ed_dateOfBirth s) (ed_password s) (ed_confirmPassword s) (ed_showPassword s)
    (ed_showConfirmPassword s) (ed_loading s) (ed_showProfilePicker s) p l.

Definition ed_set_loading (b : bool) (s : EditState) : EditState :=
  mkEdit (ed_name s) (ed_email s) (ed_photoUrl s) (ed_phoneNumber s) (ed_selectedCountry s)
    (ed_dateOfBirth s) (ed_password s) (ed_confirmPassword s) (ed_showPassword s)
    (ed_showConfirmPassword s) b (ed_showProfilePicker s) (ed_awaitingPermission s) (ed_awaitingLibrary s).

(** Lines 78-94, after the permission's [await]. *)
Definition handlePermission (granted : bool) (s : EditState) : EditState * list EditEffect :=
  let s' := ed_set_awaiting (pred (ed_awaitingPermission s)) (ed_awaitingLibrary s) s in
  if granted then (ed_set_awaiting (ed_awaitingPermission s') (S (ed_awaitingLibrary s')) s', [])
  else (s', [EAlert "Permission Denied" "Sorry, we need camera roll permissions to make this work!"]).

(** After the library's [await]: the picked picture, and the modal closed. *)
Definition handleLibrary (uri : option string) (s : EditState) : EditState :=
  let s' := ed_set_awaiting (ed_awaitingPermission s) (pred (ed_awaitingLibrary s)) s in
  match uri with Some u => ed_set_photo u true s' | None => s' end.

(** Lines 138-143: the alert of the first failed check, or [loading] set
    and the timer's closure: the render's [user] and fields. *)
Definition handleSavePress (u : option User) (s : EditState) :
    EditState * list EditEffect * option (option User * ProfileFields) :=
  match validateForm (form_fields s) with
  | Some key => (s, [EAlert "common.error" key], None)
  | None => (ed_set_loading true s, [], Some (u, form_fields s))
  end.

(** What the render offers ([Modal visible={showProfilePicker}], the save
    [Button] with [loading]) and which awaits are pending. *)
Definition edit_available (s : EditState) (e : edit_event) : bool :=
  match e with
  | SelectDefaultMale | SelectDefaultFemale | PickImage | CloseProfilePicker => ed_showProfilePicker s
  | PermissionAnswered _ => (0 <? ed_awaitingPermission s)%nat
  | LibraryAnswered _ => (0 <? ed_awaitingLibrary s)%nat
  | Save => pressable (mkButton "common.save" VPrimary (ed_loading s) false)
  | _ => true
  end.

(** One event of the screen, with the signed-in [user] of the render. *)
Definition edit_step (u : option User) (s : EditState) (e : edit_event) :
    EditState * list EditEffect * option (option User * ProfileFields) :=
  let upd f := (f s, [], None) in
  match e with
  | SetName v => upd (fun s => mkEdit v (ed_email s) (ed_photoUrl s) (ed_phoneNumber s) (ed_selectedCountry s)
      (ed_dateOfBirth s) (ed_password s) (ed_confirmPassword s) (ed_showPassword s) (ed_showConfirmPassword s)
      (ed_loading s) (ed_showProfilePicker s) (ed_awaitingPermission s) (ed_awaitingLibrary s))
  | SetEmail v => upd (fun s => mkEdit (ed_name s) v (ed_photoUrl s) (ed_phoneNumber s) (ed_selectedCountry s)
      (ed_dateOfBirth s) (ed_password s) (ed_confirmPassword s) (ed_showPassword s) (ed_showConfirmPassword s)
      (ed_loading s) (ed_showProfilePicker s) (ed_awaitingPermission s) (ed_awaitingLibrary s))
  | SetPhoneNumber v => upd (fun s => mkEdit (ed_name s) (ed_email s) (ed_photoUrl s) v (ed_selectedCountry s)
      (ed_dateOfBirth s) (ed_password s) (ed_confirmPassword s) (ed_showPassword s) (ed_showConfirmPassword s)
      (ed_loading s) (ed_showProfilePicker s) (ed_awaitingPermission s) (ed_awaitingLibrary s))
  | SetPassword v => upd (fun s => mkEdit (ed_name s) (ed_email s) (ed_photoUrl s) (ed_phoneNumber s)
      (ed_selectedCountry s) (ed_dateOfBirth s) v (ed_confirmPassword s) (ed_showPassword s)
      (ed_showConfirmPassword s) (ed_loading s) (ed_showProfilePicker s) (ed_awaitingPermission s) (ed_awaitingLibrary s))
  | SetConfirmPassword v => upd (fun s => mkEdit (ed_name s) (ed_email s) (ed_photoUrl s) (ed_phoneNumber s)
      (ed_selectedCountry s) (ed_dateOfBirth s) (ed_password s) v (ed_showPassword s)
      (ed_showConfirmPassword s) (ed_loading s) (ed_showProfilePicker s) (ed_awaitingPermission s) (ed_awaitingLibrary s))
  | ToggleShowPassword => upd (fun s => mkEdit (ed_name s) (ed_email s) (ed_photoUrl s) (ed_phoneNumber s)
      (ed_selectedCountry s) (ed_dateOfBirth s) (ed_password s) (ed_confirmPassword s) (negb (ed_showPassword s))
      (ed_showConfirmPassword s) (ed_loading s) (ed_showProfilePicker s) (ed_awaitingPermission s) (ed_awaitingLibrary s))
  | ToggleShowConfirmPassword => upd (fun s => mkEdit (ed_name s) (ed_email s) (ed_photoUrl s) (ed_phoneNumber s)
      (ed_selectedCountry s) (ed_dateOfBirth s) (ed_password s) (ed_confirmPassword s) (ed_showPassword s)
      (negb (ed_showConfirmPassword s)) (ed_loading s) (ed_showProfilePicker s) (ed_awaitingPermission s) (ed_awaitingLibrary s))
  | SelectCountry c => upd (fun s => mkEdit (ed_name s) (ed_email s) (ed_photoUrl s) (ed_phoneNumber s)
      (Some c) (ed_dateOfBirth s) (ed_password s) (ed_confirmPassword s) (ed_showPassword s)
      (ed_showConfirmPassword s) (ed_loading s) (ed_showProfilePicker s) (ed_awaitingPermission s) (ed_awaitingLibrary s))
  | SelectDate d => upd (fun s => mkEdit (ed_name s) (ed_email s) (ed_photoUrl s) (ed_phoneNumber s)
      (ed_selectedCountry s) (Some d) (ed_password s) (ed_confirmPassword s) (ed_showPassword s)
      (ed_showConfirmPassword s) (ed_loading s) (ed_showProfilePicker s) (ed_awaitingPermission s) (ed_awaitingLibrary s))
  | OpenProfilePicker => upd (ed_set_picker true)                    (** lines 101-103 *)
  | CloseProfilePicker => upd (ed_set_picker false)                  (** 296, 332 *)
  | SelectDefaultMale => upd (ed_set_photo defaultProfileMale true)   (** 96-99 *)
  | SelectDefaultFemale => upd (ed_set_photo defaultProfileFemale true)
  | PickImage => upd (fun s => ed_set_awaiting (S (ed_awaitingPermission s)) (ed_awaitingLibrary s) s)
  | PermissionAnswered g => let '(s', fx) := handlePermission g s in (s', fx, None)
  | LibraryAnswered r => upd (handleLibrary r)
  | Save => handleSavePress u s
  end.
End Edit.

(** ** Lemmas *)

Lemma or_undefined_or_empty (o : option string) : or_undefined (or_empty o) = truthy_str o.
Proof. by destruct o. Qed.

Lemma find_dial (C : list CountryCode) (code : string) :
  (cc_dialCode <$> List.find (fun c => String.eqb (cc_dialCode c) code) C) =
  if existsb (fun c => String.eqb (cc_dialCode c) code) C then Some code else None.
Proof.
  induction C as [|c C IH]; [done|]. simpl.
  destruct (String.eqb (cc_dialCode c) code) eqn:E; simpl; [|exact IH]. apply String.eqb_eq in E. by rewrite E.
Qed.

(** ** Properties *)

(** C34. Opening the editor and saving at once does not store the user
    unchanged.  The name, e-mail and connected platforms are kept; the
    picture is the mount effect's ([initial_photo]); an empty phone
    number becomes [undefined].  A country code missing from
    [COUNTRY_CODES] is erased, and a user without one gets the first
    entry's code.  The date of birth is the engine's re-serialisation
    [toISOString(new Date(d))]. *)
Theorem edit_unchanged_save (C : list CountryCode) (m fm : string) (parse : string -> JsDate)
    (iso : JsDate -> string) (u : User) :
  saved_user u (form_fields iso (edit_mount C m fm parse (Some u))) =
    mkUser (u_id u) (u_name u) (u_email u) (initial_photo m fm (Some u)) (u_connectedPlatforms u)
      (truthy_str (u_phoneNumber u))
      (match truthy_str (u_countryCode u) with
       | Some code => if existsb (fun c => String.eqb (cc_dialCode c) code) C then Some code else None
       | None => head C ≫= fun c => truthy_str (Some (cc_dialCode c))
       end)
      (truthy_str (u_dateOfBirth u) ≫= fun d => truthy_str (Some (iso (parse d)))).
Proof.
  unfold saved_user, form_fields, edit_mount, init_effect, edit_init. simpl.
  rewrite or_undefined_or_empty. f_equal.
  - destruct (truthy_str (u_countryCode u)) as [code|] eqn:Hc; simpl.
    + rewrite <- find_dial. destruct (List.find _ C) as [c|] eqn:Hf; [|done]. simpl.
      apply find_some in Hf as [_ Hd]. apply String.eqb_eq in Hd. rewrite Hd.
      destruct (u_countryCode u) as [c'|]; simpl in Hc; [|done].
      destruct (String.eqb c' "") eqn:He; [done|]. injection Hc as <-. unfold or_undefined. by rewrite He.
    + by destruct C.
  - by destruct (truthy_str (u_dateOfBirth u)).
Qed.
