(* ===== verification/Navigation.v ===== *)
(** * The app shell: root layout, splash, routes and the screens' navigation

    Sources: [src/app/_layout.tsx] (the root layout), [src/app/index.tsx]
    (the splash), [src/app/(tabs)/_layout.tsx] (the tab bar) and
    [src/app/(tabs)/index.tsx] (the home tab).  The navigation calls of the
    login, settings and profile screens are also modelled here.

    The router is a stack of routes; its head is the screen shown.  The
    operations are [push], [replace] (of the head) and [back], which does
    nothing on a one-route stack.  A push of a tab route while a tab is
    shown switches the tab, as the tab navigator does.

    The app state holds the router, the three stores the screens write,
    and the callbacks that are pending:
    - the root layout's [prepare()] promise;
    - the splash's 2-second timer;
    - the login screen's 1.5-second wait;
    - the profile editor's 1-second save timers, with the [user] and the
      form each closure captured.  They form a queue, because reopening
      the editor lets a second save start while the first is pending.
    - the picture picker's awaits, kept in the mounted editor's state
      ([ProfileEdit]).  A push of [/profile/edit] mounts a fresh editor.

    An event is a press the rendered screen offers (as decided by
    [app_available]) or the firing of a pending callback or effect
    ([is_env]).  Time is not modelled: a pending callback may fire after
    any number of presses. *)

From Stdlib Require Import Wellfounded.Inclusion.
From S2P Require Import Prelude JsString Types Constants Stores I18n Dates ProfileForm CountryPicker Settings Button Components ProfileEdit.

Inductive Tab : Type := TabHome | TabCreate | TabAnalytics | TabSettings.

Inductive Route : Type :=
| RSplash                       (** app/index.tsx *)
| RLogin                        (** app/login.tsx *)
| RTabs (t : Tab)               (** app/(tabs) *)
| RAbout | REverAi               (** app/about.tsx, app/everai.tsx *)
| RProfileEdit                  (** app/profile/edit.tsx *)
| RUnmatched (path : string).

#[export] Instance Tab_eq_dec : EqDecision Tab.
Proof. solve_decision. Defined.
#[export] Instance Route_eq_dec : EqDecision Route.
Proof. solve_decision. Defined.

(** The file-based routes of [src/app] for the paths the code uses. *)
Definition parse_route (path : string) : Route :=
  if String.eqb path "/" then RSplash
  else if String.eqb path "/login" then RLogin
  else if String.eqb path "/(tabs)" then RTabs TabHome
  else if String.eqb path "/(tabs)/create" then RTabs TabCreate
  else if String.eqb path "/(tabs)/analytics" then RTabs TabAnalytics
  else if String.eqb path "/(tabs)/settings" then RTabs TabSettings
  else if String.eqb path "/about" then RAbout
  else if String.eqb path "/everai" then REverAi
  else if String.eqb path "/profile/edit" then RProfileEdit
  else RUnmatched path.

Definition is_tab (r : Route) : bool := match r with RTabs _ => true | _ => false end.

Definition router_push (path : string) (stack : list Route) : list Route :=
  let r := parse_route path in
  match stack with
  | top :: rest => if is_tab top && is_tab r then r :: rest else r :: stack
  | [] => [r]
  end.

Definition router_replace (path : string) (stack : list Route) : list Route :=
  parse_route path :: tail stack.

Definition router_back (stack : list Route) : list Route :=
  match stack with
  | _ :: (_ :: _) as rest => rest
  | _ => stack
  end.

(** A router call. *)
Inductive RouterOp : Type := Push (path : string) | Replace (path : string).

Definition router_apply (op : RouterOp) (stack : list Route) : list Route :=
  match op with Push p => router_push p stack | Replace p => router_replace p stack end.

(** The router calls of the settings handlers (settings.tsx 32-46, 67). *)
Definition settings_nav (e : settings_event) : option RouterOp :=
  match e with
  | EditProfile => Some (Push "/profile/edit")
  | About => Some (Push "/about")
  | EverAi => Some (Push "/everai")
  | Logout => Some (Replace "/login")
  | _ => None
  end.

(** What the sources import from files the repository does not contain:
    the default pictures of [constants/images], the table
    [COUNTRY_CODES], and the engine's [new Date(s)] and [toISOString]. *)
Record Env : Type := mkEnv {
  env_male : string;
  env_female : string;
  env_countries : list CountryCode;
  env_parseDate : string -> JsDate;
  env_toISOString : JsDate -> string
}.

Section App.
Variable env : Env.

Record App : Type := mkApp {
  appIsReady : bool;                         (** _layout.tsx 30 *)
  prepare_pending : bool;                    (** the [prepare()] promise, 34-54 *)
  splash_timer : bool;                       (** index.tsx 18-24 *)
  login : LoginState;                        (** login.tsx 22 and its wait *)
  edit : EditState;                          (** the profile editor's hooks *)
  saving : list (option User * ProfileFields);  (** pending save timers, edit.tsx 145-159 *)
  users : UserStore.state;
  theme : ThemeStore.state;
  lang : LanguageState;
  stack : list Route
}.

Definition edit0 : EditState := edit_init None.

(** A persisted store state, before the root layout has prepared. *)
Definition app_init (us : UserStore.state) (th : ThemeStore.state) (l : LanguageState) : App :=
  mkApp false true false (mkLogin false false) edit0 [] us th l [RSplash].

Definition top (s : App) : option Route := head (stack s).

(** A new stack; a profile editor that becomes shown mounts afresh. *)
Definition with_stack (s : App) (st : list Route) : App :=
  let ed := if bool_decide (head st = Some RProfileEdit) && negb (bool_decide (top s = Some RProfileEdit))
            then edit_mount (env_countries env) (env_male env) (env_female env) (env_parseDate env)
                   (UserStore.user (users s))
            else edit s in
  mkApp (appIsReady s) (prepare_pending s) (splash_timer s) (login s) ed (saving s)
        (users s) (theme s) (lang s) st.

Inductive app_event : Type :=
| PrepareDone (ok : bool)         (** [loadFont] resolved or rejected *)
| SplashTimer
| HomeGuard                       (** the home tab's effect, (tabs)/index.tsx 22-26 *)
| LoginPress
| LoginTimer
| HomeEditProfile | HomeCreate | HomeAnalytics
| TabPress (t : Tab)
| SettingsEv (e : settings_event)
| EditEv (e : edit_event)
| SaveTimer
| Back.

(** The pickers' answers are promises, pending like the timers. *)
Definition is_env (e : app_event) : bool :=
  match e with
  | PrepareDone _ | SplashTimer | HomeGuard | LoginTimer | SaveTimer => true
  | EditEv (PermissionAnswered _) | EditEv (LibraryAnswered _) => true
  | _ => false
  end.

(** _layout.tsx 34-54: the font set to [system] whether [loadFont]
    succeeds or not, then [appIsReady]; the [Slot] then mounts the
    splash, whose effect starts the timer. *)
Definition handlePrepareDone (s : App) : App :=
  mkApp true false (bool_decide (top s = Some RSplash)) (login s) (edit s) (saving s)
        (users s) (ThemeStore.setFont FontSystem (theme s)) (lang s) (stack s).

(** index.tsx 18-24. *)
Definition handleSplashTimer (s : App) : App :=
  let s' := mkApp (appIsReady s) (prepare_pending s) false (login s) (edit s) (saving s) (users s)
                  (theme s) (lang s) (stack s) in
  with_stack s' (router_replace (if UserStore.isLoggedIn (users s) then "/(tabs)" else "/login") (stack s)).

(** login.tsx 31-42: the user stored, then [replace('/(tabs)')]. *)
Definition handleLoginDone (s : App) : App :=
  let '(l, us) := handleLoginTimer (env_male env) (login s, users s) in
  with_stack (mkApp (appIsReady s) (prepare_pending s) (splash_timer s) l (edit s) (saving s) us
                    (theme s) (lang s) (stack s))
             (router_replace "/(tabs)" (stack s)).

(** An event of the profile editor; [Save] queues a timer. *)
Definition handleEdit (e : edit_event) (s : App) : App :=
  let '(ed, _, timer) := edit_step (env_male env) (env_female env) (env_toISOString env)
                                   (UserStore.user (users s)) (edit s) e in
  mkApp (appIsReady s) (prepare_pending s) (splash_timer s) (login s) ed
        (saving s ++ option_list timer) (users s) (theme s) (lang s) (stack s).

(** edit.tsx 145-159, the oldest timer: [if (user) setUser({...user, ...})],
    then [back()].  Its [setLoading(false)] reaches a screen that the
    [back()] unmounts, or one already unmounted. *)
Definition handleSaveTimer (s : App) : App :=
  match saving s with
  | (captured, f) :: rest =>
    let us := match captured with Some u => UserStore.setUser (saved_user u f) (users s) | None => users s end in
    with_stack (mkApp (appIsReady s) (prepare_pending s) (splash_timer s) (login s) (edit s) rest us
                      (theme s) (lang s) (stack s))
               (router_back (stack s))
  | [] => s
  end.

Definition handleSettings (e : settings_event) (s : App) : App :=
  let ss := settings_step (mkSettings (users s) (lang s) (theme s) "") e in
  with_stack (mkApp (appIsReady s) (prepare_pending s) (splash_timer s) (login s) (edit s) (saving s)
                    (st_user ss) (st_theme ss) (st_language ss) (stack s))
             (match settings_nav e with Some op => router_apply op (stack s) | None => stack s end).

(** What the rendered screen offers, and which callbacks are pending.
    Before [appIsReady] the root layout renders nothing. *)
Definition app_available (s : App) (e : app_event) : bool :=
  let shown r := appIsReady s && bool_decide (top s = Some r) in
  match e with
  | PrepareDone _ => prepare_pending s
  | SplashTimer => splash_timer s && shown RSplash
  | HomeGuard => shown (RTabs TabHome) && negb (UserStore.isLoggedIn (users s))
  | LoginPress => shown RLogin && negb (loading (login s))
  | LoginTimer => login_pending (login s)
  | HomeEditProfile | HomeCreate | HomeAnalytics =>
      shown (RTabs TabHome) && bool_decide (is_Some (UserStore.user (users s)))
  | TabPress _ => appIsReady s && match top s with Some r => is_tab r | None => false end
  | SettingsEv _ => shown (RTabs TabSettings)
  | EditEv (PermissionAnswered _ as e) | EditEv (LibraryAnswered _ as e) => edit_available (edit s) e
  | EditEv e => shown RProfileEdit && edit_available (edit s) e
  | SaveTimer => negb (bool_decide (saving s = []))
  | Back => appIsReady s && (1 <? List.length (stack s))%nat
  end.

Definition app_dispatch (s : App) (e : app_event) : App :=
  match e with
  | PrepareDone _ => handlePrepareDone s
  | SplashTimer => handleSplashTimer s
  | HomeGuard => with_stack s (router_replace "/login" (stack s))
  | LoginPress =>
      mkApp (appIsReady s) (prepare_pending s) (splash_timer s) (handleGoogleLogin (login s))
            (edit s) (saving s) (users s) (theme s) (lang s) (stack s)
  | LoginTimer => handleLoginDone s
  | HomeEditProfile => with_stack s (router_push "/profile/edit" (stack s))
  | HomeCreate => with_stack s (router_push "/(tabs)/create" (stack s))
  | HomeAnalytics => with_stack s (router_push "/(tabs)/analytics" (stack s))
  | TabPress t => with_stack s (RTabs t :: tail (stack s))
  | SettingsEv se => handleSettings se s
  | EditEv ee => handleEdit ee s
  | SaveTimer => handleSaveTimer s
  | Back => with_stack s (router_back (stack s))
  end.

Definition app_step (s : App) (e : app_event) : App := if app_available s e then app_dispatch s e else s.

Definition app_run (s : App) (es : list app_event) : App := fold_left app_step es s.

(** The pending callbacks, weighted so that every callback's firing
    lowers the count. *)
Definition pending (s : App) : nat :=
  2 * Nat.b2n (prepare_pending s) + Nat.b2n (splash_timer s) + Nat.b2n (login_pending (login s)) +
  2 * List.length (saving s) +
  2 * ed_awaitingPermission (edit s) + ed_awaitingLibrary (edit s) +
  Nat.b2n (bool_decide (top s = Some (RTabs TabHome)) && negb (UserStore.isLoggedIn (users s))).

End App.

(** ** A signed-in session *)

Definition session_user : User :=
  mkUser "user123" "Amir Gharegozlou" "everai@rexent.com" "male.png" [] None None None.

(** An environment: the two pictures, a one-country table, and a time
    zone's [Date] conversions for one fixed date. *)
Definition session_env : Env :=
  mkEnv "male.png" "female.png" [mkCountryCode "US" "United States" "us.png" "+1"]
        (fun _ => mkDate 2000 0 1) (fun _ => "2000-01-01T00:00:00.000Z").

Definition session_start : App :=
  app_init (UserStore.setUser session_user UserStore.initial) ThemeStore.initial language_initial.

(** Open the editor from the home tab, edit and save, go back, open the
    settings tab. *)
Definition save_then_settings : list app_event :=
  [PrepareDone true; SplashTimer; HomeEditProfile; EditEv (SetName "Amir G");
   EditEv (SetEmail "amir@example.com"); EditEv Save; Back; TabPress TabSettings].

(** ** The invariant of the app shell *)

(** The routes that show a signed-in user's data. *)
Definition needs_user (r : Route) : bool :=
  match r with RSplash | RLogin | RUnmatched _ => false | _ => true end.

Definition root_route (r : Route) : bool :=
  match r with RSplash | RLogin | RTabs _ => true | _ => false end.

Definition pushed_route (r : Route) : bool :=
  match r with RProfileEdit | RAbout | REverAi => true | _ => false end.

(** A root screen, or a screen pushed over a tab. *)
Definition stack_shape (st : list Route) : bool :=
  match st with
  | [r] => root_route r
  | [r; RTabs _] => pushed_route r
  | _ => false
  end.

Record nav_inv (s : App) : Prop := {
  inv_shape : stack_shape (stack s) = true;
  inv_logged : Forall (fun r => needs_user r = true -> UserStore.isLoggedIn (users s) = true) (stack s);
  inv_wf : UserStore.wf (users s);
  inv_boot : appIsReady s = false ->
             stack s = [RSplash] /\ prepare_pending s = true /\ splash_timer s = false /\
             login_pending (login s) = false /\ saving s = [];
  inv_prepared : prepare_pending s = true -> appIsReady s = false;
  inv_splash : splash_timer s = true -> stack s = [RSplash];
  inv_login : login_pending (login s) = true -> stack s = [RLogin];
  inv_captured : Forall (fun t => forall u, fst t = Some u -> NoDup (sp_id <$> u_connectedPlatforms u)) (saving s)
}.

(** A run whose every event the app offers at its turn. *)
Fixpoint valid_run (env : Env) (s : App) (es : list app_event) : bool :=
  match es with
  | [] => true
  | e :: es' => app_available s e && valid_run env (app_dispatch env s e) es'
  end.


(** One callback firing, with no press. *)
Definition env_step_rel (env : Env) (s' s : App) : Prop :=
  exists e, is_env e = true /\ app_available s e = true /\ s' = app_dispatch env s e.

(** The theme store's two colours are [#RRGGBB]. *)
Definition theme_hex (th : ThemeStore.state) : Prop :=
  hex_color 6 (ThemeStore.primaryColor th) = true /\ hex_color 6 (ThemeStore.secondaryColor th) = true.

(** ** Lemmas *)

Ltac inv_destruct H :=
  let Hsh := fresh "Hsh" in let Hlog := fresh "Hlog" in let Hwf := fresh "Hwf" in
  let Hboot := fresh "Hboot" in let Hprep := fresh "Hprep" in let Hspl := fresh "Hspl" in
  let Hlogin := fresh "Hlogin" in let Hcap := fresh "Hcap" in
  destruct H as [Hsh Hlog Hwf Hboot Hprep Hspl Hlogin Hcap].

Lemma shape_root (st : list Route) (r : Route) :
  stack_shape st = true -> head st = Some r -> root_route r = true -> st = [r].
Proof.
  intros Hs Hh Hr. destruct st as [|a [|b [|c st]]]; simpl in *; try done; [congruence| |];
    destruct b; try done; injection Hh as ->; by destruct r.
Qed.

Lemma head_needs_user (st : list Route) (r : Route) (P : Prop) :
  Forall (fun r => needs_user r = true -> P) st -> head st = Some r -> needs_user r = true -> P.
Proof. destruct st; simpl; [done|]. intros Hf [= ->]. by apply Forall_cons_1 in Hf as [Hr _]. Qed.

Lemma router_back_forall (P : Route -> Prop) (st : list Route) : Forall P st -> Forall P (router_back st).
Proof. destruct st as [|a [|b st]]; simpl; try done. by intros Hf; apply Forall_cons_1 in Hf as [_ Hf]. Qed.

Lemma shape_back (st : list Route) : stack_shape st = true -> stack_shape (router_back st) = true.
Proof. destruct st as [|a [|b [|c st]]]; simpl; try done; by destruct b. Qed.

Lemma settings_step_user us l th r e :
  st_user (settings_step (mkSettings us l th r) e) =
  match e with Logout => UserStore.logout us | _ => us end.
Proof. destruct e; simpl; try done. by case_bool_decide. Qed.

Ltac no_timers Hspl Hlogin :=
  try (match type of Hspl with ?spl = true -> _ => destruct spl; [discriminate (Hspl eq_refl)|] end);
  try (match type of Hlogin with ?lp = true -> _ => destruct lp; [discriminate (Hlogin eq_refl)|] end).

Ltac home_press Hav Hsh Hlog Hspl Hlogin :=
  apply andb_prop in Hav as [Hav1 _]; apply andb_prop in Hav1 as [-> Ht]; apply bool_decide_eq_true in Ht;
  pose proof (head_needs_user _ _ _ Hlog Ht eq_refl) as Hl;
  pose proof (shape_root _ _ Hsh Ht eq_refl) as ->; no_timers Hspl Hlogin;
  constructor; simpl; try done; repeat constructor; by intros.

Lemma edit_step_timer m f iso u ed e ed' fx t :
  edit_step m f iso u ed e = (ed', fx, Some t) -> e = Save /\ fst t = u.
Proof.
  destruct e; simpl; try discriminate.
  - by destruct (handlePermission _ ed).
  - unfold handleSavePress. destruct (validateForm _); [discriminate|]. by intros [= _ _ <-].
Qed.

(** Every step the rendered app offers keeps the invariant. *)
Lemma step_inv env s e : nav_inv s -> app_available s e = true -> nav_inv (app_dispatch env s e).
Proof.
  intros Hi Hav. destruct s as [rdy pp spl [ld lp] ed sv us th lg st]. inv_destruct Hi. simpl in *.
  destruct e; simpl in Hav |- *.
  - (* PrepareDone *) destruct (Hboot (Hprep Hav)) as (-> & _ & _ & Hlp & ->). simpl in Hlp. subst.
    unfold handlePrepareDone. constructor; simpl; try done; repeat constructor; try done.
  - (* SplashTimer *) apply andb_prop in Hav as [Hav1 Hav2]. apply andb_prop in Hav2 as [Hr _].
    pose proof (Hspl Hav1) as ->. destruct rdy; [|done].
    assert (lp = false) as -> by (destruct lp; [discriminate (Hlogin eq_refl)|done]).
    unfold handleSplashTimer; simpl.
    destruct (UserStore.isLoggedIn us) eqn:Hl; constructor; simpl; try done; repeat constructor; done.
  - (* HomeGuard *) apply andb_prop in Hav as [Hav1 Hl]. apply andb_prop in Hav1 as [_ Ht].
    apply bool_decide_eq_true in Ht. rewrite (head_needs_user _ _ _ Hlog Ht) in Hl; done.
  - (* LoginPress *) apply andb_prop in Hav as [Hav1 Hl]. apply andb_prop in Hav1 as [-> Ht].
    apply bool_decide_eq_true in Ht. pose proof (shape_root _ _ Hsh Ht eq_refl) as ->.
    constructor; simpl; try done.
  - (* LoginTimer *) pose proof (Hlogin Hav) as ->. subst lp.
    destruct rdy; [|by destruct (Hboot eq_refl) as (_ & _ & _ & ? & _)].
    assert (spl = false) as -> by (destruct spl; [discriminate (Hspl eq_refl)|done]).
    constructor; simpl; try done; repeat constructor; done.
  - (* HomeEditProfile *) home_press Hav Hsh Hlog Hspl Hlogin.
  - home_press Hav Hsh Hlog Hspl Hlogin.
  - home_press Hav Hsh Hlog Hspl Hlogin.
  - (* TabPress *) apply andb_prop in Hav as [-> Ht].
    destruct st as [|r st]; [done|]. destruct r; try done.
    pose proof (shape_root _ _ Hsh eq_refl eq_refl) as [= ->].
    pose proof (head_needs_user _ _ _ Hlog eq_refl eq_refl) as Hl. no_timers Hspl Hlogin.
    constructor; simpl; try done; repeat constructor; by intros.
  - (* SettingsEv *) apply andb_prop in Hav as [-> Ht]. apply bool_decide_eq_true in Ht.
    pose proof (head_needs_user _ _ _ Hlog Ht eq_refl) as Hl.
    pose proof (shape_root _ _ Hsh Ht eq_refl) as ->. no_timers Hspl Hlogin.
    unfold handleSettings. rewrite settings_step_user.
    destruct e; simpl; constructor; simpl; try done; repeat constructor; try by intros.
    (* the remaining goals: the theme and language fields *)
    all: idtac.
  - (* EditEv *) unfold handleEdit.
    destruct (edit_step _ _ _ _ _ e) as [[ed' fx] [t|]] eqn:E.
    + destruct (edit_step_timer _ _ _ _ _ _ _ _ _ E) as [-> Ht]. simpl in Hav.
      apply andb_prop in Hav as [Hav _]. apply andb_prop in Hav as [-> _].
      constructor; simpl; try done. apply Forall_app; split; [done|]. repeat constructor.
      intros u Hu. simpl in Ht. rewrite Ht in Hu. destruct Hwf as [_ Hwf]. by rewrite Hu in Hwf.
    + simpl. rewrite app_nil_r. constructor; simpl; try done.
  - (* SaveTimer *) destruct sv as [|[cap f] rest]; [done|]. unfold handleSaveTimer. simpl.
    apply Forall_cons_1 in Hcap as [Hc Hcap].
    destruct rdy; [|by destruct (Hboot eq_refl) as (_ & _ & _ & _ & ?)].
    constructor; simpl; try done.
    + by apply shape_back.
    + case_match; simpl; [apply Forall_forall; by intros|by apply router_back_forall].
    + case_match eqn:Hx; [|done]. split; [done|].
      simpl. first [by apply Hc | destruct Hwf as [_ Hw]; by rewrite Hx in Hw].
    + intros Hs. by rewrite (Hspl Hs).
    + intros Hs. by rewrite (Hlogin Hs).
  - (* Back *) apply andb_prop in Hav as [-> Hl]. no_timers Hspl Hlogin.
    constructor; simpl; try done; [by apply shape_back|by apply router_back_forall| |].
    + intros Hs. by rewrite (Hspl Hs) in Hl.
    + intros Hs. by rewrite (Hlogin Hs) in Hl.
Qed.

Lemma app_step_inv env s e : nav_inv s -> nav_inv (app_step env s e).
Proof. intros Hi. unfold app_step. destruct (app_available s e) eqn:E; [by apply step_inv|done]. Qed.

Lemma app_init_inv us th l : UserStore.wf us -> nav_inv (app_init us th l).
Proof. intros Hwf. constructor; simpl; try done; intros; repeat split; repeat constructor; by intros. Qed.

Lemma settings_step_theme us l th r e :
  st_theme (settings_step (mkSettings us l th r) e) =
  match e with
  | ToggleDark => ThemeStore.toggleDarkMode th
  | PickColor c => if bool_decide (c ∈ settings_colors) then ThemeStore.setPrimaryColor c th else th
  | _ => th
  end.
Proof. destruct e; simpl; try done. by case_bool_decide. Qed.

Lemma b2n_le_1 (b : bool) : Nat.b2n b <= 1.
Proof. destruct b; simpl; lia. Qed.

Ltac b2n_lia :=
  repeat match goal with
  | |- context [Nat.b2n ?b] => assert_fails (assert (Nat.b2n b <= 1) by assumption); pose proof (b2n_le_1 b)
  end; lia.

Lemma route_home_dec (r : Route) :
  bool_decide (Some r = Some (RTabs TabHome)) = match r with RTabs TabHome => true | _ => false end.
Proof. destruct r as [| |[]| | | |]; reflexivity. Qed.

Ltac pending_simpl :=
  simpl; rewrite ?route_home_dec, ?andb_false_r, ?app_nil_r; simpl;
  repeat match goal with |- context [if ?b then edit_mount _ _ _ _ _ else _] => destruct b end;
  simpl; b2n_lia.

(** Every callback that fires lowers the count of pending callbacks. *)
Lemma env_step_pending env s e :
  is_env e = true -> app_available s e = true -> pending (app_dispatch env s e) < pending s.
Proof.
  destruct s as [rdy pp spl [ld lp] ed sv us th lg st].
  destruct e; simpl; intros He Hav; try done; unfold pending, top.
  - rewrite Hav. pending_simpl.
  - apply andb_prop in Hav as [-> _]. unfold handleSplashTimer, with_stack, top.
    simpl. destruct (UserStore.isLoggedIn us); pending_simpl.
  - apply andb_prop in Hav as [Hav Hl]. apply andb_prop in Hav as [_ Ht]. unfold top in Ht. simpl in Ht.
    unfold with_stack, top. simpl. rewrite Ht, Hl. pending_simpl.
  - rewrite Hav. unfold handleLoginDone, handleLoginTimer, with_stack, top. simpl. pending_simpl.
  - unfold handleEdit. destruct e; try done; simpl in Hav |- *; apply Nat.ltb_lt in Hav.
    + unfold handlePermission. destruct granted; pending_simpl.
    + unfold handleLibrary. destruct uri; pending_simpl.
  - destruct sv as [|[cap f] rest]; [done|]. unfold handleSaveTimer, with_stack, top. pending_simpl.
Qed.

Lemma settings_colors_hex (c : string) : c ∈ settings_colors -> hex_color 6 c = true.
Proof.
  unfold settings_colors. intros Hc.
  repeat (apply elem_of_cons in Hc as [->|Hc]; [reflexivity|]). by apply elem_of_nil in Hc.
Qed.

Lemma step_theme_hex env s e : theme_hex (theme s) -> theme_hex (theme (app_step env s e)).
Proof.
  unfold app_step. destruct (app_available s e); [|done]. intros Hh.
  destruct e; simpl; try done.
  - unfold handleLoginDone. by destruct (handleLoginTimer _ _).
  - unfold handleSettings. simpl. rewrite settings_step_theme. destruct e; try done.
    case_bool_decide as Hc; [|done]. split; [by apply settings_colors_hex|apply Hh].
  - unfold handleEdit. by destruct (edit_step _ _ _ _ _ _) as [[? ?] ?].
  - unfold handleSaveTimer. by destruct (saving s) as [|[? ?] ?].
Qed.

Lemma guard_dead (s : App) : nav_inv s -> app_available s HomeGuard = false.
Proof.
  intros Hi. unfold app_available. destruct (appIsReady s); [|done]. simpl.
  case_bool_decide as Ht; [|done]. by rewrite (head_needs_user _ _ _ (inv_logged _ Hi) Ht eq_refl).
Qed.

(** Every state the app reaches from a well-formed persisted store
    satisfies the invariant. *)
Lemma reachable_nav_inv env us th l s :
  UserStore.wf us -> reachable (app_step env) (app_init us th l) s -> nav_inv s.
Proof.
  intros Hwf. apply reachable_invariant; [by apply app_init_inv|]. intros s' e. apply app_step_inv.
Qed.

(** A state with a save timer pending has prepared. *)
Lemma saving_ready s : nav_inv s -> saving s <> [] -> appIsReady s = true.
Proof.
  intros Hi Hs. destruct (appIsReady s) eqn:E; [done|]. by destruct (inv_boot _ Hi E) as (_ & _ & _ & _ & ?).
Qed.

(** ** Properties *)

(** C9. Along every run of the app from a persisted, well-formed user
    store: the router stack is a root screen (splash, login or a tab) or
    one screen pushed over a tab; every screen in it that shows a user's
    data is there only while [isLoggedIn]; the user store stays
    well-formed; the login wait runs only on the login screen.  The home
    tab's redirect to [/login] is therefore never enabled. *)
Theorem app_invariant (env : Env) (us : UserStore.state) (th : ThemeStore.state) (l : LanguageState)
    (s : App) :
  UserStore.wf us -> reachable (app_step env) (app_init us th l) s ->
  nav_inv s /\ app_available s HomeGuard = false.
Proof.
  intros Hwf Hr. pose proof (reachable_nav_inv _ _ _ _ _ Hwf Hr) as Hi. split; [done|by apply guard_dead].
Qed.

(** C16. The app always leaves the splash screen.  From a persisted
    store, before any press, the only event is the root layout's
    [prepare()] settling (whether [loadFont] succeeds or fails); then the
    only event is the splash timer; after it the app shows the home tab
    when a user is persisted and the login screen otherwise, with the
    system font and no callback pending. *)
Theorem startup_reaches_first_screen (env : Env) (us : UserStore.state) (th : ThemeStore.state)
    (l : LanguageState) (ok : bool) :
  let s0 := app_init us th l in
  let s1 := app_step env s0 (PrepareDone ok) in
  let s2 := app_step env s1 SplashTimer in
  (forall e, app_available s0 e = true <-> exists b, e = PrepareDone b) /\
  (forall e, app_available s1 e = true <-> e = SplashTimer) /\
  top s2 = Some (if UserStore.isLoggedIn us then RTabs TabHome else RLogin) /\
  ThemeStore.font (theme s2) = FontSystem /\ pending s2 = 0.
Proof.
  simpl. split; [|split].
  - intros e; split; [|by intros [b ->]].
    destruct e; simpl; try done; [by eexists|by destruct e].
  - intros e; split; [|by intros ->]. destruct e; simpl; try done. by destruct e.
  - destruct us as [u []]; vm_compute; repeat split.
Qed.

(** C17. The callbacks alone run out: every sequence of callbacks (timers,
    promises and the home tab's effect) the app lets fire, with no press
    in between, is no longer than the weighted count [pending] of the
    callbacks pending at its start. *)
Theorem callbacks_terminate (env : Env) (s : App) (es : list app_event) :
  Forall (fun e => is_env e = true) es -> valid_run env s es = true ->
  length es <= pending s.
Proof.
  revert s. induction es as [|e es IH]; intros s Hes Hv; simpl; [lia|].
  apply Forall_cons_1 in Hes as [He Hes]. apply andb_prop in Hv as [Ha Hv].
  pose proof (env_step_pending env s e He Ha). specialize (IH _ Hes Hv). lia.
Qed.

(** C31. The theme colours keep their type: from a theme store whose two
    colours are [#RRGGBB], along every run of the app they remain so (the
    only colour the app sets is a swatch of the settings screen), hence
    every colour built from them with a two-digit alpha is a [#RRGGBBAA]
    colour: the cards' glass, gradient and border colours on every
    platform, the background's gradient and overlay, the glass button's
    [`${primaryColor}60`] and [`${secondaryColor}40`], and the highlights
    of the platform and content type selectors. *)
Theorem theme_colors_hex (env : Env) (us : UserStore.state) (th : ThemeStore.state) (l : LanguageState)
    (s : App) :
  theme_hex th -> reachable (app_step env) (app_init us th l) s ->
  theme_hex (theme s) /\
  decor_colors_hex (ThemeStore.primaryColor (theme s)) (ThemeStore.secondaryColor (theme s)).
Proof.
  intros Hth Hr.
  assert (Hh : theme_hex (theme s)).
  { revert Hr. apply (reachable_invariant (app_step env) (fun s => theme_hex (theme s))); [done|].
    intros s' e. apply step_theme_hex. }
  split; [done|]. destruct Hh as [Hp Hs]. by apply theme_decor_hex.
Qed.

(** C18. The profile editor's save timer outlives the screen.  In every
    state the app reaches from a well-formed persisted store where the
    settings tab is shown while a save timer is pending, with the user
    [u] and the form [f] its closure captured: the app offers [Logout]
    and then the timer's firing, after which the login screen is shown
    with [saved_user u f] signed in again; it also offers [About] and then
    the timer's firing, whose [router.back()] closes the [About] screen
    instead of the editor. *)
Theorem save_timer_races (env : Env) (us : UserStore.state) (th : ThemeStore.state) (l : LanguageState)
    (s : App) (u : User) (f : ProfileFields) rest :
  UserStore.wf us -> reachable (app_step env) (app_init us th l) s ->
  saving s = (Some u, f) :: rest -> top s = Some (RTabs TabSettings) ->
  let s1 := app_run env s [SettingsEv Logout; SaveTimer] in
  let s2 := app_run env s [SettingsEv About; SaveTimer] in
  valid_run env s [SettingsEv Logout; SaveTimer] = true /\
  top s1 = Some RLogin /\ UserStore.user (users s1) = Some (saved_user u f) /\
  UserStore.isLoggedIn (users s1) = true /\
  valid_run env s [SettingsEv About; SaveTimer] = true /\
  top (app_step env s (SettingsEv About)) = Some RAbout /\ top s2 = Some (RTabs TabSettings).
Proof.
  intros Hwf Hr Hsv Ht. pose proof (reachable_nav_inv _ _ _ _ _ Hwf Hr) as Hi.
  pose proof (saving_ready s Hi ltac:(by rewrite Hsv)) as Hrdy.
  pose proof (shape_root _ _ (inv_shape _ Hi) Ht eq_refl) as Hst.
  destruct s as [rdy pp spl lg ed sv us' th' lg' st]; simpl in *. subst rdy sv st.
  unfold app_run, app_step, top. simpl. repeat split.
Qed.

Lemma app_invariant_witness :
  UserStore.wf (UserStore.setUser session_user UserStore.initial) /\
  nav_inv (app_run session_env session_start save_then_settings) /\
  app_available (app_run session_env session_start save_then_settings) HomeGuard = false.
Proof.
  assert (Hwf : UserStore.wf (UserStore.setUser session_user UserStore.initial)) by (split; [reflexivity|constructor]).
  split; [exact Hwf|].
  exact (app_invariant session_env _ ThemeStore.initial language_initial _ Hwf (reachable_run _ _ _)).
Defined.

(** The state of the run above: the settings tab over the pending save. *)
Definition after_save : App := app_run session_env session_start save_then_settings.

Lemma save_timer_races_witness :
  let f := snd (hd (None, mkProfileFields "" "" "" "" None None "" "") (saving after_save)) in
  saving after_save = [(Some session_user, f)] /\ top after_save = Some (RTabs TabSettings) /\
  top (app_run session_env after_save [SettingsEv Logout; SaveTimer]) = Some RLogin.
Proof.
  intros f.
  assert (Hwf : UserStore.wf (UserStore.setUser session_user UserStore.initial)) by (split; [reflexivity|constructor]).
  assert (Hs : saving after_save = [(Some session_user, f)]) by (vm_compute; reflexivity).
  assert (Ht : top after_save = Some (RTabs TabSettings)) by (vm_compute; reflexivity).
  split; [exact Hs|]. split; [exact Ht|].
  exact (proj1 (proj2 (save_timer_races session_env _ ThemeStore.initial language_initial after_save
    session_user f [] Hwf (reachable_run _ _ _) Hs Ht))).
Defined.

Lemma callbacks_terminate_witness :
  Forall (fun e => is_env e = true) [PrepareDone false; SplashTimer] /\
  valid_run session_env session_start [PrepareDone false; SplashTimer] = true /\
  length [PrepareDone false; SplashTimer] <= pending session_start.
Proof.
  assert (He : Forall (fun e => is_env e = true) [PrepareDone false; SplashTimer]) by repeat constructor.
  assert (Hv : valid_run session_env session_start [PrepareDone false; SplashTimer] = true) by reflexivity.
  split; [exact He|split; [exact Hv|]]. exact (callbacks_terminate session_env session_start _ He Hv).
Defined.

Lemma theme_colors_hex_witness :
  let s := app_run session_env session_start (save_then_settings ++ [SettingsEv (PickColor "#ec4899")]) in
  theme_hex ThemeStore.initial /\ theme_hex (theme s) /\
  decor_colors_hex (ThemeStore.primaryColor (theme s)) (ThemeStore.secondaryColor (theme s)).
Proof.
  assert (Hth : theme_hex ThemeStore.initial) by (split; reflexivity).
  split; [exact Hth|].
  exact (theme_colors_hex session_env _ ThemeStore.initial language_initial _ Hth (reachable_run _ _ _)).
Defined.

(** The callbacks alone cannot fire forever: the relation of one callback
    firing is well founded, by the measure [pending]. *)
Lemma env_step_wf (env : Env) : well_founded (env_step_rel env).
Proof.
  apply (wf_incl _ _ (ltof App pending)); [|apply well_founded_ltof].
  intros s' s (e & He & Ha & ->). by apply env_step_pending.
Qed.
